(** * QWindowKit: the Win32 window context, embedded and verified

    A shallow embedding of
    - [src/core/handler/abstractwindowcontext.cpp] and
    - [src/core/contexts/win32windowcontext.cpp]
    together with the properties of their message handling that the
    specification states.

    Conventions.
    - Machine integers are [Z]; every conversion the C++ performs is
      written out ([to_LONG], [to_UINT], [to_short], [LOWORD], ...).
      The target is 64-bit Windows: [WPARAM] is an unsigned and
      [LPARAM]/[LRESULT] a signed 64-bit integer, [LONG] is 32 bits.
    - Pointers and handles ([HWND], [QObject *], [WNDPROC], ...) are
      [Z], with [0] for [nullptr].
    - The operating system and the toolkit are oracles collected in the
      record [Os]; calls that act on the outside world are appended to a
      trace of [OsCall]s.
    - The handlers are written in a small state monad over the mutable
      data they touch (the context's fields, [*result], the rectangle
      [lParam] points to, the trace). *)

From Stdlib Require Import ZArith Lia List Bool.
From stdpp Require Import base option list gmap.

Local Open Scope Z_scope.
Set Default Proof Using "Type".

(** ** Machine integers *)

Definition to_UINT (z : Z) : Z := z mod 2 ^ 32.
Definition to_LONG (z : Z) : Z := (z + 2 ^ 31) mod 2 ^ 32 - 2 ^ 31.
Definition to_short (z : Z) : Z := (z + 2 ^ 15) mod 2 ^ 16 - 2 ^ 15.

Definition in_LONG (z : Z) : Prop := - 2 ^ 31 <= z < 2 ^ 31.

Definition LOWORD (l : Z) : Z := Z.land l 0xffff.
Definition HIWORD (l : Z) : Z := Z.land (Z.shiftr l 16) 0xffff.
Definition MAKELONG (a b : Z) : Z :=
  Z.lor (Z.land a 0xffff) (Z.shiftl (Z.land b 0xffff) 16).
Definition MAKEWPARAM (l h : Z) : Z := MAKELONG l h.
Definition MAKELPARAM (l h : Z) : Z := MAKELONG l h.
Definition GET_X_LPARAM (lp : Z) : Z := to_short (LOWORD lp).
Definition GET_Y_LPARAM (lp : Z) : Z := to_short (HIWORD lp).
Definition GET_XBUTTON_WPARAM (wParam : Z) : Z := HIWORD wParam.

(** ** Constants of the Windows SDK (and of qwindowkit_windows.h for the
    two undocumented teardown messages) *)

Abbreviation FALSE := 0 (only parsing).
Abbreviation TRUE := 1 (only parsing).

Abbreviation WM_DESTROY := 0x0002 (only parsing).
Abbreviation WM_CLOSE := 0x0010 (only parsing).
Abbreviation WM_NCDESTROY := 0x0082 (only parsing).
Abbreviation WM_NCCALCSIZE := 0x0083 (only parsing).
Abbreviation WM_NCHITTEST := 0x0084 (only parsing).
Abbreviation WM_UAHDESTROYWINDOW := 0x0090 (only parsing).
Abbreviation WM_NCMOUSEMOVE := 0x00A0 (only parsing).
Abbreviation WM_NCLBUTTONDOWN := 0x00A1 (only parsing).
Abbreviation WM_NCLBUTTONUP := 0x00A2 (only parsing).
Abbreviation WM_NCLBUTTONDBLCLK := 0x00A3 (only parsing).
Abbreviation WM_NCRBUTTONDOWN := 0x00A4 (only parsing).
Abbreviation WM_NCRBUTTONUP := 0x00A5 (only parsing).
Abbreviation WM_NCRBUTTONDBLCLK := 0x00A6 (only parsing).
Abbreviation WM_NCMBUTTONDOWN := 0x00A7 (only parsing).
Abbreviation WM_NCMBUTTONUP := 0x00A8 (only parsing).
Abbreviation WM_NCMBUTTONDBLCLK := 0x00A9 (only parsing).
Abbreviation WM_NCXBUTTONDOWN := 0x00AB (only parsing).
Abbreviation WM_NCXBUTTONUP := 0x00AC (only parsing).
Abbreviation WM_NCXBUTTONDBLCLK := 0x00AD (only parsing).
Abbreviation WM_MOUSEMOVE := 0x0200 (only parsing).
Abbreviation WM_LBUTTONDOWN := 0x0201 (only parsing).
Abbreviation WM_LBUTTONUP := 0x0202 (only parsing).
Abbreviation WM_LBUTTONDBLCLK := 0x0203 (only parsing).
Abbreviation WM_RBUTTONDOWN := 0x0204 (only parsing).
Abbreviation WM_RBUTTONUP := 0x0205 (only parsing).
Abbreviation WM_RBUTTONDBLCLK := 0x0206 (only parsing).
Abbreviation WM_MBUTTONDOWN := 0x0207 (only parsing).
Abbreviation WM_MBUTTONUP := 0x0208 (only parsing).
Abbreviation WM_MBUTTONDBLCLK := 0x0209 (only parsing).
Abbreviation WM_XBUTTONDOWN := 0x020B (only parsing).
Abbreviation WM_XBUTTONUP := 0x020C (only parsing).
Abbreviation WM_XBUTTONDBLCLK := 0x020D (only parsing).
Abbreviation WM_UNREGISTER_WINDOW_SERVICES := 0x0272 (only parsing).
Abbreviation WM_NCMOUSEHOVER := 0x02A0 (only parsing).
Abbreviation WM_MOUSEHOVER := 0x02A1 (only parsing).
Abbreviation WM_NCMOUSELEAVE := 0x02A2 (only parsing).
Abbreviation WM_MOUSELEAVE := 0x02A3 (only parsing).

Abbreviation HTERROR := (-2) (only parsing).
Abbreviation HTNOWHERE := 0 (only parsing).
Abbreviation HTCLIENT := 1 (only parsing).
Abbreviation HTCAPTION := 2 (only parsing).
Abbreviation HTSYSMENU := 3 (only parsing).
Abbreviation HTREDUCE := 8 (only parsing).
Abbreviation HTZOOM := 9 (only parsing).
Abbreviation HTLEFT := 10 (only parsing).
Abbreviation HTRIGHT := 11 (only parsing).
Abbreviation HTTOP := 12 (only parsing).
Abbreviation HTTOPLEFT := 13 (only parsing).
Abbreviation HTTOPRIGHT := 14 (only parsing).
Abbreviation HTBOTTOM := 15 (only parsing).
Abbreviation HTBOTTOMLEFT := 16 (only parsing).
Abbreviation HTBOTTOMRIGHT := 17 (only parsing).
Abbreviation HTBORDER := 18 (only parsing).
Abbreviation HTCLOSE := 20 (only parsing).
Abbreviation HTHELP := 21 (only parsing).

Abbreviation WVR_HREDRAW := 0x0100 (only parsing).
Abbreviation WVR_VREDRAW := 0x0200 (only parsing).
Abbreviation WVR_VALIDRECTS := 0x0400 (only parsing).
Definition WVR_REDRAW : Z := Z.lor WVR_HREDRAW WVR_VREDRAW.

Abbreviation VK_LBUTTON := 0x01 (only parsing).
Abbreviation VK_RBUTTON := 0x02 (only parsing).
Abbreviation VK_MBUTTON := 0x04 (only parsing).
Abbreviation VK_XBUTTON1 := 0x05 (only parsing).
Abbreviation VK_XBUTTON2 := 0x06 (only parsing).
Abbreviation VK_SHIFT := 0x10 (only parsing).
Abbreviation VK_CONTROL := 0x11 (only parsing).

Abbreviation MK_LBUTTON := 0x0001 (only parsing).
Abbreviation MK_RBUTTON := 0x0002 (only parsing).
Abbreviation MK_SHIFT := 0x0004 (only parsing).
Abbreviation MK_CONTROL := 0x0008 (only parsing).
Abbreviation MK_MBUTTON := 0x0010 (only parsing).
Abbreviation MK_XBUTTON1 := 0x0020 (only parsing).
Abbreviation MK_XBUTTON2 := 0x0040 (only parsing).

Abbreviation SM_SWAPBUTTON := 23 (only parsing).
Abbreviation SM_CXSIZEFRAME := 32 (only parsing).
Abbreviation SM_CXPADDEDBORDER := 92 (only parsing).
Abbreviation USER_DEFAULT_SCREEN_DPI := 96 (only parsing).

Abbreviation TME_LEAVE := 0x00000002 (only parsing).
Abbreviation TME_NONCLIENT := 0x00000010 (only parsing).
Abbreviation HOVER_DEFAULT := 0xFFFFFFFF (only parsing).

Abbreviation WS_DISABLED := 0x08000000 (only parsing).
Abbreviation WS_EX_TOOLWINDOW := 0x00000080 (only parsing).

Abbreviation ABS_AUTOHIDE := 0x0000001 (only parsing).
Abbreviation ABE_LEFT := 0 (only parsing).
Abbreviation ABE_TOP := 1 (only parsing).
Abbreviation ABE_RIGHT := 2 (only parsing).
Abbreviation ABE_BOTTOM := 3 (only parsing).

(** ** Geometry *)

Record POINT := mkPOINT { pt_x : Z; pt_y : Z }.

Record RECT := mkRECT { left : Z; top : Z; right : Z; bottom : Z }.

(** [operator==(const RECT &, const RECT &)] *)
Definition RECT_eqb (lhs rhs : RECT) : bool :=
  (left lhs =? left rhs) && (top lhs =? top rhs) &&
  (right lhs =? right rhs) && (bottom lhs =? bottom rhs).

Definition RECT_zero : RECT := mkRECT 0 0 0 0.

(** ** AbstractWindowContext (abstractwindowcontext.cpp) *)

(** Modelled from the spec: the enumeration [CoreWindowAgent::SystemButton]
    is declared in a header that is not part of the sources; the roles are
    the ones the specification lists (minimize, maximize, close,
    system-menu, help, unknown). *)
Inductive SystemButton :=
  Unknown | WindowIcon | Help | Minimize | Maximize | Close.

Definition SystemButton_eqb (a b : SystemButton) : bool :=
  match a, b with
  | Unknown, Unknown | WindowIcon, WindowIcon | Help, Help
  | Minimize, Minimize | Maximize, Maximize | Close, Close => true
  | _, _ => false
  end.

(** A [QRect] as the code uses it: [isValid()] is
    [left <= right && top <= bottom] on the stored corners. *)
Record QRect := mkQRect { x1 : Z; y1 : Z; x2 : Z; y2 : Z }.

Definition QRect_isValid (r : QRect) : bool := (x1 r <=? x2 r) && (y1 r <=? y2 r).

Definition QRect_eqb (a b : QRect) : bool :=
  (x1 a =? x1 b) && (y1 a =? y1 b) && (x2 a =? x2 b) && (y2 a =? y2 b).

(** The fields of the abstract context the code below touches.
    [m_systemButtons] is indexed by the role; [m_hitTestVisibleItems] is a
    set of object pointers, [m_hitTestVisibleRects] an ordered list. *)
Record AbstractWindowContext := mkAbstract {
  m_windowHandle : Z;
  m_hitTestVisibleItems : gset Z;
  m_hitTestVisibleRects : list QRect;
  m_titleBar : Z;
  m_systemButtons : SystemButton -> Z;
}.

Definition with_windowHandle (w : Z) (c : AbstractWindowContext) :=
  mkAbstract w (m_hitTestVisibleItems c) (m_hitTestVisibleRects c)
             (m_titleBar c) (m_systemButtons c).
Definition with_hitTestVisibleItems (s : gset Z) (c : AbstractWindowContext) :=
  mkAbstract (m_windowHandle c) s (m_hitTestVisibleRects c)
             (m_titleBar c) (m_systemButtons c).
Definition with_hitTestVisibleRects (l : list QRect) (c : AbstractWindowContext) :=
  mkAbstract (m_windowHandle c) (m_hitTestVisibleItems c) l
             (m_titleBar c) (m_systemButtons c).
Definition with_titleBar (t : Z) (c : AbstractWindowContext) :=
  mkAbstract (m_windowHandle c) (m_hitTestVisibleItems c)
             (m_hitTestVisibleRects c) t (m_systemButtons c).
Definition with_systemButtons (f : SystemButton -> Z) (c : AbstractWindowContext) :=
  mkAbstract (m_windowHandle c) (m_hitTestVisibleItems c)
             (m_hitTestVisibleRects c) (m_titleBar c) f.

(** [m_systemButtons[button] = obj] *)
Definition set_systemButton (button : SystemButton) (obj : Z)
    (f : SystemButton -> Z) : SystemButton -> Z :=
  fun b => if SystemButton_eqb b button then obj else f b.

(** [AbstractWindowContext::setupWindow] *)
Definition setupWindow (window : Z) (c : AbstractWindowContext)
    : AbstractWindowContext :=
  with_windowHandle window c.

(** [AbstractWindowContext::setHitTestVisible(QObject *, bool)] *)
Definition setHitTestVisible_obj (obj : Z) (visible : bool)
    (c : AbstractWindowContext) : bool * AbstractWindowContext :=
  if obj =? 0 then (false, c)
  else if visible
  then (true, with_hitTestVisibleItems ({[ obj ]} ∪ m_hitTestVisibleItems c) c)
  else (true, with_hitTestVisibleItems (m_hitTestVisibleItems c ∖ {[ obj ]}) c).

(** [AbstractWindowContext::setHitTestVisible(const QRect &, bool)] *)
Definition setHitTestVisible_rect (rect : QRect) (visible : bool)
    (c : AbstractWindowContext) : bool * AbstractWindowContext :=
  if negb (QRect_isValid rect) then (false, c)
  else if visible
  then (true, with_hitTestVisibleRects (m_hitTestVisibleRects c ++ [rect]) c)
  else (true, with_hitTestVisibleRects
                (List.filter (fun r => negb (QRect_eqb r rect))
                             (m_hitTestVisibleRects c)) c).

(** [AbstractWindowContext::setSystemButton] *)
Definition setSystemButton (button : SystemButton) (obj : Z)
    (c : AbstractWindowContext) : bool * AbstractWindowContext :=
  if (obj =? 0) || SystemButton_eqb button Unknown then (false, c)
  else if m_systemButtons c button =? obj then (false, c)
  else (true, with_systemButtons
                (set_systemButton button obj (m_systemButtons c)) c).

(** [AbstractWindowContext::setTitleBar] *)
Definition setTitleBar (item : Z) (c : AbstractWindowContext)
    : bool * AbstractWindowContext :=
  if item =? 0 then (false, c)
  else if m_titleBar c =? item then (false, c)
  else (true, with_titleBar item c).

(** ** The operating system and the toolkit, as oracles

    One value of [Os] is what the system answers while one message is
    being handled.  A field that stands for an optional entry point of
    [DynamicApis] is an [option]. *)

Abbreviation MONITOR_DEFAULTTOPRIMARY := 1 (only parsing).
Abbreviation MONITOR_DEFAULTTONEAREST := 2 (only parsing).

(** A window procedure: [nullptr], the hook of this library, or some
    other procedure (Qt's own, in practice). *)
Inductive WNDPROC :=
| NullProc
| HookedProc                       (* [QWKHookedWndProc] *)
| OtherProc (address : positive).

Definition WNDPROC_isNull (p : WNDPROC) : bool :=
  match p with NullProc => true | _ => false end.

Record Os := mkOs {
  (* QOperatingSystemVersion *)
  os_isWin8Point1OrGreater : bool;
  os_isWin10OrGreater : bool;
  (* DynamicApis *)
  pGetDpiForWindow : option (Z -> Z);
  pGetSystemMetricsForDpi : option (Z -> Z -> Z);
  pGetDpiForMonitor : option (Z -> option Z);   (* monitor -> dpiX, when it succeeds *)
  (* user32 *)
  GetSystemMetrics : Z -> Z;
  GetDeviceCaps_LOGPIXELSX : Z;
  GetAsyncKeyState : Z -> Z;
  GetMessagePos : Z;
  ScreenToClient : Z -> POINT -> POINT;
  IsWindow : Z -> bool;
  IsWindowVisible : Z -> bool;
  IsZoomed : Z -> bool;
  GetWindowLongPtrW_STYLE : Z -> Z;
  GetWindowLongPtrW_EXSTYLE : Z -> Z;
  GetWindowRect : Z -> option RECT;             (* [None]: the call returned FALSE *)
  GetAncestor_ROOT : Z -> Z;
  MonitorFromWindow : Z -> Z -> Z;
  GetMonitorInfoW_rcMonitor : Z -> option RECT; (* [None]: the structure stays zeroed *)
  FindWindowW_Shell_TrayWnd : Z;
  DefWindowProcW_ret : Z -> Z -> Z -> Z -> Z;
  (* what the default procedure answers to WM_NCCALCSIZE and the
     rectangle it leaves behind *)
  DefWindowProcW_NCCALCSIZE : Z -> Z -> RECT -> Z * RECT;
  CallWindowProcW_ret : WNDPROC -> Z -> Z -> Z -> Z -> Z;
  (* QWindow::winId() *)
  QWindow_winId : Z -> Z;
  (* shell32 *)
  SHAppBarMessage_GETSTATE : Z;
  SHAppBarMessage_GETAUTOHIDEBAREX : RECT -> Z -> Z;
  SHAppBarMessage_GETTASKBARPOS_uEdge : Z -> option Z;
  (* the toolkit *)
  QHighDpi_fromNativeLocalPosition : Z -> POINT -> POINT;
  isInSystemButtons : POINT -> bool;
}.

(** Calls that act on the outside world, in the order they are made. *)
Inductive OsCall :=
| PostMessageW (hWnd message wParam lParam : Z)
| TrackMouseEvent (hwndTrack dwFlags dwHoverTime : Z)
| DefWindowProcW (hWnd message wParam lParam : Z)
| CallWindowProcW (lpPrevWndFunc : WNDPROC) (hWnd message wParam lParam : Z)
| resetQtGrabbedControl.

(** ** Win32WindowContext: helpers (win32windowcontext.cpp) *)

Definition kAutoHideTaskBarThickness : Z := 2.

Definition kMessageTag : Z := 0x97CCEA99.

Definition isTaggedMessage (wParam : Z) : bool := wParam =? kMessageTag.

Inductive WindowPart :=
  Outside | ClientArea | ChromeButton | ResizeBorder | FixedBorder | TitleBar.

Definition WindowPart_eqb (a b : WindowPart) : bool :=
  match a, b with
  | Outside, Outside | ClientArea, ClientArea | ChromeButton, ChromeButton
  | ResizeBorder, ResizeBorder | FixedBorder, FixedBorder
  | TitleBar, TitleBar => true
  | _, _ => false
  end.

(** [getHitWindowPart] *)
Definition getHitWindowPart (hitTestResult : Z) : WindowPart :=
  if hitTestResult =? HTCLIENT then ClientArea
  else if hitTestResult =? HTCAPTION then TitleBar
  else if (hitTestResult =? HTSYSMENU) || (hitTestResult =? HTHELP)
          || (hitTestResult =? HTREDUCE) || (hitTestResult =? HTZOOM)
          || (hitTestResult =? HTCLOSE) then ChromeButton
  else if (hitTestResult =? HTLEFT) || (hitTestResult =? HTRIGHT)
          || (hitTestResult =? HTTOP) || (hitTestResult =? HTTOPLEFT)
          || (hitTestResult =? HTTOPRIGHT) || (hitTestResult =? HTBOTTOM)
          || (hitTestResult =? HTBOTTOMLEFT)
          || (hitTestResult =? HTBOTTOMRIGHT) then ResizeBorder
  else if hitTestResult =? HTBORDER then FixedBorder
  else Outside.

Section Helpers.
Variable os : Os.

Definition isWin8Point1OrGreater : bool := os_isWin8Point1OrGreater os.
Definition isWin10OrGreater : bool := os_isWin10OrGreater os.

(** [getDpiForWindow] *)
Definition getDpiForWindow (hwnd : Z) : Z :=
  if hwnd =? 0 then USER_DEFAULT_SCREEN_DPI
  else match pGetDpiForWindow os with
       | Some f => f hwnd
       | None =>
         match pGetDpiForMonitor os with
         | Some g =>
           let monitor := MonitorFromWindow os hwnd MONITOR_DEFAULTTONEAREST in
           match g monitor with
           | Some dpiX => dpiX
           | None => USER_DEFAULT_SCREEN_DPI
           end
         | None => to_UINT (GetDeviceCaps_LOGPIXELSX os)
         end
       end.

(** [getResizeBorderThickness]: the sum of two [int]s, returned as
    [quint32]. *)
Definition getResizeBorderThickness (hwnd : Z) : Z :=
  if hwnd =? 0 then 0
  else match pGetSystemMetricsForDpi os with
       | Some f =>
         let dpi := getDpiForWindow hwnd in
         to_UINT (f SM_CXSIZEFRAME dpi + f SM_CXPADDEDBORDER dpi)
       | None =>
         to_UINT (GetSystemMetrics os SM_CXSIZEFRAME
                  + GetSystemMetrics os SM_CXPADDEDBORDER)
       end.

(** [getMonitorForWindow], projected on [rcMonitor]. *)
Definition getMonitorForWindow (hwnd : Z) : option RECT :=
  if hwnd =? 0 then None
  else
    let monitor := MonitorFromWindow os hwnd MONITOR_DEFAULTTONEAREST in
    Some (default RECT_zero (GetMonitorInfoW_rcMonitor os monitor)).

(** [isFullScreen] *)
Definition isFullScreen (hwnd : Z) : bool :=
  if hwnd =? 0 then false
  else
    let windowRect := default RECT_zero (GetWindowRect os hwnd) in
    RECT_eqb windowRect (default RECT_zero (getMonitorForWindow hwnd)).

(** [IsMaximized] is the SDK's macro for [IsZoomed], which fails (and
    answers FALSE) on the null handle. *)
Definition IsMaximized (hwnd : Z) : bool :=
  if hwnd =? 0 then false else IsZoomed os hwnd.

(** [fromNativeLocalPosition] *)
Definition fromNativeLocalPosition (window : Z) (point : POINT) : POINT :=
  if window =? 0 then point
  else QHighDpi_fromNativeLocalPosition os window point.

(** [isValidWindow] *)
Definition isValidWindow (windowId : Z) (checkVisible checkTopLevel : bool)
    : bool :=
  let hwnd := windowId in
  if negb (IsWindow os hwnd) then false
  else if negb (Z.land (GetWindowLongPtrW_STYLE os hwnd) WS_DISABLED =? 0)
  then false
  else if negb (Z.land (GetWindowLongPtrW_EXSTYLE os hwnd) WS_EX_TOOLWINDOW =? 0)
  then false
  else match GetWindowRect os hwnd with
       | None => false
       | Some rect =>
         if (left rect >=? right rect) || (top rect >=? bottom rect) then false
         else if checkVisible && negb (IsWindowVisible os hwnd) then false
         else if checkTopLevel && negb (GetAncestor_ROOT os hwnd =? hwnd)
         then false
         else true
       end.

(** [getKeyState] *)
Definition getKeyState : Z :=
  let get := fun virtualKey => GetAsyncKeyState os virtualKey <? 0 in
  let buttonSwapped := negb (GetSystemMetrics os SM_SWAPBUTTON =? FALSE) in
  let result := 0 in
  let result := if get VK_LBUTTON
                then Z.lor result (if buttonSwapped then MK_RBUTTON else MK_LBUTTON)
                else result in
  let result := if get VK_RBUTTON
                then Z.lor result (if buttonSwapped then MK_LBUTTON else MK_RBUTTON)
                else result in
  let result := if get VK_SHIFT then Z.lor result MK_SHIFT else result in
  let result := if get VK_CONTROL then Z.lor result MK_CONTROL else result in
  let result := if get VK_MBUTTON then Z.lor result MK_MBUTTON else result in
  let result := if get VK_XBUTTON1 then Z.lor result MK_XBUTTON1 else result in
  let result := if get VK_XBUTTON2 then Z.lor result MK_XBUTTON2 else result in
  result.
End Helpers.

(** ** Win32WindowContext: the object and the handler monad *)

Record Win32WindowContext := mkWin32 {
  base : AbstractWindowContext;
  windowId : Z;
  lastHitTestResult : WindowPart;
  mouseLeaveBlocked : bool;
  centered : bool;
}.

(** A freshly constructed context (the member initialisers of the class). *)
Definition Win32WindowContext_new (b : AbstractWindowContext) : Win32WindowContext :=
  mkWin32 b 0 Outside false false.

(** What a handler can read and write: the fields of [*this], the
    out-parameter [*result], the rectangle behind [lParam] (for
    WM_NCCALCSIZE: [*lParam] itself or [rgrc[0]]), and the trace. *)
Record Mem := mkMem {
  this : Win32WindowContext;
  result : Z;
  clientRect : RECT;
  trace : list OsCall;
}.

Definition M (A : Type) : Type := Mem -> A * Mem.

Definition ret {A} (a : A) : M A := fun m => (a, m).
Definition bind {A B} (c : M A) (k : A -> M B) : M B :=
  fun m => let (a, m') := c m in k a m'.

Declare Scope handler_scope.
Delimit Scope handler_scope with handler.
Notation "x <-- c ;; k" := (bind c (fun x => k))
  (at level 100, c at next level, right associativity) : handler_scope.
Notation "c ;;; k" := (bind c (fun _ => k))
  (at level 100, right associativity) : handler_scope.
Local Open Scope handler_scope.

Definition get_this : M Win32WindowContext := fun m => (this m, m).
Definition get_clientRect : M RECT := fun m => (clientRect m, m).

Definition set_result (r : Z) : M unit :=
  fun m => (tt, mkMem (this m) r (clientRect m) (trace m)).
Definition set_clientRect (r : RECT) : M unit :=
  fun m => (tt, mkMem (this m) (result m) r (trace m)).
Definition emit (c : OsCall) : M unit :=
  fun m => (tt, mkMem (this m) (result m) (clientRect m) (trace m ++ [c])).
Definition set_lastHitTestResult (p : WindowPart) : M unit :=
  fun m =>
    let c := this m in
    (tt, mkMem (mkWin32 (base c) (windowId c) p (mouseLeaveBlocked c) (centered c))
               (result m) (clientRect m) (trace m)).
Definition set_mouseLeaveBlocked (b : bool) : M unit :=
  fun m =>
    let c := this m in
    (tt, mkMem (mkWin32 (base c) (windowId c) (lastHitTestResult c) b (centered c))
               (result m) (clientRect m) (trace m)).

Definition when (b : bool) (c : M unit) : M unit := if b then c else ret tt.

(** Assignments to the edges of [*clientRect]. *)
Definition set_top (v : Z) (r : RECT) := mkRECT (left r) v (right r) (bottom r).
Definition set_bottom (v : Z) (r : RECT) := mkRECT (left r) (top r) (right r) v.
Definition set_left (v : Z) (r : RECT) := mkRECT v (top r) (right r) (bottom r).
Definition set_right (v : Z) (r : RECT) := mkRECT (left r) (top r) v (bottom r).

(** [edge += n] and [edge -= n] on a [LONG] edge.  With [n] a [quint32]
    the sum is computed modulo 2^32 and stored back as a [LONG]; with the
    small constant [kAutoHideTaskBarThickness] it is a [LONG] sum, which is
    modelled with the same two's-complement wrap-around. *)
Definition top_add (n : Z) (r : RECT) := set_top (to_LONG (top r + n)) r.
Definition bottom_sub (n : Z) (r : RECT) := set_bottom (to_LONG (bottom r - n)) r.
Definition left_add (n : Z) (r : RECT) := set_left (to_LONG (left r + n)) r.
Definition right_sub (n : Z) (r : RECT) := set_right (to_LONG (right r - n)) r.

Definition modify_clientRect (f : RECT -> RECT) : M unit :=
  r <-- get_clientRect ;; set_clientRect (f r).

(** ** Emulation of client-area messages *)

Definition to_int (z : Z) : Z := to_LONG z.

Section Emulation.
Variable os : Os.

(** The lambda [wParamNew] of [emulateClientAreaMessage]. *)
Definition wParamNew (myMsg wParam : Z) : Z :=
  if myMsg =? WM_NCMOUSELEAVE then kMessageTag
  else
    let keyState := getKeyState os in
    if (myMsg >=? WM_NCXBUTTONDOWN) && (myMsg <=? WM_NCXBUTTONDBLCLK) then
      let xButtonMask := GET_XBUTTON_WPARAM wParam in
      MAKEWPARAM keyState xButtonMask
    else keyState.

(** The lambda [lParamNew] of [emulateClientAreaMessage]. *)
Definition lParamNew (myMsg lParam hWnd : Z) : Z :=
  if myMsg =? WM_NCMOUSELEAVE then 0
  else
    let screenPos := mkPOINT (GET_X_LPARAM lParam) (GET_Y_LPARAM lParam) in
    let clientPos := ScreenToClient os hWnd screenPos in
    MAKELPARAM (pt_x clientPos) (pt_y clientPos).

(** The [switch] of [emulateClientAreaMessage]: the client-area kind
    posted for [myMsg], if any. *)
Definition clientMessageFor (myMsg : Z) : option Z :=
  if (myMsg =? WM_NCHITTEST) || (myMsg =? WM_NCMOUSEMOVE) then Some WM_MOUSEMOVE
  else if myMsg =? WM_NCLBUTTONDOWN then Some WM_LBUTTONDOWN
  else if myMsg =? WM_NCLBUTTONUP then Some WM_LBUTTONUP
  else if myMsg =? WM_NCLBUTTONDBLCLK then Some WM_LBUTTONDBLCLK
  else if myMsg =? WM_NCRBUTTONDOWN then Some WM_RBUTTONDOWN
  else if myMsg =? WM_NCRBUTTONUP then Some WM_RBUTTONUP
  else if myMsg =? WM_NCRBUTTONDBLCLK then Some WM_RBUTTONDBLCLK
  else if myMsg =? WM_NCMBUTTONDOWN then Some WM_MBUTTONDOWN
  else if myMsg =? WM_NCMBUTTONUP then Some WM_MBUTTONUP
  else if myMsg =? WM_NCMBUTTONDBLCLK then Some WM_MBUTTONDBLCLK
  else if myMsg =? WM_NCXBUTTONDOWN then Some WM_XBUTTONDOWN
  else if myMsg =? WM_NCXBUTTONUP then Some WM_XBUTTONUP
  else if myMsg =? WM_NCXBUTTONDBLCLK then Some WM_XBUTTONDBLCLK
  else if myMsg =? WM_NCMOUSEHOVER then Some WM_MOUSEHOVER
  else if myMsg =? WM_NCMOUSELEAVE then Some WM_MOUSELEAVE
  else None.

(** [emulateClientAreaMessage]; [SEND_MESSAGE] is [PostMessageW]. *)
Definition emulateClientAreaMessage (hWnd message wParam lParam : Z)
    (overrideMessage : option Z) : M unit :=
  let myMsg := default (to_int message) overrideMessage in
  match clientMessageFor myMsg with
  | Some clientMsg =>
    emit (PostMessageW hWnd clientMsg (wParamNew myMsg wParam)
                       (lParamNew myMsg lParam hWnd))
  | None => ret tt
  end.

(** [requestForMouseLeaveMessage] *)
Definition requestForMouseLeaveMessage (hWnd : Z) (nonClient : bool) : M unit :=
  let dwFlags := TME_LEAVE in
  let dwFlags := if nonClient then Z.lor dwFlags TME_NONCLIENT else dwFlags in
  emit (TrackMouseEvent hWnd dwFlags HOVER_DEFAULT).

(** The messages of the big [case] list of [snapLayoutHandler]. *)
Definition isNonClientMouseMessage (message : Z) : bool :=
  (message =? WM_NCMOUSEMOVE)
  || (message =? WM_NCLBUTTONDOWN) || (message =? WM_NCLBUTTONUP)
  || (message =? WM_NCLBUTTONDBLCLK)
  || (message =? WM_NCRBUTTONDOWN) || (message =? WM_NCRBUTTONUP)
  || (message =? WM_NCRBUTTONDBLCLK)
  || (message =? WM_NCMBUTTONDOWN) || (message =? WM_NCMBUTTONUP)
  || (message =? WM_NCMBUTTONDBLCLK)
  || (message =? WM_NCXBUTTONDOWN) || (message =? WM_NCXBUTTONUP)
  || (message =? WM_NCXBUTTONDBLCLK)
  || (message =? WM_NCMOUSEHOVER).

(** [Win32WindowContext::snapLayoutHandler] *)
Definition snapLayoutHandler (hWnd message wParam lParam : Z) : M bool :=
  if message =? WM_MOUSELEAVE then
    let leave_break := set_mouseLeaveBlocked false ;;; ret false in
    if negb (isTaggedMessage wParam) then
      let dwScreenPos := GetMessagePos os in
      c <-- get_this ;;
      let qtScenePos :=
        fromNativeLocalPosition os (m_windowHandle (base c))
          (mkPOINT (GET_X_LPARAM dwScreenPos) (GET_Y_LPARAM dwScreenPos)) in
      if isInSystemButtons os qtScenePos then
        set_mouseLeaveBlocked true ;;;
        set_result FALSE ;;;
        ret true
      else leave_break
    else leave_break
  else if message =? WM_MOUSEMOVE then
    c <-- get_this ;;
    when (negb (WindowPart_eqb (lastHitTestResult c) ChromeButton)
          && mouseLeaveBlocked c)
      (set_mouseLeaveBlocked false ;;;
       requestForMouseLeaveMessage hWnd false) ;;;
    ret false
  else if isNonClientMouseMessage message then
    c <-- get_this ;;
    let currentWindowPart := lastHitTestResult c in
    when (message =? WM_NCMOUSEMOVE)
      (when (negb (WindowPart_eqb currentWindowPart ChromeButton))
         (emit resetQtGrabbedControl ;;;
          when (mouseLeaveBlocked c)
            (emulateClientAreaMessage hWnd message wParam lParam
                                      (Some WM_NCMOUSELEAVE))) ;;;
       set_lastHitTestResult Outside) ;;;
    if WindowPart_eqb currentWindowPart ChromeButton then
      emulateClientAreaMessage hWnd message wParam lParam None ;;;
      (if message =? WM_NCMOUSEMOVE then
         emit (DefWindowProcW hWnd WM_NCMOUSEMOVE wParam lParam) ;;;
         set_result (DefWindowProcW_ret os hWnd WM_NCMOUSEMOVE wParam lParam)
       else
         set_result (if (message >=? WM_NCXBUTTONDOWN)
                        && (message <=? WM_NCXBUTTONDBLCLK)
                     then TRUE else FALSE)) ;;;
      ret true
    else ret false
  else if message =? WM_NCMOUSELEAVE then
    c <-- get_this ;;
    let currentWindowPart := lastHitTestResult c in
    (if WindowPart_eqb currentWindowPart ChromeButton then
       when (mouseLeaveBlocked c)
         (set_mouseLeaveBlocked false ;;;
          requestForMouseLeaveMessage hWnd false)
     else
       when (mouseLeaveBlocked c)
         (emulateClientAreaMessage hWnd message wParam lParam
                                   (Some WM_NCMOUSELEAVE)) ;;;
       when (WindowPart_eqb currentWindowPart Outside)
         (emit resetQtGrabbedControl)) ;;;
    ret false
  else ret false.
End Emulation.

(** ** The frame-size negotiation (WM_NCCALCSIZE) *)

Section CalcSize.
Variable os : Os.

(** Lines 890-909 of [customWindowHandler]: the correction for a
    maximized window. *)
Definition calcSize_maximized (hWnd : Z) : M unit :=
  let max := IsMaximized os hWnd in
  let full := isFullScreen os hWnd in
  when (max && negb full)
    (let frameSize := getResizeBorderThickness os hWnd in
     modify_clientRect (top_add frameSize) ;;;
     when (negb (isWin10OrGreater os))
       (modify_clientRect (bottom_sub frameSize) ;;;
        modify_clientRect (left_add frameSize) ;;;
        modify_clientRect (right_sub frameSize))).

(** The lambda [hasAutohideTaskbar]. *)
Definition hasAutohideTaskbar (monitorRect : RECT) (edge : Z) : bool :=
  negb (SHAppBarMessage_GETAUTOHIDEBAREX os monitorRect edge =? 0).

(** The four flags [top], [bottom], [left], [right] of lines 923-960. *)
Definition autoHideEdges (hWnd : Z) : bool * bool * bool * bool :=
  if isWin8Point1OrGreater os then
    let monitorRect := default RECT_zero (getMonitorForWindow os hWnd) in
    (hasAutohideTaskbar monitorRect ABE_TOP,
     hasAutohideTaskbar monitorRect ABE_BOTTOM,
     hasAutohideTaskbar monitorRect ABE_LEFT,
     hasAutohideTaskbar monitorRect ABE_RIGHT)
  else
    let abd2_hWnd := FindWindowW_Shell_TrayWnd os in
    let windowMonitor := MonitorFromWindow os hWnd MONITOR_DEFAULTTONEAREST in
    let taskbarMonitor :=
      MonitorFromWindow os abd2_hWnd MONITOR_DEFAULTTOPRIMARY in
    let edge :=
      if taskbarMonitor =? windowMonitor
      then to_int (default 0 (SHAppBarMessage_GETTASKBARPOS_uEdge os abd2_hWnd))
      else -1 in
    (edge =? ABE_TOP, edge =? ABE_BOTTOM, edge =? ABE_LEFT, edge =? ABE_RIGHT).

(** Lines 971-980: the edge that gives way to the task bar. *)
Definition shrinkForTaskbar (edges : bool * bool * bool * bool) (r : RECT)
    : RECT :=
  let '(top, bottom, left, right) := edges in
  if top then top_add kAutoHideTaskBarThickness r
  else if bottom then bottom_sub kAutoHideTaskBarThickness r
  else if left then left_add kAutoHideTaskBarThickness r
  else if right then right_sub kAutoHideTaskBarThickness r
  else r.

(** Lines 916-982 of [customWindowHandler]: the correction for an
    auto-hide task bar. *)
Definition calcSize_autoHideTaskbar (hWnd : Z) : M unit :=
  let max := IsMaximized os hWnd in
  let full := isFullScreen os hWnd in
  when (max || full)
    (let taskbarState := SHAppBarMessage_GETSTATE os in
     when (negb (Z.land taskbarState ABS_AUTOHIDE =? 0))
       (modify_clientRect (shrinkForTaskbar (autoHideEdges hWnd)))).

(** [Win32WindowContext::customWindowHandler] *)
Definition customWindowHandler (hWnd message wParam lParam : Z) : M bool :=
  if message =? WM_NCCALCSIZE then
    let rest :=
      calcSize_maximized hWnd ;;;
      calcSize_autoHideTaskbar hWnd ;;;
      set_result (if wParam =? FALSE then FALSE else WVR_REDRAW) ;;;
      ret true in
    if isWin10OrGreater os then
      r <-- get_clientRect ;;
      let originalTop := top r in
      emit (DefWindowProcW hWnd WM_NCCALCSIZE wParam lParam) ;;;
      let (hitTestResult, r') := DefWindowProcW_NCCALCSIZE os hWnd wParam r in
      set_clientRect r' ;;;
      if negb (hitTestResult =? HTERROR) && negb (hitTestResult =? HTNOWHERE)
      then set_result hitTestResult ;;; ret true
      else modify_clientRect (set_top originalTop) ;;; rest
    else rest
  else ret false.

(** The [switch] at the head of [windowProc]. *)
Definition isTeardownMessage (message : Z) : bool :=
  (message =? WM_CLOSE) || (message =? WM_DESTROY) || (message =? WM_NCDESTROY)
  || (message =? WM_UAHDESTROYWINDOW)
  || (message =? WM_UNREGISTER_WINDOW_SERVICES).

(** [Win32WindowContext::windowProc] *)
Definition windowProc (hWnd message wParam lParam : Z) : M bool :=
  set_result FALSE ;;;
  if isTeardownMessage message then ret false
  else
    c <-- get_this ;;
    if negb (isValidWindow os (windowId c) false true) then ret false
    else
      snap <-- snapLayoutHandler os hWnd message wParam lParam ;;
      if snap then ret true
      else
        custom <-- customWindowHandler hWnd message wParam lParam ;;
        if custom then ret true
        else ret false.
End CalcSize.

(** ** The process-wide hook registry *)

(** The globals of the translation unit ([g_wndProcHash],
    [g_qtWindowProc], the statics of [WindowsNativeEventFilter]) and the
    parts of the outside world they are tied to: the context objects by
    address, the window procedure of each native window, the filters
    installed in [qApp], the filter objects deleted so far, and the
    trace. *)
Record Process := mkProcess {
  g_wndProcHash : gmap Z Z;
  g_qtWindowProc : WNDPROC;
  lastMessageHandled : bool;
  lastMessageResult : Z;
  instance : Z;
  heap : gmap Z Win32WindowContext;
  wndProcs : gmap Z WNDPROC;
  nativeEventFilters : list Z;
  allocated : positive;
  deleted : list Z;
  calls : list OsCall;
}.

(** [GetWindowLongPtrW(hWnd, GWLP_WNDPROC)]: zero for a handle that is
    not a window. *)
Definition GetWindowLongPtrW_WNDPROC (hWnd : Z) (p : Process) : WNDPROC :=
  default NullProc (wndProcs p !! hWnd).

(** [SetWindowLongPtrW(hWnd, GWLP_WNDPROC, f)]: fails, changing nothing,
    for a handle that is not a window. *)
Definition SetWindowLongPtrW_WNDPROC (hWnd : Z) (f : WNDPROC)
    (w : gmap Z WNDPROC) : gmap Z WNDPROC :=
  match w !! hWnd with
  | Some _ => <[ hWnd := f ]> w
  | None => w
  end.

(** [QCoreApplication::removeNativeEventFilter]: nothing happens for a
    null pointer or a filter that is not installed. *)
Definition removeNativeEventFilter (f : Z) (l : list Z) : list Z :=
  if f =? 0 then l else List.filter (fun g => negb (g =? f)) l.

(** [WindowsNativeEventFilter::install] *)
Definition install (p : Process) : Process :=
  let obj := Z.pos (allocated p) in                      (* new ...() *)
  mkProcess (g_wndProcHash p) (g_qtWindowProc p) (lastMessageHandled p)
            (lastMessageResult p) obj (heap p) (wndProcs p)
            (nativeEventFilters p ++ [obj]) (Pos.succ (allocated p))
            (deleted p) (calls p).

(** [WindowsNativeEventFilter::uninstall]; [delete] of a null pointer
    does nothing. *)
Definition uninstall (p : Process) : Process :=
  mkProcess (g_wndProcHash p) (g_qtWindowProc p) (lastMessageHandled p)
            (lastMessageResult p) 0 (heap p) (wndProcs p)
            (removeNativeEventFilter (instance p) (nativeEventFilters p))
            (allocated p)
            (if instance p =? 0 then deleted p else deleted p ++ [instance p])
            (calls p).

(** [WindowsNativeEventFilter::nativeEventFilter]: whether the message is
    filtered and the value stored through [result] ([None]: nothing is
    stored).  [result_isNull] says that Qt passed a null pointer. *)
Definition nativeEventFilter (result_isNull : bool) (p : Process)
    : bool * option Z :=
  if result_isNull then (false, None)
  else if lastMessageHandled p then (true, Some (lastMessageResult p))
  else (false, None).

Definition with_heap (h : gmap Z Win32WindowContext) (p : Process) : Process :=
  mkProcess (g_wndProcHash p) (g_qtWindowProc p) (lastMessageHandled p)
            (lastMessageResult p) (instance p) h (wndProcs p)
            (nativeEventFilters p) (allocated p) (deleted p) (calls p).

Definition with_windowId (w : Z) (c : Win32WindowContext) : Win32WindowContext :=
  mkWin32 (base c) w (lastHitTestResult c) (mouseLeaveBlocked c) (centered c).

Section Registry.
Variable os : Os.

(** [Win32WindowContext::setup], run on the object at address [this].
    [None] stands for undefined behaviour: [this] is not a live
    context, or its [m_windowHandle] is null. *)
Definition setup (this : Z) (p : Process) : option (bool * Process) :=
  match heap p !! this with
  | None => None
  | Some c =>
    if m_windowHandle (base c) =? 0 then None
    else
      let winId := QWindow_winId os (m_windowHandle (base c)) in
      let hWnd := winId in
      (* Store original window proc *)
      let qtWindowProc :=
        if WNDPROC_isNull (g_qtWindowProc p)
        then GetWindowLongPtrW_WNDPROC hWnd p
        else g_qtWindowProc p in
      (* Hook window proc *)
      let wndProcs' := SetWindowLongPtrW_WNDPROC hWnd HookedProc (wndProcs p) in
      let p1 := mkProcess (g_wndProcHash p) qtWindowProc (lastMessageHandled p)
                          (lastMessageResult p) (instance p) (heap p) wndProcs'
                          (nativeEventFilters p) (allocated p) (deleted p)
                          (calls p) in
      (* Install global native event filter *)
      let p2 := if instance p1 =? 0 then install p1 else p1 in
      (* Cache window ID, save window handle mapping *)
      Some (true,
            mkProcess (<[ hWnd := this ]> (g_wndProcHash p2)) (g_qtWindowProc p2)
                      (lastMessageHandled p2) (lastMessageResult p2)
                      (instance p2)
                      (<[ this := with_windowId winId c ]> (heap p2))
                      (wndProcs p2) (nativeEventFilters p2) (allocated p2)
                      (deleted p2) (calls p2))
  end.

(** The body of [Win32WindowContext::~Win32WindowContext] for a context
    whose cached [windowId] is [windowId]. *)
Definition destructor_body (windowId : Z) (p : Process) : Process :=
  let hWnd := windowId in
  if hWnd =? 0 then p
  else
    let p1 := mkProcess (delete hWnd (g_wndProcHash p)) (g_qtWindowProc p)
                        (lastMessageHandled p) (lastMessageResult p)
                        (instance p) (heap p) (wndProcs p)
                        (nativeEventFilters p) (allocated p) (deleted p)
                        (calls p) in
    if bool_decide (g_wndProcHash p1 = ∅) then uninstall p1 else p1.

(** The destructor run on the object at address [this]; the object is
    gone afterwards. *)
Definition destructor (this : Z) (p : Process) : option Process :=
  match heap p !! this with
  | None => None
  | Some c =>
    let p1 := destructor_body (windowId c) p in
    Some (with_heap (delete this (heap p1)) p1)
  end.

(** What [QWKHookedWndProc] leaves behind: the value it returns, the
    rectangle behind [lParam], and the process. *)
Record HookOutcome := mkOutcome {
  returned : Z;
  rect_after : RECT;
  process_after : Process;
}.

Definition log (c : OsCall) (p : Process) : Process :=
  mkProcess (g_wndProcHash p) (g_qtWindowProc p) (lastMessageHandled p)
            (lastMessageResult p) (instance p) (heap p) (wndProcs p)
            (nativeEventFilters p) (allocated p) (deleted p) (calls p ++ [c]).

(** [QWKHookedWndProc]; [rect] is the rectangle behind [lParam].
    [None] stands for undefined behaviour: the registry holds a pointer
    to a context that is no longer alive. *)
Definition QWKHookedWndProc (hWnd message wParam lParam : Z) (rect : RECT)
    (p : Process) : option HookOutcome :=
  if hWnd =? 0 then Some (mkOutcome FALSE rect p)
  else
    (* Search window context *)
    let ctx := default 0 (g_wndProcHash p !! hWnd) in
    if ctx =? 0 then
      Some (mkOutcome (DefWindowProcW_ret os hWnd message wParam lParam) rect
                      (log (DefWindowProcW hWnd message wParam lParam) p))
    else
      match heap p !! ctx with
      | None => None
      | Some c =>
        (* Try hooked procedure and save result *)
        let (handled, m) :=
          windowProc os hWnd message wParam lParam
                     (mkMem c (lastMessageResult p) rect (calls p)) in
        let p1 := mkProcess (g_wndProcHash p) (g_qtWindowProc p) handled
                            (result m) (instance p)
                            (<[ ctx := this m ]> (heap p)) (wndProcs p)
                            (nativeEventFilters p) (allocated p) (deleted p)
                            (trace m) in
        (* Continue dispatching it *)
        Some (mkOutcome
                (CallWindowProcW_ret os (g_qtWindowProc p1) hWnd message
                                     wParam lParam)
                (clientRect m)
                (log (CallWindowProcW (g_qtWindowProc p1) hWnd message
                                      wParam lParam) p1))
      end.
End Registry.

(** ** Message sequences *)

(** One message as the window procedure receives it, together with what
    the system answers while it is handled. *)
Record Msg := mkMsg {
  msg_os : Os;
  msg_hWnd : Z;
  msg_message : Z;
  msg_wParam : Z;
  msg_lParam : Z;
}.

(** [snapLayoutHandler] run on the messages of a list, first to last;
    the state is carried from one message to the next. *)
Fixpoint snapLayout_run (msgs : list Msg) (m : Mem) : Mem :=
  match msgs with
  | [] => m
  | e :: rest =>
    snapLayout_run rest
      (snd (snapLayoutHandler (msg_os e) (msg_hWnd e) (msg_message e)
                              (msg_wParam e) (msg_lParam e) m))
  end.

Definition isPostedLeave (c : OsCall) : bool :=
  match c with
  | PostMessageW _ message _ _ => message =? WM_MOUSELEAVE
  | _ => false
  end.

Definition isPosted (c : OsCall) : bool :=
  match c with
  | PostMessageW _ _ _ _ => true
  | _ => false
  end.

(** The synthesized client-area mouse-leave messages in a trace. *)
Definition postedLeaves (t : list OsCall) : list OsCall := List.filter isPostedLeave t.

(** ** A concrete desktop, for examples

    A 1920x1080 monitor at 96 DPI; window [0x100] is a top-level window
    maximized on it (its rectangle overhangs the monitor by the 8-pixel
    frame).  The parameters choose the OS generation, what the default
    procedure answers to WM_NCCALCSIZE, the task bar and the keys held. *)
Definition example_os (win81 win10 : bool) (ncCalcSizeRet : Z)
    (taskbarState autoHideEdge : Z) (keyDown : Z -> bool)
    (overButton : bool) : Os :=
  {| os_isWin8Point1OrGreater := win81;
     os_isWin10OrGreater := win10;
     pGetDpiForWindow := Some (fun _ => 96);
     pGetSystemMetricsForDpi :=
       Some (fun index _ => if (index =? SM_CXSIZEFRAME) || (index =? SM_CXPADDEDBORDER)
                            then 4 else 0);
     pGetDpiForMonitor := None;
     GetSystemMetrics := fun _ => 0;
     GetDeviceCaps_LOGPIXELSX := 96;
     GetAsyncKeyState := fun vk => if keyDown vk then -32768 else 0;
     GetMessagePos := MAKELONG 1900 10;
     ScreenToClient := fun _ p => mkPOINT (pt_x p + 8) (pt_y p + 8);
     IsWindow := fun h => h =? 0x100;
     IsWindowVisible := fun h => h =? 0x100;
     IsZoomed := fun h => h =? 0x100;
     GetWindowLongPtrW_STYLE := fun _ => 0;
     GetWindowLongPtrW_EXSTYLE := fun _ => 0;
     GetWindowRect := fun h => if h =? 0x100 then Some (mkRECT (-8) (-8) 1928 1048)
                               else None;
     GetAncestor_ROOT := fun h => h;
     MonitorFromWindow := fun _ _ => 1;
     GetMonitorInfoW_rcMonitor := fun _ => Some (mkRECT 0 0 1920 1080);
     FindWindowW_Shell_TrayWnd := 0x200;
     DefWindowProcW_ret := fun _ _ _ _ => 0;
     DefWindowProcW_NCCALCSIZE :=
       fun _ _ r => (ncCalcSizeRet,
                     mkRECT (left r + 8) (top r + 31) (right r - 8) (bottom r - 8));
     CallWindowProcW_ret := fun _ _ _ _ _ => 0;
     QWindow_winId := fun _ => 0x100;
     SHAppBarMessage_GETSTATE := taskbarState;
     SHAppBarMessage_GETAUTOHIDEBAREX :=
       fun _ edge => if edge =? autoHideEdge then 0x200 else 0;
     SHAppBarMessage_GETTASKBARPOS_uEdge := fun _ => Some autoHideEdge;
     QHighDpi_fromNativeLocalPosition := fun _ p => p;
     isInSystemButtons := fun _ => overButton |}.

Definition no_keys : Z -> bool := fun _ => false.

(** Windows 10, no auto-hide task bar, nothing pressed. *)
Definition example_win10 : Os := example_os true true 0 0 (-1) no_keys false.

(** Windows 7. *)
Definition example_win7 : Os := example_os false false 0 0 (-1) no_keys false.

(** Windows 10 with an auto-hide task bar on the bottom edge. *)
Definition example_autoHideBottom : Os :=
  example_os true true 0 ABS_AUTOHIDE ABE_BOTTOM no_keys false.

(** Windows 10 with the pointer over a system button. *)
Definition example_overButton : Os :=
  example_os true true 0 0 (-1) no_keys true.

Definition example_abstract : AbstractWindowContext :=
  mkAbstract 0x5000 ∅ [] 0x6000 (fun b => match b with Close => 0x6001 | _ => 0 end).

Definition example_context (part : WindowPart) (blocked : bool) : Win32WindowContext :=
  mkWin32 example_abstract 0x100 part blocked false.

Definition example_mem (part : WindowPart) (blocked : bool) (res : Z) : Mem :=
  mkMem (example_context part blocked) res (mkRECT (-8) (-8) 1928 1048) [].

(** A process in which one context, at address [0x7000], has been
    created for the window [0x100] but not yet hooked; Qt's window
    procedure is [OtherProc 1]. *)
Definition example_process : Process :=
  mkProcess ∅ NullProc false 0 0
            {[ 0x7000 := Win32WindowContext_new example_abstract ]}
            {[ 0x100 := OtherProc 1 ]} [] 1%positive [] [].

(** The same process once the context has been hooked. *)
Definition example_hooked : Process :=
  mkProcess {[ 0x100 := 0x7000 ]} (OtherProc 1) false 0 1
            {[ 0x7000 := with_windowId 0x100 (Win32WindowContext_new example_abstract) ]}
            {[ 0x100 := HookedProc ]} [1] 2%positive [] [].

(** ** Vocabulary of the properties *)

Definition teardownMessages : list Z :=
  [WM_CLOSE; WM_DESTROY; WM_NCDESTROY; WM_UAHDESTROYWINDOW;
   WM_UNREGISTER_WINDOW_SERVICES].

(** The non-client mouse messages [snapLayoutHandler] re-emits. *)
Definition nonClientMouseMessages : list Z :=
  [WM_NCMOUSEMOVE; WM_NCLBUTTONDOWN; WM_NCLBUTTONUP; WM_NCLBUTTONDBLCLK;
   WM_NCRBUTTONDOWN; WM_NCRBUTTONUP; WM_NCRBUTTONDBLCLK;
   WM_NCMBUTTONDOWN; WM_NCMBUTTONUP; WM_NCMBUTTONDBLCLK;
   WM_NCXBUTTONDOWN; WM_NCXBUTTONUP; WM_NCXBUTTONDBLCLK; WM_NCMOUSEHOVER].

(** The range test on the extra-button messages, as the source writes
    it. *)
Definition isXButtonMessage (message : Z) : bool :=
  (message >=? WM_NCXBUTTONDOWN) && (message <=? WM_NCXBUTTONDBLCLK).

(** An edge is moved to [target]: the stored [LONG] is [target] reduced
    to 32 bits, hence [target] itself whenever that fits. *)
Definition moved_to (v target : Z) : Prop :=
  v = to_LONG target /\ (in_LONG target -> v = target).

Inductive Edge := EdgeTop | EdgeBottom | EdgeLeft | EdgeRight.

Definition edge_of (e : Edge) (r : RECT) : Z :=
  match e with
  | EdgeTop => top r | EdgeBottom => bottom r
  | EdgeLeft => left r | EdgeRight => right r
  end.

(** The position [n] pixels inward of edge [e]. *)
Definition inward (e : Edge) (n : Z) (r : RECT) : Z :=
  match e with
  | EdgeTop => top r + n | EdgeBottom => bottom r - n
  | EdgeLeft => left r + n | EdgeRight => right r - n
  end.

Definition edge_detected (e : Edge) (edges : bool * bool * bool * bool) : bool :=
  let '(t, b, l, r) := edges in
  match e with
  | EdgeTop => t | EdgeBottom => b | EdgeLeft => l | EdgeRight => r
  end.

(** The order in which lines 971-980 try the flagged edges, and the
    first flagged edge in that order. *)
Definition edgeOrder : list Edge := [EdgeTop; EdgeBottom; EdgeLeft; EdgeRight].

Definition firstDetected (edges : bool * bool * bool * bool) : option Edge :=
  List.find (fun e => edge_detected e edges) edgeOrder.

(** The test of line 877: on Windows 10 and later the default procedure
    answered something other than [HTERROR] and [HTNOWHERE], and the
    handler returns at line 879 with that answer. *)
Definition returnsEarly (os : Os) (hWnd wParam : Z) (r : RECT) : bool :=
  let hitTestResult := fst (DefWindowProcW_NCCALCSIZE os hWnd wParam r) in
  isWin10OrGreater os
  && negb (hitTestResult =? HTERROR) && negb (hitTestResult =? HTNOWHERE).

(** The rectangle behind [lParam] at line 890, for a negotiation that
    gets there: on Windows 10 and later the rectangle of the default
    procedure with the proposed top put back (line 888), on older
    systems the proposed rectangle [r]. *)
Definition frameRect (os : Os) (hWnd wParam : Z) (r : RECT) : RECT :=
  if isWin10OrGreater os
  then set_top (top r) (snd (DefWindowProcW_NCCALCSIZE os hWnd wParam r))
  else r.

Definition with_clientRect (r : RECT) (m : Mem) : Mem :=
  mkMem (this m) (result m) r (trace m).

(** The rectangle at line 916, for a negotiation that gets there: the
    rectangle of line 890 after the correction for a maximized window. *)
Definition maximizedRect (os : Os) (hWnd wParam : Z) (m : Mem) : RECT :=
  clientRect (snd (calcSize_maximized os hWnd
                     (with_clientRect (frameRect os hWnd wParam (clientRect m)) m))).

(** No auto-hide task bar is in play: the task bar is not in auto-hide
    mode, or the detection flags no edge. *)
Definition noAutoHideTaskbar (os : Os) (hWnd : Z) : Prop :=
  Z.land (SHAppBarMessage_GETSTATE os) ABS_AUTOHIDE = 0
  \/ forall e, edge_detected e (autoHideEdges os hWnd) = false.

(** The test of the WM_MOUSELEAVE case: the message position, mapped to
    the scene, lies over a system button. *)
Definition leaveOverSystemButton (os : Os) (c : Win32WindowContext) : bool :=
  isInSystemButtons os
    (fromNativeLocalPosition os (m_windowHandle (base c))
       (mkPOINT (GET_X_LPARAM (GetMessagePos os))
                (GET_Y_LPARAM (GetMessagePos os)))).

(** The request [requestForMouseLeaveMessage(hWnd, false)] makes. *)
Definition leaveTrackingRequest (hWnd : Z) : OsCall :=
  TrackMouseEvent hWnd TME_LEAVE HOVER_DEFAULT.

(** The message [emulateClientAreaMessage] posts for an emulated
    mouse-leave. *)
Definition synthesizedLeave (hWnd : Z) : OsCall :=
  PostMessageW hWnd WM_MOUSELEAVE kMessageTag 0.

Definition handle (e : Msg) (m : Mem) : bool * Mem :=
  snapLayoutHandler (msg_os e) (msg_hWnd e) (msg_message e) (msg_wParam e)
                    (msg_lParam e) m.

(** ** Further parts of the sources *)

(** [SIZE] and its comparison operators (lines 66-94).  The product
    [cx * cy] is a [LONG] product, modelled with two's-complement
    wrap-around. *)
Record SIZE := mkSIZE { cx : Z; cy : Z }.

Definition SIZE_area (s : SIZE) : Z := to_LONG (cx s * cy s).

(** [operator==(const SIZE &, const SIZE &)] *)
Definition SIZE_eq (lhs rhs : SIZE) : bool :=
  (cx lhs =? cx rhs) && (cy lhs =? cy rhs).

(** [operator!=(const SIZE &, const SIZE &)] *)
Definition SIZE_ne (lhs rhs : SIZE) : bool := negb (SIZE_eq lhs rhs).

(** [operator>(const SIZE &, const SIZE &)] *)
Definition SIZE_gt (lhs rhs : SIZE) : bool := SIZE_area lhs >? SIZE_area rhs.

(** [operator>=(const SIZE &, const SIZE &)] *)
Definition SIZE_ge (lhs rhs : SIZE) : bool := SIZE_gt lhs rhs || SIZE_eq lhs rhs.

(** [operator<(const SIZE &, const SIZE &)] *)
Definition SIZE_lt (lhs rhs : SIZE) : bool := SIZE_ne lhs rhs && negb (SIZE_gt lhs rhs).

(** [operator<=(const SIZE &, const SIZE &)] *)
Definition SIZE_le (lhs rhs : SIZE) : bool := SIZE_lt lhs rhs || SIZE_eq lhs rhs.

(** [operator==(const POINT &, const POINT &)] and its negation. *)
Definition POINT_eq (lhs rhs : POINT) : bool :=
  (pt_x lhs =? pt_x rhs) && (pt_y lhs =? pt_y rhs).
Definition POINT_ne (lhs rhs : POINT) : bool := negb (POINT_eq lhs rhs).

(** [operator!=(const RECT &, const RECT &)] *)
Definition RECT_neqb (lhs rhs : RECT) : bool := negb (RECT_eqb lhs rhs).

(** [windowProc] run on the messages of a list, first to last. *)
Fixpoint windowProc_run (msgs : list Msg) (m : Mem) : Mem :=
  match msgs with
  | [] => m
  | e :: rest =>
    windowProc_run rest
      (snd (windowProc (msg_os e) (msg_hWnd e) (msg_message e)
                       (msg_wParam e) (msg_lParam e) m))
  end.

(** The globals as the translation unit initialises them (lines 23-25
    and 335-337), in a world with the given objects and windows. *)
Definition Process_initial (objects : gmap Z Win32WindowContext)
    (windows : gmap Z WNDPROC) : Process :=
  mkProcess ∅ NullProc false 0 0 objects windows [] 1%positive [] [].

(** The life cycle of the native event filter: it is installed exactly
    while some window is registered, it is the only filter this code has
    in the application, and no filter object is deleted twice. *)
Definition RegistryInv (p : Process) : Prop :=
  (instance p = 0 <-> g_wndProcHash p = ∅)
  /\ nativeEventFilters p = (if instance p =? 0 then [] else [instance p])
  /\ 0 <= instance p < Z.pos (allocated p)
  /\ Forall (fun d => 0 < d < Z.pos (allocated p)) (deleted p)
  /\ NoDup (deleted p)
  /\ ~ In (instance p) (deleted p).

(** The messages [snapLayoutHandler] or [customWindowHandler] look
    at. *)
Definition isInspectedMessage (message : Z) : bool :=
  (message =? WM_MOUSELEAVE) || (message =? WM_MOUSEMOVE)
  || isNonClientMouseMessage message || (message =? WM_NCMOUSELEAVE)
  || (message =? WM_NCCALCSIZE).

(** Hit-test codes by the part [getHitWindowPart] assigns them. *)
Definition chromeButtonCodes : list Z := [HTSYSMENU; HTHELP; HTREDUCE; HTZOOM; HTCLOSE].

(** The context with one field replaced. *)
Definition with_part (p : WindowPart) (c : Win32WindowContext) : Win32WindowContext :=
  mkWin32 (base c) (windowId c) p (mouseLeaveBlocked c) (centered c).

Definition with_blocked (b : bool) (c : Win32WindowContext) : Win32WindowContext :=
  mkWin32 (base c) (windowId c) (lastHitTestResult c) b (centered c).

(** The messages a trace posts. *)
Definition postedMessages (t : list OsCall) : list OsCall := List.filter isPosted t.

(** Case analysis on membership in a short, explicit trace. *)
Ltac trace_cases Hin :=
  simpl in Hin;
  repeat match type of Hin with
         | _ \/ _ => destruct Hin as [Hin | Hin]
         | False => destruct Hin
         | _ = _ => subst
         end;
  try discriminate; try reflexivity.

(** * Properties *)

Lemma SystemButton_eqb_spec a b : reflect (a = b) (SystemButton_eqb a b).
Proof. destruct a, b; constructor; congruence. Qed.

Lemma WindowPart_eqb_spec a b : reflect (a = b) (WindowPart_eqb a b).
Proof. destruct a, b; constructor; congruence. Qed.

(** ** Registration of system buttons and of the title bar *)

(** C10.  Registering, for a role, the non-null object that already holds
    that role fails and changes nothing; the same holds for the title bar;
    and the answer is the one given to a null object. *)
Theorem duplicate_registration_fails (button : SystemButton) (obj : Z)
    (c : AbstractWindowContext) :
  obj <> 0 ->
  (m_systemButtons c button = obj ->
     setSystemButton button obj c = (false, c)
     /\ setSystemButton button obj c = setSystemButton button 0 c)
  /\ (m_titleBar c = obj ->
     setTitleBar obj c = (false, c)
     /\ setTitleBar obj c = setTitleBar 0 c).
Proof.
  intros Hobj. split; intros Hsame.
  - unfold setSystemButton. rewrite Hsame, Z.eqb_refl. simpl.
    destruct (_ || _); auto.
  - unfold setTitleBar. rewrite Hsame, Z.eqb_refl. simpl.
    destruct (obj =? 0); auto.
Qed.

Lemma duplicate_registration_fails_witness :
  0x6001 <> 0
  /\ setSystemButton Close 0x6001 example_abstract = (false, example_abstract)
  /\ setTitleBar 0x6000 example_abstract = (false, example_abstract).
Proof.
  assert (H : 0x6001 <> 0) by lia.
  split; [exact H|]. split.
  - apply (duplicate_registration_fails Close 0x6001 example_abstract H).
    reflexivity.
  - assert (H' : 0x6000 <> 0) by lia.
    apply (duplicate_registration_fails Close 0x6000 example_abstract H').
    reflexivity.
Defined.

(** ** Teardown messages *)

Lemma isTeardownMessage_In (message : Z) :
  isTeardownMessage message = true <-> In message teardownMessages.
Proof.
  unfold isTeardownMessage, teardownMessages. simpl.
  rewrite !orb_true_iff, !Z.eqb_eq. intuition congruence.
Qed.

(** C5, as stated, fails: [windowProc] begins with [*result = FALSE], so
    a result slot that held [WVR_REDRAW] from the previous message does
    not survive a WM_CLOSE. *)
Lemma teardown_result_not_preserved :
  ~ (forall (os : Os) (hWnd message wParam lParam : Z) (m : Mem),
        In message teardownMessages ->
        let (handled, m') := windowProc os hWnd message wParam lParam m in
        handled = false
        /\ lastHitTestResult (this m') = lastHitTestResult (this m)
        /\ mouseLeaveBlocked (this m') = mouseLeaveBlocked (this m)
        /\ result m' = result m).
Proof.
  intros H.
  specialize (H example_win10 0x100 WM_CLOSE 0 0
                (example_mem ChromeButton true WVR_REDRAW)).
  assert (Hin : In WM_CLOSE teardownMessages) by (simpl; auto).
  specialize (H Hin). vm_compute in H.
  destruct H as (_ & _ & _ & H). discriminate H.
Qed.

(** C5, amended.  A teardown message is reported as not handled; the
    context (last hit-test result and leave-suppression flag included),
    the rectangle behind [lParam] and the trace are left as they were, and
    the result slot is set to zero. *)
Theorem teardown_passes_through (os : Os) (hWnd message wParam lParam : Z)
    (m : Mem) :
  In message teardownMessages ->
  windowProc os hWnd message wParam lParam m
  = (false, mkMem (this m) FALSE (clientRect m) (trace m)).
Proof.
  intros Hin. apply isTeardownMessage_In in Hin.
  unfold windowProc, bind, set_result, ret. now rewrite Hin.
Qed.

Lemma teardown_passes_through_witness :
  In WM_NCDESTROY teardownMessages
  /\ windowProc example_win10 0x100 WM_NCDESTROY 0 0
       (example_mem ChromeButton true WVR_REDRAW)
     = (false, example_mem ChromeButton true 0).
Proof.
  assert (Hin : In WM_NCDESTROY teardownMessages) by (simpl; auto).
  split; [exact Hin|].
  exact (teardown_passes_through example_win10 0x100 WM_NCDESTROY 0 0
           (example_mem ChromeButton true WVR_REDRAW) Hin).
Defined.

(** ** Frame-size negotiation: the result code *)

(** C1, as stated, fails: on Windows 10 the handler hands back whatever
    the default procedure answered when that is neither [HTERROR] nor
    [HTNOWHERE], here [WVR_VALIDRECTS] for the rich form. *)
Lemma calcSize_result_other_value :
  ~ (forall (os : Os) (hWnd wParam lParam : Z) (m : Mem),
        let (handled, m') := customWindowHandler os hWnd WM_NCCALCSIZE wParam lParam m in
        handled = true ->
        result m' = if wParam =? FALSE then FALSE else WVR_REDRAW).
Proof.
  intros H.
  specialize (H (example_os true true WVR_VALIDRECTS 0 (-1) no_keys false)
                0x100 TRUE 0 (example_mem Outside false 0)).
  vm_compute in H. specialize (H eq_refl). discriminate H.
Qed.

(** C1, amended.  WM_NCCALCSIZE is always reported as handled.  The
    result code is the default procedure's own answer when the system is
    Windows 10 or later and that answer is neither [HTERROR] nor
    [HTNOWHERE]; in every other case it is zero for the simple-rectangle
    form and [WVR_REDRAW] for the rich form. *)
Theorem calcSize_result (os : Os) (hWnd wParam lParam : Z) (m : Mem) :
  let (handled, m') := customWindowHandler os hWnd WM_NCCALCSIZE wParam lParam m in
  let answer := fst (DefWindowProcW_NCCALCSIZE os hWnd wParam (clientRect m)) in
  handled = true
  /\ result m' =
     if isWin10OrGreater os && negb (answer =? HTERROR) && negb (answer =? HTNOWHERE)
     then answer
     else if wParam =? FALSE then FALSE else WVR_REDRAW.
Proof.
  unfold customWindowHandler. rewrite Z.eqb_refl.
  unfold bind, ret, get_clientRect, set_clientRect, set_result, emit,
    modify_clientRect.
  destruct (isWin10OrGreater os); simpl.
  - destruct (DefWindowProcW_NCCALCSIZE os hWnd wParam (clientRect m))
      as [answer r'] eqn:Hdef. simpl.
    destruct (negb (answer =? -2) && negb (answer =? 0)); simpl.
    + split; reflexivity.
    + destruct (calcSize_maximized _ _ _) as [[] m1].
      destruct (calcSize_autoHideTaskbar _ _ _) as [[] m2]. simpl.
      split; reflexivity.
  - destruct (calcSize_maximized _ _ _) as [[] m1].
    destruct (calcSize_autoHideTaskbar _ _ _) as [[] m2]. simpl.
    split; reflexivity.
Qed.

(** ** Frame-size negotiation: the rectangle *)

Lemma to_LONG_id (z : Z) : in_LONG z -> to_LONG z = z.
Proof.
  unfold in_LONG, to_LONG. intros H.
  rewrite Z.mod_small; lia.
Qed.

Lemma to_LONG_range (z : Z) : in_LONG (to_LONG z).
Proof.
  unfold in_LONG, to_LONG.
  pose proof (Z.mod_pos_bound (z + 2 ^ 31) (2 ^ 32) ltac:(lia)). lia.
Qed.

Lemma moved_to_LONG (target : Z) : moved_to (to_LONG target) target.
Proof. split; [reflexivity | apply to_LONG_id]. Qed.

(** Two pixels never wrap around to the same place. *)
Lemma to_LONG_shift_neq (a d : Z) :
  d = 2 \/ d = -2 -> to_LONG (a + d) <> a.
Proof.
  unfold to_LONG. intros Hd Heq.
  pose proof (Z.div_mod (a + d + 2 ^ 31) (2 ^ 32) ltac:(lia)) as Hdm.
  set (q := (a + d + 2 ^ 31) / 2 ^ 32) in *.
  change (2 ^ 32) with 4294967296 in *. change (2 ^ 31) with 2147483648 in *.
  lia.
Qed.

Lemma maximized_or_fullScreen_nonnull (os : Os) (hWnd : Z) :
  IsMaximized os hWnd || isFullScreen os hWnd = true -> hWnd <> 0.
Proof.
  unfold IsMaximized, isFullScreen. intros H ->. simpl in H. discriminate.
Qed.

(** The [monitorInfo.value()] of the task-bar detection never throws:
    the detection runs for a maximized or full-screen window only. *)
Lemma monitor_value_present (os : Os) (hWnd : Z) :
  IsMaximized os hWnd || isFullScreen os hWnd = true ->
  is_Some (getMonitorForWindow os hWnd).
Proof.
  intros H. apply maximized_or_fullScreen_nonnull in H.
  unfold getMonitorForWindow. apply Z.eqb_neq in H. rewrite H. eauto.
Qed.

(** The two correction steps touch nothing but the rectangle. *)
Lemma calcSize_maximized_frame (os : Os) (hWnd : Z) (m : Mem) :
  exists r, calcSize_maximized os hWnd m
            = (tt, mkMem (this m) (result m) r (trace m))
            /\ (IsMaximized os hWnd && negb (isFullScreen os hWnd) = false ->
                r = clientRect m).
Proof.
  unfold calcSize_maximized.
  destruct (IsMaximized os hWnd && negb (isFullScreen os hWnd)); simpl.
  - unfold bind, modify_clientRect, get_clientRect, set_clientRect, when, ret.
    destruct (isWin10OrGreater os); simpl; eexists; (split; [reflexivity|]);
      discriminate.
  - exists (clientRect m). split; [now destruct m | reflexivity].
Qed.

Lemma calcSize_autoHideTaskbar_frame (os : Os) (hWnd : Z) (m : Mem) :
  exists r, calcSize_autoHideTaskbar os hWnd m
            = (tt, mkMem (this m) (result m) r (trace m))
            /\ ((IsMaximized os hWnd || isFullScreen os hWnd = false
                 \/ Z.land (SHAppBarMessage_GETSTATE os) ABS_AUTOHIDE = 0
                 \/ forall e, edge_detected e (autoHideEdges os hWnd) = false) ->
                r = clientRect m).
Proof.
  unfold calcSize_autoHideTaskbar.
  destruct (IsMaximized os hWnd || isFullScreen os hWnd); simpl.
  2: { exists (clientRect m). split; [now destruct m | reflexivity]. }
  destruct (Z.eqb_spec (Z.land (SHAppBarMessage_GETSTATE os) 1) 0) as [Hs|Hs];
    simpl.
  { exists (clientRect m). split; [now destruct m | reflexivity]. }
  unfold bind, modify_clientRect, get_clientRect, set_clientRect, ret. simpl.
  eexists. split; [reflexivity|]. intros [H | [H | H]];
    [discriminate | contradiction |].
  destruct (autoHideEdges os hWnd) as [[[t b] l] r0].
  pose proof (H EdgeTop) as Ht. pose proof (H EdgeBottom) as Hb.
  pose proof (H EdgeLeft) as Hl. pose proof (H EdgeRight) as Hr.
  simpl in *. subst. reflexivity.
Qed.

(** The two ways through WM_NCCALCSIZE.  On Windows 10 and later, when
    the default procedure answers anything but [HTERROR] and
    [HTNOWHERE], the handler returns at line 879: the rectangle is the
    default procedure's and the result its answer. *)
Lemma customWindowHandler_early (os : Os) (hWnd wParam lParam : Z) (m : Mem) :
  returnsEarly os hWnd wParam (clientRect m) = true ->
  customWindowHandler os hWnd WM_NCCALCSIZE wParam lParam m
  = (true, mkMem (this m)
                 (fst (DefWindowProcW_NCCALCSIZE os hWnd wParam (clientRect m)))
                 (snd (DefWindowProcW_NCCALCSIZE os hWnd wParam (clientRect m)))
                 (trace m ++ [DefWindowProcW hWnd WM_NCCALCSIZE wParam lParam])).
Proof.
  unfold returnsEarly, customWindowHandler. rewrite Z.eqb_refl.
  destruct (isWin10OrGreater os); [|discriminate]. simpl.
  unfold bind, ret, get_clientRect, set_clientRect, set_result, emit. simpl.
  destruct (DefWindowProcW_NCCALCSIZE os hWnd wParam (clientRect m))
    as [answer framed]. simpl.
  intros ->. reflexivity.
Qed.

(** Otherwise the handler goes on: the rectangle of line 890 goes
    through the correction for a maximized window and then through the
    one for an auto-hide task bar. *)
Lemma customWindowHandler_goes_on (os : Os) (hWnd wParam lParam : Z) (m : Mem) :
  returnsEarly os hWnd wParam (clientRect m) = false ->
  customWindowHandler os hWnd WM_NCCALCSIZE wParam lParam m
  = (true, mkMem (this m) (if wParam =? FALSE then FALSE else WVR_REDRAW)
                 (clientRect
                    (snd (calcSize_autoHideTaskbar os hWnd
                            (snd (calcSize_maximized os hWnd
                                    (with_clientRect
                                       (frameRect os hWnd wParam (clientRect m))
                                       m))))))
                 (trace m ++ if isWin10OrGreater os
                             then [DefWindowProcW hWnd WM_NCCALCSIZE wParam lParam]
                             else [])).
Proof.
  unfold returnsEarly, frameRect, customWindowHandler. rewrite Z.eqb_refl.
  intros Hgo.
  unfold calcSize_maximized, calcSize_autoHideTaskbar.
  destruct m as [c res rc tr].
  unfold bind, ret, get_clientRect, set_clientRect, set_result, emit,
    modify_clientRect, with_clientRect, when. simpl in *.
  destruct (isWin10OrGreater os) eqn:Hwin; simpl in *.
  - destruct (DefWindowProcW_NCCALCSIZE os hWnd wParam rc)
      as [answer framed]. simpl in *. rewrite Hgo.
    destruct (IsMaximized os hWnd), (isFullScreen os hWnd),
      (Z.land (SHAppBarMessage_GETSTATE os) 1 =? 0); reflexivity.
  - rewrite app_nil_r.
    destruct (IsMaximized os hWnd), (isFullScreen os hWnd),
      (Z.land (SHAppBarMessage_GETSTATE os) 1 =? 0); reflexivity.
Qed.

Lemma shrinkForTaskbar_none (edges : bool * bool * bool * bool) (r : RECT) :
  (forall e, edge_detected e edges = false) -> shrinkForTaskbar edges r = r.
Proof.
  destruct edges as [[[t b] l] r0]. intros H.
  pose proof (H EdgeTop) as Ht. pose proof (H EdgeBottom) as Hb.
  pose proof (H EdgeLeft) as Hl. pose proof (H EdgeRight) as Hr.
  simpl in *. subst. reflexivity.
Qed.

(** C2, as stated, fails: on Windows 10, when the default procedure
    answers [WVR_VALIDRECTS] to the rich form, the handler returns at
    line 879 before the correction of lines 890-909; the maximized
    window [0x100] keeps the top edge the default procedure computed,
    31 pixels below the proposed one, not the 8 pixels of the
    resize-border thickness. *)
Lemma maximized_top_not_moved :
  ~ (forall (os : Os) (hWnd wParam lParam : Z) (m : Mem),
        IsMaximized os hWnd = true ->
        isFullScreen os hWnd = false ->
        let r' := clientRect (snd (customWindowHandler os hWnd WM_NCCALCSIZE wParam
                                     lParam m)) in
        moved_to (top r') (top (clientRect m) + getResizeBorderThickness os hWnd)).
Proof.
  intros H.
  destruct (H (example_os true true WVR_VALIDRECTS 0 (-1) no_keys false)
              0x100 TRUE 0 (example_mem Outside false 0) eq_refl eq_refl)
    as [Htop _].
  vm_compute in Htop. discriminate Htop.
Qed.

(** C2, amended.  For a maximized window that is not full-screen,
    [customWindowHandler] leaves the following rectangle.  When it
    returns early (Windows 10 or later and the default procedure
    answered neither [HTERROR] nor [HTNOWHERE]) the rectangle is the
    default procedure's and no edge is moved by the thickness.
    Otherwise, with no auto-hide task bar in play, the top edge is the
    proposed top moved inward by the resize-border thickness; on
    Windows 10 and later left, right and bottom are the default
    procedure's, unchanged by the correction, and on older systems each
    is the proposed edge moved inward by the same thickness.  With an
    auto-hide task bar the rectangle so described ([maximizedRect]) is
    the one the task-bar step starts from. *)
Theorem maximized_shrinks_by_frame (os : Os) (hWnd wParam lParam : Z) (m : Mem) :
  IsMaximized os hWnd = true ->
  isFullScreen os hWnd = false ->
  let frameSize := getResizeBorderThickness os hWnd in
  let r := clientRect m in
  let framed := snd (DefWindowProcW_NCCALCSIZE os hWnd wParam r) in
  let r' := clientRect (snd (customWindowHandler os hWnd WM_NCCALCSIZE wParam
                               lParam m)) in
  (returnsEarly os hWnd wParam r = true -> r' = framed)
  /\ (returnsEarly os hWnd wParam r = false ->
      (noAutoHideTaskbar os hWnd ->
       moved_to (top r') (top r + frameSize)
       /\ (if isWin10OrGreater os
           then left r' = left framed /\ right r' = right framed
                /\ bottom r' = bottom framed
           else moved_to (left r') (left r + frameSize)
                /\ moved_to (right r') (right r - frameSize)
                /\ moved_to (bottom r') (bottom r - frameSize)))
      /\ exists rc,
          rc = maximizedRect os hWnd wParam m
          /\ moved_to (top rc) (top r + frameSize)
          /\ (if isWin10OrGreater os
              then left rc = left framed /\ right rc = right framed
                   /\ bottom rc = bottom framed
              else moved_to (left rc) (left r + frameSize)
                   /\ moved_to (right rc) (right r - frameSize)
                   /\ moved_to (bottom rc) (bottom r - frameSize))
          /\ r' = (if Z.land (SHAppBarMessage_GETSTATE os) ABS_AUTOHIDE =? 0
                   then rc
                   else shrinkForTaskbar (autoHideEdges os hWnd) rc)).
Proof.
  intros Hmax Hfull frameSize r framed r'. subst r'. split.
  - intros Hearly. rewrite customWindowHandler_early by exact Hearly.
    reflexivity.
  - intros Hgo. rewrite customWindowHandler_goes_on by exact Hgo.
    cbn [snd clientRect].
    assert (Hrc : exists rc,
               clientRect (snd (calcSize_maximized os hWnd
                  (with_clientRect (frameRect os hWnd wParam (clientRect m)) m)))
               = rc
               /\ snd (calcSize_maximized os hWnd
                  (with_clientRect (frameRect os hWnd wParam (clientRect m)) m))
                  = with_clientRect rc m
               /\ moved_to (top rc) (top r + frameSize)
               /\ (if isWin10OrGreater os
                   then left rc = left framed /\ right rc = right framed
                        /\ bottom rc = bottom framed
                   else moved_to (left rc) (left r + frameSize)
                        /\ moved_to (right rc) (right r - frameSize)
                        /\ moved_to (bottom rc) (bottom r - frameSize))).
    { eexists. split; [reflexivity|].
      unfold calcSize_maximized, frameRect. rewrite Hmax, Hfull. simpl.
      unfold bind, modify_clientRect, get_clientRect, set_clientRect, when, ret,
        with_clientRect.
      subst r framed frameSize.
      destruct (isWin10OrGreater os); simpl;
        repeat split; try reflexivity; apply to_LONG_id. }
    destruct Hrc as (rc & Erc & Em & Htop & Hrest). rewrite Em.
    assert (Hfinal :
              clientRect (snd (calcSize_autoHideTaskbar os hWnd (with_clientRect rc m)))
              = (if Z.land (SHAppBarMessage_GETSTATE os) ABS_AUTOHIDE =? 0
                 then rc else shrinkForTaskbar (autoHideEdges os hWnd) rc)).
    { unfold calcSize_autoHideTaskbar. rewrite Hmax. simpl.
      destruct (Z.land (SHAppBarMessage_GETSTATE os) 1 =? 0); reflexivity. }
    rewrite Hfinal. split.
    + intros Hnone.
      assert (Hsame : (if Z.land (SHAppBarMessage_GETSTATE os) ABS_AUTOHIDE =? 0
                       then rc else shrinkForTaskbar (autoHideEdges os hWnd) rc)
                      = rc).
      { destruct Hnone as [Hs | Hs].
        - rewrite Hs. reflexivity.
        - rewrite shrinkForTaskbar_none by exact Hs.
          destruct (_ =? 0); reflexivity. }
      rewrite Hsame. split; assumption.
    + exists rc. split; [symmetry; exact Erc|].
      split; [exact Htop|]. split; [exact Hrest|]. reflexivity.
Qed.

Lemma maximized_shrinks_by_frame_witness :
  IsMaximized example_win10 0x100 = true
  /\ isFullScreen example_win10 0x100 = false
  /\ returnsEarly example_win10 0x100 TRUE (mkRECT (-8) (-8) 1928 1048) = false
  /\ getResizeBorderThickness example_win10 0x100 = 8
  /\ top (clientRect (snd (customWindowHandler example_win10 0x100 WM_NCCALCSIZE
                             TRUE 0 (example_mem Outside false 0)))) = -8 + 8.
Proof.
  assert (Hmax : IsMaximized example_win10 0x100 = true) by reflexivity.
  assert (Hfull : isFullScreen example_win10 0x100 = false) by reflexivity.
  assert (Hgo : returnsEarly example_win10 0x100 TRUE (mkRECT (-8) (-8) 1928 1048)
                = false) by reflexivity.
  split; [exact Hmax|]. split; [exact Hfull|]. split; [exact Hgo|].
  split; [reflexivity|].
  destruct (maximized_shrinks_by_frame example_win10 0x100 TRUE 0
              (example_mem Outside false 0) Hmax Hfull) as [_ H].
  destruct (H Hgo) as [Hdirect _].
  destruct Hdirect as [[_ Hexact] _].
  - left. reflexivity.
  - apply Hexact. unfold in_LONG. vm_compute. split; [discriminate | reflexivity].
Defined.

(** The scenario of the specification, through the whole handler: on
    Windows 10 at 96 DPI the proposed rectangle of the maximized window
    has its top raised by 8 and its other edges as the default procedure
    left them. *)
Example calcSize_scenario_win10 :
  customWindowHandler example_win10 0x100 WM_NCCALCSIZE TRUE 0
    (example_mem Outside false 0)
  = (true, mkMem (example_context Outside false) WVR_REDRAW
               (mkRECT 0 0 1920 1040)
               [DefWindowProcW 0x100 WM_NCCALCSIZE TRUE 0]).
Proof. reflexivity. Qed.

Example calcSize_scenario_win7 :
  customWindowHandler example_win7 0x100 WM_NCCALCSIZE FALSE 0
    (example_mem Outside false 0)
  = (true, mkMem (example_context Outside false) 0
               (mkRECT 0 0 1920 1040) []).
Proof. reflexivity. Qed.

(** C8, as stated, fails: on Windows 10 with an auto-hide task bar
    detected on the bottom edge, when the default procedure answers
    [WVR_VALIDRECTS] the handler returns at line 879 before lines
    916-982; the bottom edge of the maximized window [0x100] stays at
    1040, where the default procedure put it, instead of 1038. *)
Lemma autoHide_edge_not_moved :
  ~ (forall (os : Os) (hWnd wParam lParam : Z) (m : Mem),
        IsMaximized os hWnd || isFullScreen os hWnd = true ->
        Z.land (SHAppBarMessage_GETSTATE os) ABS_AUTOHIDE <> 0 ->
        (exists e, edge_detected e (autoHideEdges os hWnd) = true) ->
        let rc := maximizedRect os hWnd wParam m in
        let r' := clientRect (snd (customWindowHandler os hWnd WM_NCCALCSIZE wParam
                                     lParam m)) in
        exists e,
          edge_detected e (autoHideEdges os hWnd) = true
          /\ moved_to (edge_of e r') (inward e kAutoHideTaskBarThickness rc)).
Proof.
  intros H.
  destruct (H (example_os true true WVR_VALIDRECTS ABS_AUTOHIDE ABE_BOTTOM
                 no_keys false)
              0x100 TRUE 0 (example_mem Outside false 0) eq_refl)
    as (e & He & Hmoved & _).
  - vm_compute. discriminate.
  - exists EdgeBottom. reflexivity.
  - destruct e; try discriminate He. vm_compute in Hmoved. discriminate Hmoved.
Qed.

Lemma firstDetected_Some (edges : bool * bool * bool * bool) (e0 : Edge) :
  edge_detected e0 edges = true ->
  exists e, firstDetected edges = Some e /\ edge_detected e edges = true
            /\ shrinkForTaskbar edges
               = match e with
                 | EdgeTop => top_add kAutoHideTaskBarThickness
                 | EdgeBottom => bottom_sub kAutoHideTaskBarThickness
                 | EdgeLeft => left_add kAutoHideTaskBarThickness
                 | EdgeRight => right_sub kAutoHideTaskBarThickness
                 end.
Proof.
  destruct edges as [[[t b] l] r0]. intros He0.
  destruct t; [exists EdgeTop; auto|].
  destruct b; [exists EdgeBottom; auto|].
  destruct l; [exists EdgeLeft; auto|].
  destruct r0; [exists EdgeRight; auto|].
  destruct e0; discriminate He0.
Qed.

(** C8, amended.  For a maximized or full-screen window, with the task
    bar in auto-hide mode and at least one edge flagged by the
    detection: when [customWindowHandler] returns early the rectangle
    is the default procedure's and nothing is shrunk; otherwise the
    rectangle it leaves differs from the one the preceding steps
    computed ([maximizedRect]: the rectangle of line 890 after the
    correction for a maximized window, which is that rectangle itself
    unless the window is maximized and not full-screen) on exactly one
    edge, the first flagged one in the order top, bottom, left, right,
    which is moved inward by [kAutoHideTaskBarThickness] (two pixels);
    the three other edges are as that step found them. *)
Theorem autoHide_shrinks_one_edge (os : Os) (hWnd wParam lParam : Z) (m : Mem) :
  IsMaximized os hWnd || isFullScreen os hWnd = true ->
  Z.land (SHAppBarMessage_GETSTATE os) ABS_AUTOHIDE <> 0 ->
  (exists e, edge_detected e (autoHideEdges os hWnd) = true) ->
  let r := clientRect m in
  let framed := snd (DefWindowProcW_NCCALCSIZE os hWnd wParam r) in
  let rc := maximizedRect os hWnd wParam m in
  let r' := clientRect (snd (customWindowHandler os hWnd WM_NCCALCSIZE wParam
                               lParam m)) in
  kAutoHideTaskBarThickness = 2
  /\ (returnsEarly os hWnd wParam r = true -> r' = framed)
  /\ (returnsEarly os hWnd wParam r = false ->
      exists e,
        firstDetected (autoHideEdges os hWnd) = Some e
        /\ edge_detected e (autoHideEdges os hWnd) = true
        /\ moved_to (edge_of e r') (inward e kAutoHideTaskBarThickness rc)
        /\ edge_of e r' <> edge_of e rc
        /\ forall e', e' <> e -> edge_of e' r' = edge_of e' rc)
  /\ (IsMaximized os hWnd && negb (isFullScreen os hWnd) = false ->
      rc = frameRect os hWnd wParam r).
Proof.
  intros Hmf Hauto [e0 He0] r framed rc r'. subst r'.
  split; [reflexivity|]. split; [|split].
  - intros Hearly. rewrite customWindowHandler_early by exact Hearly.
    reflexivity.
  - intros Hgo. rewrite customWindowHandler_goes_on by exact Hgo.
    cbn [snd clientRect]. fold (maximizedRect os hWnd wParam m). fold rc.
    assert (Em : snd (calcSize_maximized os hWnd
                        (with_clientRect (frameRect os hWnd wParam (clientRect m)) m))
                 = with_clientRect rc m).
    { subst rc. unfold maximizedRect.
      destruct (calcSize_maximized_frame os hWnd
                  (with_clientRect (frameRect os hWnd wParam (clientRect m)) m))
        as (r1 & -> & _). reflexivity. }
    rewrite Em. unfold calcSize_autoHideTaskbar. rewrite Hmf.
    apply Z.eqb_neq in Hauto. rewrite Hauto. simpl.
    destruct (firstDetected_Some _ _ He0) as (e & Hfirst & He & Hshrink).
    exists e. split; [exact Hfirst|]. split; [exact He|].
    unfold bind, modify_clientRect, get_clientRect, set_clientRect, ret. simpl.
    rewrite Hshrink.
    destruct e; simpl; (split; [apply moved_to_LONG|]);
      (split; [first [apply to_LONG_shift_neq; auto
                     | apply (to_LONG_shift_neq _ (-2)); auto]|]);
      intros [] Hne; try reflexivity; congruence.
  - intros Hnot. subst rc. unfold maximizedRect.
    destruct (calcSize_maximized_frame os hWnd
                (with_clientRect (frameRect os hWnd wParam (clientRect m)) m))
      as (r1 & -> & Hsame). simpl. apply Hsame. exact Hnot.
Qed.

Lemma autoHide_shrinks_one_edge_witness :
  IsMaximized example_autoHideBottom 0x100
  || isFullScreen example_autoHideBottom 0x100 = true
  /\ Z.land (SHAppBarMessage_GETSTATE example_autoHideBottom) ABS_AUTOHIDE <> 0
  /\ edge_detected EdgeBottom (autoHideEdges example_autoHideBottom 0x100) = true
  /\ returnsEarly example_autoHideBottom 0x100 TRUE (mkRECT (-8) (-8) 1928 1048)
     = false
  /\ bottom (maximizedRect example_autoHideBottom 0x100 TRUE
               (example_mem Outside false 0)) = 1040
  /\ bottom (clientRect (snd (customWindowHandler example_autoHideBottom 0x100
                                WM_NCCALCSIZE TRUE 0
                                (example_mem Outside false 0)))) = 1040 - 2.
Proof.
  assert (H1 : IsMaximized example_autoHideBottom 0x100
               || isFullScreen example_autoHideBottom 0x100 = true)
    by reflexivity.
  assert (H2 : Z.land (SHAppBarMessage_GETSTATE example_autoHideBottom)
                      ABS_AUTOHIDE <> 0)
    by (vm_compute; discriminate).
  assert (H3 : edge_detected EdgeBottom
                 (autoHideEdges example_autoHideBottom 0x100) = true)
    by reflexivity.
  assert (H4 : returnsEarly example_autoHideBottom 0x100 TRUE
                 (mkRECT (-8) (-8) 1928 1048) = false)
    by reflexivity.
  split; [exact H1|]. split; [exact H2|]. split; [exact H3|].
  split; [exact H4|]. split; [reflexivity|].
  destruct (autoHide_shrinks_one_edge example_autoHideBottom 0x100 TRUE 0
              (example_mem Outside false 0) H1 H2 (ex_intro _ EdgeBottom H3))
    as (_ & _ & H & _).
  destruct (H H4) as (e & Hfirst & _ & Hmoved & _).
  vm_compute in Hfirst. injection Hfirst as <-.
  destruct Hmoved as [_ Hexact]. apply Hexact.
  unfold in_LONG. vm_compute. split; [discriminate | reflexivity].
Defined.

(** The same through the whole handler: the maximized window gives up
    two more pixels at the bottom. *)
Example calcSize_scenario_autoHide :
  customWindowHandler example_autoHideBottom 0x100 WM_NCCALCSIZE TRUE 0
    (example_mem Outside false 0)
  = (true, mkMem (example_context Outside false) WVR_REDRAW
               (mkRECT 0 0 1920 1038)
               [DefWindowProcW 0x100 WM_NCCALCSIZE TRUE 0]).
Proof. reflexivity. Qed.

(** ** Words and key state *)

Lemma getKeyState_range (os : Os) : 0 <= getKeyState os < 128.
Proof.
  unfold getKeyState.
  destruct (negb _); repeat (destruct (_ <? _)); vm_compute; split; congruence.
Qed.

Lemma LOWORD_MAKELONG (a b : Z) : LOWORD (MAKELONG a b) = LOWORD a.
Proof.
  unfold LOWORD, MAKELONG. change 0xffff with (Z.ones 16).
  apply Z.bits_inj'. intros n Hn.
  rewrite !Z.land_spec, Z.lor_spec, Z.land_spec, Z.shiftl_spec by lia.
  destruct (Z.ltb_spec n 16).
  - rewrite (Z.testbit_neg_r _ (n - 16)) by lia. rewrite orb_false_r.
    rewrite Z.ones_spec_low by lia. now rewrite !andb_true_r.
  - rewrite Z.ones_spec_high by lia. now rewrite !andb_false_r.
Qed.

Lemma HIWORD_MAKELONG (a b : Z) : HIWORD (MAKELONG a b) = LOWORD b.
Proof.
  unfold HIWORD, LOWORD, MAKELONG. change 0xffff with (Z.ones 16).
  apply Z.bits_inj'. intros n Hn.
  rewrite !Z.land_spec, Z.shiftr_spec, Z.lor_spec, Z.land_spec, Z.shiftl_spec
    by lia.
  replace (n + 16 - 16) with n by lia. rewrite Z.land_spec.
  rewrite (Z.ones_spec_high 16 (n + 16)) by lia. rewrite andb_false_r. simpl.
  now rewrite <- andb_assoc, andb_diag.
Qed.

Lemma LOWORD_small (z : Z) : 0 <= z < 2 ^ 16 -> LOWORD z = z.
Proof.
  intros H. unfold LOWORD. change 0xffff with (Z.ones 16).
  rewrite Z.land_ones by lia. apply Z.mod_small. lia.
Qed.

Lemma LOWORD_HIWORD (z : Z) : LOWORD (HIWORD z) = HIWORD z.
Proof.
  unfold LOWORD, HIWORD. now rewrite <- Z.land_assoc, Z.land_diag.
Qed.

Lemma LOWORD_wParamNew (os : Os) (myMsg wParam : Z) :
  myMsg <> WM_NCMOUSELEAVE -> LOWORD (wParamNew os myMsg wParam) = getKeyState os.
Proof.
  intros Hne. unfold wParamNew. apply Z.eqb_neq in Hne. rewrite Hne.
  pose proof (getKeyState_range os) as Hr.
  destruct (_ && _).
  - unfold MAKEWPARAM. rewrite LOWORD_MAKELONG. apply LOWORD_small. lia.
  - apply LOWORD_small. lia.
Qed.

(** Only the emulated mouse-leave carries the tag: no word rebuilt from
    the key state can be mistaken for it. *)
Lemma tagged_iff_leave (os : Os) (myMsg wParam : Z) :
  isTaggedMessage (wParamNew os myMsg wParam) = true <-> myMsg = WM_NCMOUSELEAVE.
Proof.
  destruct (Z.eq_dec myMsg WM_NCMOUSELEAVE) as [->|Hne].
  - split; auto.
  - split; [|congruence]. intros H. exfalso.
    unfold isTaggedMessage in H. apply Z.eqb_eq in H.
    pose proof (LOWORD_wParamNew os myMsg wParam Hne) as Hl.
    pose proof (getKeyState_range os) as Hr.
    rewrite H in Hl. change (LOWORD kMessageTag) with 0xEA99 in Hl. lia.
Qed.

Lemma isNonClientMouseMessage_In (message : Z) :
  isNonClientMouseMessage message = true <-> In message nonClientMouseMessages.
Proof.
  unfold isNonClientMouseMessage, nonClientMouseMessages. simpl.
  rewrite !orb_true_iff, !Z.eqb_eq. intuition congruence.
Qed.

(** ** The state machine of [snapLayoutHandler] *)

(** A non-client mouse message over a chrome button: handled, exactly one
    client-area message posted (followed by the default procedure for a
    mouse-move only), the suppression flag kept. *)
Lemma snapLayout_over_chromeButton (os : Os) (hWnd message wParam lParam : Z)
    (m : Mem) :
  In message nonClientMouseMessages ->
  lastHitTestResult (this m) = ChromeButton ->
  exists clientMsg,
    clientMessageFor message = Some clientMsg
    /\ snapLayoutHandler os hWnd message wParam lParam m
       = (true,
          mkMem (mkWin32 (base (this m)) (windowId (this m))
                   (if message =? WM_NCMOUSEMOVE then Outside else ChromeButton)
                   (mouseLeaveBlocked (this m)) (centered (this m)))
                (if message =? WM_NCMOUSEMOVE
                 then DefWindowProcW_ret os hWnd WM_NCMOUSEMOVE wParam lParam
                 else if isXButtonMessage message then TRUE else FALSE)
                (clientRect m)
                (trace m
                 ++ [PostMessageW hWnd clientMsg (wParamNew os message wParam)
                                  (lParamNew os message lParam hWnd)]
                 ++ (if message =? WM_NCMOUSEMOVE
                     then [DefWindowProcW hWnd WM_NCMOUSEMOVE wParam lParam]
                     else []))).
Proof.
  intros Hin Hpart.
  destruct m as [[b wid part blocked cen] res rc tr]. simpl in Hpart. subst part.
  simpl in Hin.
  repeat (destruct Hin as [<- | Hin]); [..|contradiction].
  all: eexists; split; [reflexivity|].
  all: cbv -[wParamNew lParamNew app DefWindowProcW_ret].
  all: rewrite <- ?app_assoc; reflexivity.
Qed.

Lemma nonClientMouseMessage_not_leave (message : Z) :
  In message nonClientMouseMessages -> message <> WM_NCMOUSELEAVE.
Proof. simpl. intros H ->. intuition discriminate. Qed.

(** C3, as stated, fails: for the extra-button messages the high half of
    the emitted word is copied from the word the system supplied.  Here
    nothing is pressed, the key state is zero, and the emitted word is
    [0x10000]. *)
Lemma emulated_word_not_only_key_state :
  ~ (forall (os : Os) (hWnd message wParam lParam : Z) (m : Mem),
        In message nonClientMouseMessages ->
        lastHitTestResult (this m) = ChromeButton ->
        forall clientMsg w l,
          In (PostMessageW hWnd clientMsg w l)
             (trace (snd (snapLayoutHandler os hWnd message wParam lParam m))) ->
          w = getKeyState os).
Proof.
  intros H.
  specialize (H example_win10 0x100 WM_NCXBUTTONDOWN (MAKEWPARAM HTCLOSE 1)
                (MAKELPARAM 1900 10) (example_mem ChromeButton false 0)).
  assert (Hin : In WM_NCXBUTTONDOWN nonClientMouseMessages)
    by (simpl; tauto).
  specialize (H Hin eq_refl WM_XBUTTONDOWN 0x10000 (MAKELPARAM 1908 18)).
  assert (Hposted : In (PostMessageW 0x100 WM_XBUTTONDOWN 0x10000 (MAKELPARAM 1908 18))
            (trace (snd (snapLayoutHandler example_win10 0x100 WM_NCXBUTTONDOWN
                           (MAKEWPARAM HTCLOSE 1) (MAKELPARAM 1900 10)
                           (example_mem ChromeButton false 0)))))
    by (vm_compute; left; reflexivity).
  specialize (H Hposted). vm_compute in H. discriminate H.
Qed.

(** C3, amended.  For a non-client mouse message over a chrome button,
    exactly one client-area message is posted.  The low half of its word
    is the live key state; for the extra-button messages the high half
    is the button identifier copied from the word the system supplied,
    for every other kind the whole word is the key state; the word is
    never the tag.  The emulated mouse-leave carries the tag
    [kMessageTag] instead (and a zero position). *)
Theorem emulated_word (os : Os) (hWnd message wParam lParam : Z) (m : Mem) :
  (In message nonClientMouseMessages ->
   lastHitTestResult (this m) = ChromeButton ->
   exists clientMsg w l,
     trace (snd (snapLayoutHandler os hWnd message wParam lParam m))
     = trace m ++ [PostMessageW hWnd clientMsg w l]
               ++ (if message =? WM_NCMOUSEMOVE
                   then [DefWindowProcW hWnd WM_NCMOUSEMOVE wParam lParam]
                   else [])
     /\ clientMessageFor message = Some clientMsg
     /\ LOWORD w = getKeyState os
     /\ isTaggedMessage w = false
     /\ (if isXButtonMessage message
         then HIWORD w = GET_XBUTTON_WPARAM wParam
         else w = getKeyState os))
  /\ emulateClientAreaMessage os hWnd message wParam lParam (Some WM_NCMOUSELEAVE) m
     = (tt, mkMem (this m) (result m) (clientRect m)
                  (trace m ++ [PostMessageW hWnd WM_MOUSELEAVE kMessageTag 0]))
  /\ isTaggedMessage kMessageTag = true.
Proof.
  split; [|split; reflexivity].
  intros Hin Hpart.
  destruct (snapLayout_over_chromeButton os hWnd message wParam lParam m Hin Hpart)
    as (clientMsg & Hclient & Heq).
  pose proof (nonClientMouseMessage_not_leave message Hin) as Hne.
  exists clientMsg, (wParamNew os message wParam), (lParamNew os message lParam hWnd).
  rewrite Heq. simpl. split; [reflexivity|]. split; [exact Hclient|].
  split; [apply LOWORD_wParamNew; exact Hne|]. split.
  - destruct (isTaggedMessage _) eqn:Htag; [|reflexivity].
    apply tagged_iff_leave in Htag. contradiction.
  - unfold wParamNew, isXButtonMessage. apply Z.eqb_neq in Hne. rewrite Hne.
    destruct (_ && _).
    + unfold MAKEWPARAM, GET_XBUTTON_WPARAM.
      rewrite HIWORD_MAKELONG. apply LOWORD_HIWORD.
    + reflexivity.
Qed.

Lemma emulated_word_witness :
  In WM_NCXBUTTONDOWN nonClientMouseMessages
  /\ lastHitTestResult (this (example_mem ChromeButton false 0)) = ChromeButton
  /\ exists clientMsg w l,
       trace (snd (snapLayoutHandler example_win10 0x100 WM_NCXBUTTONDOWN
                     (MAKEWPARAM HTCLOSE 1) (MAKELPARAM 1900 10)
                     (example_mem ChromeButton false 0)))
       = [PostMessageW 0x100 clientMsg w l]
       /\ LOWORD w = getKeyState example_win10
       /\ HIWORD w = 1.
Proof.
  assert (Hin : In WM_NCXBUTTONDOWN nonClientMouseMessages) by (simpl; tauto).
  assert (Hpart : lastHitTestResult (this (example_mem ChromeButton false 0))
                  = ChromeButton) by reflexivity.
  split; [exact Hin|]. split; [exact Hpart|].
  destruct (emulated_word example_win10 0x100 WM_NCXBUTTONDOWN
              (MAKEWPARAM HTCLOSE 1) (MAKELPARAM 1900 10)
              (example_mem ChromeButton false 0)) as [H _].
  destruct (H Hin Hpart) as (clientMsg & w & l & Htrace & _ & Hlow & _ & Hhigh).
  exists clientMsg, w, l. split; [exact Htrace|]. split; [exact Hlow|].
  exact Hhigh.
Defined.

Lemma snapLayout_run_app (msgs1 msgs2 : list Msg) (m : Mem) :
  snapLayout_run (msgs1 ++ msgs2) m = snapLayout_run msgs2 (snapLayout_run msgs1 m).
Proof. revert m. induction msgs1 as [|e msgs1 IH]; intros m; simpl; auto. Qed.

(** A client-area mouse-leave that did not come from the emulation and
    lies over a system button is swallowed and remembered. *)
Lemma snapLayout_leave_suppressed (os : Os) (hWnd wParam lParam : Z) (m : Mem) :
  isTaggedMessage wParam = false ->
  leaveOverSystemButton os (this m) = true ->
  snapLayoutHandler os hWnd WM_MOUSELEAVE wParam lParam m
  = (true, mkMem (mkWin32 (base (this m)) (windowId (this m))
                    (lastHitTestResult (this m)) true (centered (this m)))
                 FALSE (clientRect m) (trace m)).
Proof.
  intros Htag Hover. unfold snapLayoutHandler, leaveOverSystemButton in *.
  simpl. rewrite Htag. simpl. unfold bind, get_this. rewrite Hover.
  reflexivity.
Qed.

(** A client-area mouse-move while the classification is not
    [ChromeButton]: never handled, the flag is clear afterwards, and
    leave tracking is requested exactly when a suppression was
    pending. *)
Lemma snapLayout_mouseMove (os : Os) (hWnd wParam lParam : Z) (m : Mem) :
  lastHitTestResult (this m) <> ChromeButton ->
  snapLayoutHandler os hWnd WM_MOUSEMOVE wParam lParam m
  = (false, mkMem (mkWin32 (base (this m)) (windowId (this m))
                     (lastHitTestResult (this m)) false (centered (this m)))
                  (result m) (clientRect m)
                  (trace m ++ if mouseLeaveBlocked (this m)
                              then [leaveTrackingRequest hWnd] else [])).
Proof.
  intros Hpart. destruct m as [[b wid part blocked cen] res rc tr].
  simpl in *. destruct part, blocked; try congruence;
    cbv -[app]; rewrite ?app_nil_r; reflexivity.
Qed.

(** A non-client mouse-leave while the classification is [ChromeButton]
    and a suppression is pending clears the flag and requests leave
    tracking. *)
Lemma snapLayout_ncLeave_chromeButton (os : Os) (hWnd wParam lParam : Z) (m : Mem) :
  lastHitTestResult (this m) = ChromeButton ->
  snapLayoutHandler os hWnd WM_NCMOUSELEAVE wParam lParam m
  = (false, mkMem (mkWin32 (base (this m)) (windowId (this m))
                     ChromeButton false (centered (this m)))
                  (result m) (clientRect m)
                  (trace m ++ if mouseLeaveBlocked (this m)
                              then [leaveTrackingRequest hWnd] else [])).
Proof.
  intros Hpart. destruct m as [[b wid part blocked cen] res rc tr].
  simpl in *. subst part. destruct blocked;
    cbv -[app]; rewrite ?app_nil_r; reflexivity.
Qed.

(** What clears the flag. *)
Lemma snapLayout_flag_cleared (os : Os) (hWnd message wParam lParam : Z) (m : Mem) :
  mouseLeaveBlocked (this m) = true ->
  let handled := fst (snapLayoutHandler os hWnd message wParam lParam m) in
  let m' := snd (snapLayoutHandler os hWnd message wParam lParam m) in
  mouseLeaveBlocked (this m') = false ->
  handled = false
  /\ ((message = WM_MOUSELEAVE /\ trace m' = trace m)
      \/ ((message = WM_MOUSEMOVE \/ message = WM_NCMOUSELEAVE)
          /\ trace m' = trace m ++ [leaveTrackingRequest hWnd])).
Proof.
  intros Hset handled m'. subst handled m'.
  destruct m as [[b wid part blocked cen] res rc tr]. simpl in Hset. subst blocked.
  unfold snapLayoutHandler.
  destruct (Z.eqb_spec message WM_MOUSELEAVE) as [->|Hn1].
  { destruct (isTaggedMessage wParam); simpl.
    - intros _. split; [reflexivity|]. left. split; reflexivity.
    - unfold bind, get_this. simpl.
      destruct (isInSystemButtons os _); simpl.
      + discriminate.
      + intros _. split; [reflexivity|]. left. split; reflexivity. }
  destruct (Z.eqb_spec message WM_MOUSEMOVE) as [->|Hn2].
  { destruct part; simpl; intros H; try discriminate H;
      (split; [reflexivity|]); right; (split; [left; reflexivity|]); reflexivity. }
  destruct (isNonClientMouseMessage message) eqn:Hnc.
  { apply isNonClientMouseMessage_In in Hnc.
    unfold nonClientMouseMessages in Hnc. simpl in Hnc.
    repeat (destruct Hnc as [<- | Hnc]); try contradiction;
      destruct part; cbv -[wParamNew lParamNew app DefWindowProcW_ret];
      intros H; discriminate H. }
  destruct (Z.eqb_spec message WM_NCMOUSELEAVE) as [->|Hn3].
  { destruct part; cbv -[app]; intros H; try discriminate H;
      (split; [reflexivity|]); right; (split; [right; reflexivity|]); reflexivity. }
  simpl. discriminate.
Qed.

(** A flag that was set and is clear after a sequence was cleared by one
    of its messages. *)
Lemma snapLayout_run_cleared (msgs : list Msg) (m : Mem) :
  mouseLeaveBlocked (this m) = true ->
  mouseLeaveBlocked (this (snapLayout_run msgs m)) = false ->
  exists pre e post,
    msgs = pre ++ e :: post
    /\ mouseLeaveBlocked (this (snapLayout_run pre m)) = true
    /\ mouseLeaveBlocked (this (snd (handle e (snapLayout_run pre m)))) = false.
Proof.
  revert m. induction msgs as [|e msgs IH]; intros m Hset Hclear.
  - simpl in Hclear. congruence.
  - simpl in Hclear.
    destruct (mouseLeaveBlocked (this (snd (handle e m)))) eqn:Hafter.
    + destruct (IH _ Hafter Hclear) as (pre & e1 & post & -> & Hpre & He1).
      exists (e :: pre), e1, post. split; [reflexivity|]. split; assumption.
    + exists [], e, msgs. split; [reflexivity|]. split; assumption.
Qed.

(** C6, as stated, fails: the suppressed leave over a system button is
    followed by a non-client mouse-leave, which posts the tagged
    client-area leave, and by that tagged leave, which clears the flag
    at line 663 without a tracking request; the client-area mouse-move
    that comes next, the first one since the suppression, finds the flag
    clear and requests no leave tracking. *)
Lemma mouseMove_without_rearm :
  ~ (forall (between : list Msg) (leave move : Msg) (m : Mem),
        msg_message leave = WM_MOUSELEAVE ->
        isTaggedMessage (msg_wParam leave) = false ->
        leaveOverSystemButton (msg_os leave) (this m) = true ->
        Forall (fun e => msg_message e <> WM_MOUSEMOVE) between ->
        msg_message move = WM_MOUSEMOVE ->
        let m2 := snapLayout_run (leave :: between) m in
        let m3 := snapLayout_run (leave :: between ++ [move]) m in
        lastHitTestResult (this m2) <> ChromeButton ->
        mouseLeaveBlocked (this m3) = false
        /\ trace m3 = trace m2 ++ [leaveTrackingRequest (msg_hWnd move)]).
Proof.
  intros H.
  destruct (H [mkMsg example_win10 0x100 WM_NCMOUSELEAVE 0 0;
               mkMsg example_win10 0x100 WM_MOUSELEAVE kMessageTag 0]
              (mkMsg example_overButton 0x100 WM_MOUSELEAVE 0 0)
              (mkMsg example_win10 0x100 WM_MOUSEMOVE 0 (MAKELPARAM 5 5))
              (example_mem Outside false 0)
              eq_refl eq_refl eq_refl)
    as [_ Htrace].
  - repeat constructor; discriminate.
  - reflexivity.
  - vm_compute. discriminate.
  - vm_compute in Htrace. discriminate Htrace.
Qed.

(** C6, amended.  Whatever came before and whatever comes in between:
    once a client-area mouse-leave has been suppressed over a system
    button, a later client-area mouse-move processed while the
    classification is not [ChromeButton] is not handled and leaves the
    flag clear; it requests leave tracking exactly when the flag is
    still set on its arrival, as it is when the mouse-move comes
    straight after the suppressed leave.  When the flag was cleared in
    between, one of the messages in between cleared it, without being
    handled: a client-area mouse-leave let through (no tracking
    request), or a client-area mouse-move or non-client mouse-leave that
    made the tracking request itself.  In any state such a mouse-move
    leaves the flag clear, re-arming whenever a suppression was pending;
    and from every state with the flag set some message clears it (and
    re-arms), so the flag is never stuck. *)
Theorem suppression_is_cleared (before between : list Msg) (leave move : Msg)
    (m0 : Mem) :
  let m := snapLayout_run before m0 in
  let m1 := snapLayout_run (before ++ [leave]) m0 in
  let m2 := snapLayout_run (before ++ leave :: between) m0 in
  let m3 := snapLayout_run (before ++ leave :: between ++ [move]) m0 in
  (msg_message leave = WM_MOUSELEAVE ->
   isTaggedMessage (msg_wParam leave) = false ->
   leaveOverSystemButton (msg_os leave) (this m) = true ->
   msg_message move = WM_MOUSEMOVE ->
   lastHitTestResult (this m2) <> ChromeButton ->
   fst (handle leave m) = true
   /\ mouseLeaveBlocked (this m1) = true
   /\ fst (handle move m2) = false
   /\ mouseLeaveBlocked (this m3) = false
   /\ trace m3 = trace m2 ++ (if mouseLeaveBlocked (this m2)
                              then [leaveTrackingRequest (msg_hWnd move)]
                              else [])
   /\ (between = [] ->
       trace m3 = trace m ++ [leaveTrackingRequest (msg_hWnd move)])
   /\ (mouseLeaveBlocked (this m2) = false ->
       exists pre e post,
         between = pre ++ e :: post
         /\ let s := snapLayout_run (before ++ leave :: pre) m0 in
            let s' := snd (handle e s) in
            mouseLeaveBlocked (this s) = true
            /\ mouseLeaveBlocked (this s') = false
            /\ fst (handle e s) = false
            /\ ((msg_message e = WM_MOUSELEAVE /\ trace s' = trace s)
                \/ ((msg_message e = WM_MOUSEMOVE
                     \/ msg_message e = WM_NCMOUSELEAVE)
                    /\ trace s' = trace s ++ [leaveTrackingRequest (msg_hWnd e)]))))
  /\ (msg_message move = WM_MOUSEMOVE ->
      lastHitTestResult (this m) <> ChromeButton ->
      let m' := snd (handle move m) in
      mouseLeaveBlocked (this m') = false
      /\ trace m' = trace m ++ if mouseLeaveBlocked (this m)
                               then [leaveTrackingRequest (msg_hWnd move)]
                               else [])
  /\ (mouseLeaveBlocked (this m) = true ->
      exists message,
        forall os hWnd wParam lParam,
          let m' := snd (snapLayoutHandler os hWnd message wParam lParam m) in
          mouseLeaveBlocked (this m') = false
          /\ trace m' = trace m ++ [leaveTrackingRequest hWnd]).
Proof.
  intros m m1 m2 m3. subst m1 m2 m3.
  replace (before ++ leave :: between ++ [move])
    with ((before ++ leave :: between) ++ [move])
    by (rewrite <- app_assoc; reflexivity).
  replace (before ++ leave :: between) with (before ++ [leave] ++ between)
    by reflexivity.
  rewrite !snapLayout_run_app. fold m.
  split; [|split].
  - intros Hleave Htag Hover Hmove Hpart.
    destruct leave as [os1 h1 k1 w1 l1], move as [os2 h2 k2 w2 l2].
    simpl in Hleave, Htag, Hover, Hmove. subst k1 k2.
    assert (Hl : handle (mkMsg os1 h1 WM_MOUSELEAVE w1 l1) m
                 = (true, mkMem (mkWin32 (base (this m)) (windowId (this m))
                                   (lastHitTestResult (this m)) true
                                   (centered (this m)))
                                FALSE (clientRect m) (trace m)))
      by exact (snapLayout_leave_suppressed os1 h1 w1 l1 m Htag Hover).
    change (snapLayout_run [mkMsg os1 h1 WM_MOUSELEAVE w1 l1] m)
      with (snd (handle (mkMsg os1 h1 WM_MOUSELEAVE w1 l1) m)) in *.
    rewrite Hl in *. cbn [fst snd] in *.
    set (s1 := mkMem _ FALSE (clientRect m) (trace m)) in *.
    set (s2 := snapLayout_run between s1) in *.
    change (snapLayout_run [mkMsg os2 h2 WM_MOUSEMOVE w2 l2] s2)
      with (snd (handle (mkMsg os2 h2 WM_MOUSEMOVE w2 l2) s2)).
    assert (Hm : handle (mkMsg os2 h2 WM_MOUSEMOVE w2 l2) s2
                 = (false, mkMem (mkWin32 (base (this s2)) (windowId (this s2))
                                    (lastHitTestResult (this s2)) false
                                    (centered (this s2)))
                                 (result s2) (clientRect s2)
                                 (trace s2 ++ if mouseLeaveBlocked (this s2)
                                              then [leaveTrackingRequest h2]
                                              else [])))
      by exact (snapLayout_mouseMove os2 h2 w2 l2 s2 Hpart).
    rewrite Hm. cbn [fst snd this trace mouseLeaveBlocked msg_hWnd].
    split; [reflexivity|]. split; [reflexivity|]. split; [reflexivity|].
    split; [reflexivity|]. split; [reflexivity|]. split.
    + intros ->. reflexivity.
    + intros Hclear.
      destruct (snapLayout_run_cleared between s1 eq_refl Hclear)
        as (pre & e & post & -> & Hpre & He).
      exists pre, e, post. split; [reflexivity|].
      replace (before ++ mkMsg os1 h1 WM_MOUSELEAVE w1 l1 :: pre)
        with (before ++ [mkMsg os1 h1 WM_MOUSELEAVE w1 l1] ++ pre) by reflexivity.
      rewrite !snapLayout_run_app. fold m.
      change (snapLayout_run [mkMsg os1 h1 WM_MOUSELEAVE w1 l1] m)
        with (snd (handle (mkMsg os1 h1 WM_MOUSELEAVE w1 l1) m)).
      rewrite Hl. cbn [snd]. fold s1. cbv zeta.
      split; [exact Hpre|]. split; [exact He|].
      exact (snapLayout_flag_cleared (msg_os e) (msg_hWnd e) (msg_message e)
               (msg_wParam e) (msg_lParam e) _ Hpre He).
  - intros Hmove Hpart. destruct move as [os2 h2 k2 w2 l2].
    simpl in *. subst k2. unfold handle. simpl.
    rewrite snapLayout_mouseMove by exact Hpart. simpl. auto.
  - intros Hblocked.
    destruct (WindowPart_eqb_spec (lastHitTestResult (this m)) ChromeButton)
      as [Hpart|Hpart].
    + exists WM_NCMOUSELEAVE. intros os hWnd wParam lParam.
      rewrite snapLayout_ncLeave_chromeButton by exact Hpart.
      simpl. rewrite Hblocked. auto.
    + exists WM_MOUSEMOVE. intros os hWnd wParam lParam.
      rewrite snapLayout_mouseMove by exact Hpart.
      simpl. rewrite Hblocked. auto.
Qed.

Lemma suppression_is_cleared_witness :
  let leave := mkMsg example_overButton 0x100 WM_MOUSELEAVE 0 0 in
  let move := mkMsg example_win10 0x100 WM_MOUSEMOVE 0 (MAKELPARAM 5 5) in
  let m0 := example_mem Outside false 0 in
  msg_message leave = WM_MOUSELEAVE
  /\ isTaggedMessage (msg_wParam leave) = false
  /\ leaveOverSystemButton (msg_os leave) (this m0) = true
  /\ msg_message move = WM_MOUSEMOVE
  /\ lastHitTestResult (this (snapLayout_run [leave] m0)) <> ChromeButton
  /\ mouseLeaveBlocked (this (snapLayout_run [leave] m0)) = true
  /\ mouseLeaveBlocked (this (snapLayout_run [leave; move] m0)) = false
  /\ trace (snapLayout_run [leave; move] m0) = [leaveTrackingRequest 0x100].
Proof.
  intros leave move m0.
  assert (H1 : msg_message leave = WM_MOUSELEAVE) by reflexivity.
  assert (H2 : isTaggedMessage (msg_wParam leave) = false) by reflexivity.
  assert (H3 : leaveOverSystemButton (msg_os leave) (this m0) = true)
    by reflexivity.
  assert (H4 : msg_message move = WM_MOUSEMOVE) by reflexivity.
  assert (H5 : lastHitTestResult (this (snapLayout_run [leave] m0)) <> ChromeButton)
    by (vm_compute; discriminate).
  split; [exact H1|]. split; [exact H2|]. split; [exact H3|].
  split; [exact H4|]. split; [exact H5|].
  destruct (suppression_is_cleared [] [] leave move m0) as [H _].
  destruct (H H1 H2 H3 H4 H5) as (_ & Hset & _ & Hclear & _ & Htrace & _).
  split; [exact Hset|]. split; [exact Hclear|]. exact (Htrace eq_refl).
Defined.

(** ** Leaving a chrome button *)

(** C7, as stated, fails: with no suppression pending, the mouse-move
    over the chrome button followed by the non-client mouse-leave posts no
    client-area mouse-leave at all. *)
Lemma ncLeave_posts_no_leave :
  ~ (forall (move leave : Msg) (m : Mem),
        msg_message move = WM_NCMOUSEMOVE ->
        msg_message leave = WM_NCMOUSELEAVE ->
        lastHitTestResult (this m) = ChromeButton ->
        length (postedLeaves (trace (snapLayout_run [move; leave] m)))
        = S (length (postedLeaves (trace m)))
        /\ lastHitTestResult (this (snapLayout_run [move; leave] m))
           = lastHitTestResult (this (snapLayout_run [move] m))).
Proof.
  intros H.
  specialize (H (mkMsg example_win10 0x100 WM_NCMOUSEMOVE HTCLOSE (MAKELPARAM 1900 10))
                (mkMsg example_win10 0x100 WM_NCMOUSELEAVE 0 0)
                (example_mem ChromeButton false 0) eq_refl eq_refl eq_refl).
  vm_compute in H. destruct H as [H _]. discriminate H.
Qed.

(** A non-client mouse-leave while the classification is not
    [ChromeButton]: not handled, no field of the context changes, one
    tagged client-area mouse-leave is posted exactly when a suppression
    is pending, and the grabbed control is reset when the classification
    is [Outside]. *)
Lemma snapLayout_ncLeave_elsewhere (os : Os) (hWnd wParam lParam : Z) (m : Mem) :
  lastHitTestResult (this m) <> ChromeButton ->
  snapLayoutHandler os hWnd WM_NCMOUSELEAVE wParam lParam m
  = (false, mkMem (this m) (result m) (clientRect m)
                  (trace m
                   ++ (if mouseLeaveBlocked (this m)
                       then [synthesizedLeave hWnd] else [])
                   ++ (if WindowPart_eqb (lastHitTestResult (this m)) Outside
                       then [resetQtGrabbedControl] else []))).
Proof.
  intros Hpart. destruct m as [[b wid part blocked cen] res rc tr].
  simpl in *. destruct part, blocked; try congruence;
    cbv -[app]; rewrite <- ?app_assoc, ?app_nil_r; reflexivity.
Qed.

Lemma postedLeaves_app (t1 t2 : list OsCall) :
  postedLeaves (t1 ++ t2) = postedLeaves t1 ++ postedLeaves t2.
Proof. unfold postedLeaves. apply List.filter_app. Qed.

(** C7, amended.  A non-client mouse-move over a chrome button is
    handled, posts one client-area mouse-move and no mouse-leave, and
    itself resets [lastHitTestResult] to [Outside].  The non-client
    mouse-leave that comes next is not handled and leaves
    [lastHitTestResult] and the suppression flag as they are; it posts
    exactly one tagged client-area mouse-leave when a suppression is
    pending, and none otherwise. *)
Theorem chromeButton_move_then_leave (move leave : Msg) (m : Mem) :
  msg_message move = WM_NCMOUSEMOVE ->
  msg_message leave = WM_NCMOUSELEAVE ->
  lastHitTestResult (this m) = ChromeButton ->
  let m1 := snapLayout_run [move] m in
  let m2 := snapLayout_run [move; leave] m in
  fst (handle move m) = true
  /\ lastHitTestResult (this m1) = Outside
  /\ trace m1
     = trace m
       ++ [PostMessageW (msg_hWnd move) WM_MOUSEMOVE
                        (wParamNew (msg_os move) WM_NCMOUSEMOVE (msg_wParam move))
                        (lParamNew (msg_os move) WM_NCMOUSEMOVE (msg_lParam move)
                                   (msg_hWnd move));
           DefWindowProcW (msg_hWnd move) WM_NCMOUSEMOVE (msg_wParam move)
                          (msg_lParam move)]
  /\ postedLeaves (trace m1) = postedLeaves (trace m)
  /\ fst (handle leave m1) = false
  /\ lastHitTestResult (this m2) = lastHitTestResult (this m1)
  /\ mouseLeaveBlocked (this m2) = mouseLeaveBlocked (this m)
  /\ trace m2 = trace m1
                ++ (if mouseLeaveBlocked (this m)
                    then [synthesizedLeave (msg_hWnd leave)] else [])
                ++ [resetQtGrabbedControl]
  /\ postedLeaves (trace m2)
     = postedLeaves (trace m)
       ++ if mouseLeaveBlocked (this m)
          then [synthesizedLeave (msg_hWnd leave)] else [].
Proof.
  intros Hmove Hleave Hpart m1 m2.
  destruct move as [os1 h1 k1 w1 l1], leave as [os2 h2 k2 w2 l2].
  simpl in Hmove, Hleave. subst k1 k2.
  assert (Hin : In WM_NCMOUSEMOVE nonClientMouseMessages) by (simpl; tauto).
  destruct (snapLayout_over_chromeButton os1 h1 WM_NCMOUSEMOVE w1 l1 m Hin Hpart)
    as (clientMsg & Hclient & Hfirst).
  injection Hclient as <-.
  assert (Hm1 : m1 = snd (snapLayoutHandler os1 h1 WM_NCMOUSEMOVE w1 l1 m))
    by reflexivity.
  rewrite Hfirst in Hm1. simpl in Hm1.
  assert (Hout : lastHitTestResult (this m1) <> ChromeButton)
    by (rewrite Hm1; simpl; discriminate).
  assert (Hm2 : m2 = snd (snapLayoutHandler os2 h2 WM_NCMOUSELEAVE w2 l2 m1))
    by reflexivity.
  rewrite (snapLayout_ncLeave_elsewhere os2 h2 w2 l2 m1 Hout) in Hm2.
  simpl in Hm2.
  assert (Hblocked : mouseLeaveBlocked (this m1) = mouseLeaveBlocked (this m))
    by (rewrite Hm1; reflexivity).
  assert (Hpart1 : lastHitTestResult (this m1) = Outside)
    by (rewrite Hm1; reflexivity).
  rewrite Hblocked, Hpart1 in Hm2. simpl in Hm2.
  assert (Hleaves1 : postedLeaves (trace m1) = postedLeaves (trace m)).
  { rewrite Hm1. simpl. rewrite postedLeaves_app. simpl. apply app_nil_r. }
  unfold handle. simpl. rewrite Hfirst.
  rewrite (snapLayout_ncLeave_elsewhere os2 h2 w2 l2 m1 Hout). simpl.
  repeat split; try assumption; try (rewrite Hm2; simpl; congruence).
  - rewrite Hm1. reflexivity.
  - rewrite Hm2. simpl. rewrite !postedLeaves_app, Hleaves1.
    destruct (mouseLeaveBlocked (this m)); simpl; rewrite ?app_nil_r; reflexivity.
Qed.

Lemma chromeButton_move_then_leave_witness :
  let move := mkMsg example_win10 0x100 WM_NCMOUSEMOVE HTCLOSE (MAKELPARAM 1900 10) in
  let leave := mkMsg example_win10 0x100 WM_NCMOUSELEAVE 0 0 in
  let m := example_mem ChromeButton true 0 in
  msg_message move = WM_NCMOUSEMOVE
  /\ msg_message leave = WM_NCMOUSELEAVE
  /\ lastHitTestResult (this m) = ChromeButton
  /\ lastHitTestResult (this (snapLayout_run [move] m)) = Outside
  /\ postedLeaves (trace (snapLayout_run [move; leave] m)) = [synthesizedLeave 0x100].
Proof.
  intros move leave m.
  assert (H1 : msg_message move = WM_NCMOUSEMOVE) by reflexivity.
  assert (H2 : msg_message leave = WM_NCMOUSELEAVE) by reflexivity.
  assert (H3 : lastHitTestResult (this m) = ChromeButton) by reflexivity.
  split; [exact H1|]. split; [exact H2|]. split; [exact H3|].
  destruct (chromeButton_move_then_leave move leave m H1 H2 H3)
    as (_ & Hreset & _ & _ & _ & _ & _ & _ & Hleaves).
  split; [exact Hreset | exact Hleaves].
Defined.

(** ** The hooked window procedure *)

(** The guard of lines 394-396, behind [Q_ASSERT(hWnd)]: where the
    assertion is compiled out, a call with the null handle, which the
    system never makes, is answered with [FALSE] and changes nothing. *)
Remark hooked_null_handle (os : Os) (message wParam lParam : Z) (rect : RECT)
    (p : Process) :
  QWKHookedWndProc os 0 message wParam lParam rect p
  = Some (mkOutcome FALSE rect p).
Proof. reflexivity. Qed.

(** C4.  For every message to a window (a non-null handle, as the
    procedure asserts): without a registered context the message goes
    to the default procedure and its answer is returned; with one, the
    context's handler runs, whether it claimed the message and its
    result are recorded (so that the native event filter reports exactly
    that), and the message is then, whatever the handler said, passed on
    to the original procedure, whose answer is returned. *)
Theorem hooked_procedure_forwards (os : Os) (hWnd message wParam lParam : Z)
    (rect : RECT) (p : Process) :
  hWnd <> 0 ->
  (default 0 (g_wndProcHash p !! hWnd) = 0 ->
   QWKHookedWndProc os hWnd message wParam lParam rect p
   = Some (mkOutcome (DefWindowProcW_ret os hWnd message wParam lParam) rect
                     (log (DefWindowProcW hWnd message wParam lParam) p)))
  /\ (forall ctx c,
        g_wndProcHash p !! hWnd = Some ctx ->
        ctx <> 0 ->
        heap p !! ctx = Some c ->
        let run := windowProc os hWnd message wParam lParam
                     (mkMem c (lastMessageResult p) rect (calls p)) in
        exists o,
          QWKHookedWndProc os hWnd message wParam lParam rect p = Some o
          /\ lastMessageHandled (process_after o) = fst run
          /\ lastMessageResult (process_after o) = result (snd run)
          /\ nativeEventFilter false (process_after o)
             = (if fst run then (true, Some (result (snd run))) else (false, None))
          /\ heap (process_after o) = <[ ctx := this (snd run) ]> (heap p)
          /\ rect_after o = clientRect (snd run)
          /\ calls (process_after o)
             = trace (snd run)
               ++ [CallWindowProcW (g_qtWindowProc p) hWnd message wParam lParam]
          /\ returned o
             = CallWindowProcW_ret os (g_qtWindowProc p) hWnd message wParam lParam
          /\ g_wndProcHash (process_after o) = g_wndProcHash p
          /\ g_qtWindowProc (process_after o) = g_qtWindowProc p).
Proof.
  intros Hnz. apply Z.eqb_neq in Hnz. split.
  - intros Hnone. unfold QWKHookedWndProc.
    rewrite Hnz, Hnone. reflexivity.
  - intros ctx c Hctx Hctxnz Hc run. unfold QWKHookedWndProc.
    rewrite Hnz, Hctx. simpl.
    apply Z.eqb_neq in Hctxnz. rewrite Hctxnz, Hc.
    fold run. destruct run as [handled m]. simpl.
    eexists. split; [reflexivity|]. simpl.
    unfold nativeEventFilter. simpl. repeat split; reflexivity.
Qed.

Example setup_example :
  setup example_win10 0x7000 example_process = Some (true, example_hooked).
Proof. reflexivity. Qed.

Lemma hooked_procedure_forwards_witness :
  0x100 <> 0
  /\ g_wndProcHash example_hooked !! 0x100 = Some 0x7000
  /\ 0x7000 <> 0
  /\ exists o,
       QWKHookedWndProc example_win10 0x100 WM_NCCALCSIZE TRUE 0
         (mkRECT (-8) (-8) 1928 1048) example_hooked = Some o
       /\ lastMessageHandled (process_after o) = true
       /\ lastMessageResult (process_after o) = WVR_REDRAW
       /\ calls (process_after o)
          = [DefWindowProcW 0x100 WM_NCCALCSIZE TRUE 0;
             CallWindowProcW (OtherProc 1) 0x100 WM_NCCALCSIZE TRUE 0].
Proof.
  assert (H1 : 0x100 <> 0) by lia.
  assert (H2 : g_wndProcHash example_hooked !! 0x100 = Some 0x7000)
    by reflexivity.
  assert (H3 : 0x7000 <> 0) by lia.
  assert (H4 : heap example_hooked !! 0x7000
               = Some (with_windowId 0x100 (Win32WindowContext_new example_abstract)))
    by reflexivity.
  split; [exact H1|]. split; [exact H2|]. split; [exact H3|].
  destruct (hooked_procedure_forwards example_win10 0x100 WM_NCCALCSIZE TRUE 0
              (mkRECT (-8) (-8) 1928 1048) example_hooked H1) as (_ & H).
  destruct (H _ _ H2 H3 H4)
    as (o & Ho & Hhandled & Hresult & _ & _ & _ & Hcalls & _).
  exists o. split; [exact Ho|]. split; [exact Hhandled|].
  split; [exact Hresult|]. exact Hcalls.
Defined.

(** ** Hooking and unhooking twice *)

Lemma SetWindowLongPtrW_twice (hWnd : Z) (f : WNDPROC) (w : gmap Z WNDPROC) :
  SetWindowLongPtrW_WNDPROC hWnd f (SetWindowLongPtrW_WNDPROC hWnd f w)
  = SetWindowLongPtrW_WNDPROC hWnd f w.
Proof.
  unfold SetWindowLongPtrW_WNDPROC.
  destruct (w !! hWnd) eqn:Hw.
  - rewrite lookup_insert_eq. apply insert_insert_eq.
  - now rewrite Hw.
Qed.

Lemma removeNativeEventFilter_null (l : list Z) : removeNativeEventFilter 0 l = l.
Proof. reflexivity. Qed.

Lemma uninstall_twice (p : Process) : uninstall (uninstall p) = uninstall p.
Proof. unfold uninstall. simpl. reflexivity. Qed.

Lemma destructor_body_twice (windowId : Z) (p : Process) :
  destructor_body windowId (destructor_body windowId p)
  = destructor_body windowId p.
Proof.
  unfold destructor_body. destruct (windowId =? 0) eqn:Hnull; [reflexivity|].
  set (p1 := mkProcess (delete windowId (g_wndProcHash p)) _ _ _ _ _ _ _ _ _ _).
  assert (Hagain : forall q,
            g_wndProcHash q = g_wndProcHash p1 ->
            mkProcess (delete windowId (g_wndProcHash q)) (g_qtWindowProc q)
                      (lastMessageHandled q) (lastMessageResult q) (instance q)
                      (heap q) (wndProcs q) (nativeEventFilters q) (allocated q)
                      (deleted q) (calls q) = q).
  { intros q Hq. rewrite Hq.
    assert (Hd : delete windowId (g_wndProcHash p1) = g_wndProcHash p1)
      by (unfold p1; simpl; apply delete_delete_eq).
    rewrite Hd, <- Hq. now destruct q. }
  destruct (bool_decide (g_wndProcHash p1 = ∅)) eqn:Hempty.
  - rewrite (Hagain (uninstall p1)) by reflexivity.
    change (g_wndProcHash (uninstall p1)) with (g_wndProcHash p1).
    rewrite Hempty. apply uninstall_twice.
  - rewrite (Hagain p1) by reflexivity. now rewrite Hempty.
Qed.

(** Hooking the same context a second time: nothing moves, provided the
    original procedure was recorded the first time. *)
Lemma setup_twice (os : Os) (this : Z) (p p1 : Process) :
  setup os this p = Some (true, p1) ->
  exists p2,
    setup os this p1 = Some (true, p2)
    /\ g_wndProcHash p2 = g_wndProcHash p1
    /\ instance p2 = instance p1
    /\ nativeEventFilters p2 = nativeEventFilters p1
    /\ allocated p2 = allocated p1
    /\ (g_qtWindowProc p1 <> NullProc -> p2 = p1).
Proof.
  unfold setup. destruct (heap p !! this) as [c|] eqn:Hc; [|discriminate].
  destruct (m_windowHandle (base c) =? 0) eqn:Hwin; [discriminate|].
  intros H. injection H as <-.
  set (winId := QWindow_winId os (m_windowHandle (base c))).
  destruct (instance p =? 0) eqn:Hi; simpl; rewrite ?Hi; simpl.
  all: rewrite lookup_insert_eq; simpl; rewrite Hwin; fold winId.
  all: eexists; split; [reflexivity|]; simpl.
  all: rewrite ?Hi; simpl.
  all: rewrite !insert_insert_eq, SetWindowLongPtrW_twice.
  all: repeat (split; [reflexivity|]).
  all: intros Hrec; f_equal.
  all: destruct (WNDPROC_isNull (g_qtWindowProc p)) eqn:Hnull;
         [destruct (WNDPROC_isNull (GetWindowLongPtrW_WNDPROC winId p)) eqn:Hnull2;
            [destruct (GetWindowLongPtrW_WNDPROC winId p); try discriminate;
             contradiction
            | reflexivity]
         | now rewrite Hnull].
Qed.

Lemma destructor_body_with_heap (windowId : Z) (h : gmap Z Win32WindowContext)
    (p : Process) :
  destructor_body windowId (with_heap h p)
  = with_heap h (destructor_body windowId p).
Proof.
  unfold destructor_body. destruct (windowId =? 0); [reflexivity|]. simpl.
  destruct (bool_decide _); reflexivity.
Qed.

(** C9.  Hooking the same context twice in a row: the second call
    succeeds and leaves the registry as it was (one entry for the window,
    no second one), installs no second filter and allocates none, and
    does not overwrite the original procedure once it has been recorded;
    the whole process is then unchanged.  Running the unhooking code
    twice in a row for the same window, be it for one context or for two
    contexts that cached the same window, changes nothing the second
    time: the filter is removed from the application and deleted at most
    once. *)
Theorem hook_twice_is_noop (os : Os) (this : Z) (p p1 : Process) :
  (setup os this p = Some (true, p1) ->
   exists p2,
     setup os this p1 = Some (true, p2)
     /\ g_wndProcHash p2 = g_wndProcHash p1
     /\ size (g_wndProcHash p2) = size (g_wndProcHash p1)
     /\ instance p2 = instance p1
     /\ nativeEventFilters p2 = nativeEventFilters p1
     /\ allocated p2 = allocated p1
     /\ (g_qtWindowProc p1 <> NullProc ->
         g_qtWindowProc p2 = g_qtWindowProc p1 /\ p2 = p1))
  /\ (forall windowId,
        destructor_body windowId (destructor_body windowId p)
        = destructor_body windowId p)
  /\ (forall a b ca cb,
        heap p !! a = Some ca ->
        heap p !! b = Some cb ->
        a <> b ->
        windowId cb = windowId ca ->
        exists q1 q2,
          destructor a p = Some q1
          /\ destructor b q1 = Some q2
          /\ q2 = with_heap (delete b (heap q1)) q1
          /\ instance q2 = instance q1
          /\ nativeEventFilters q2 = nativeEventFilters q1
          /\ deleted q2 = deleted q1).
Proof.
  split; [|split].
  - intros H. destruct (setup_twice os this p p1 H)
      as (p2 & H2 & Hhash & Hinst & Hfilters & Halloc & Hrec).
    exists p2. repeat (split; [first [assumption | now rewrite Hhash]|]).
    intros Hne. specialize (Hrec Hne). now subst p2.
  - intros w. apply destructor_body_twice.
  - intros a b ca cb Ha Hb Hab Hsame.
    unfold destructor. rewrite Ha.
    eexists. eexists. split; [reflexivity|].
    assert (Hheap : heap (destructor_body (windowId ca) p) = heap p).
    { unfold destructor_body. destruct (_ =? 0); [reflexivity|].
      simpl. destruct (bool_decide _); reflexivity. }
    unfold with_heap at 1. unfold heap at 1.
    rewrite Hheap, lookup_delete_ne by exact Hab.
    rewrite Hb, Hsame, destructor_body_with_heap, destructor_body_twice.
    split; [reflexivity|]. repeat split; reflexivity.
Qed.

Lemma hook_twice_is_noop_witness :
  setup example_win10 0x7000 example_process = Some (true, example_hooked)
  /\ g_qtWindowProc example_hooked <> NullProc
  /\ setup example_win10 0x7000 example_hooked = Some (true, example_hooked).
Proof.
  assert (H1 : setup example_win10 0x7000 example_process
               = Some (true, example_hooked)) by reflexivity.
  assert (H2 : g_qtWindowProc example_hooked <> NullProc) by discriminate.
  split; [exact H1|]. split; [exact H2|].
  destruct (hook_twice_is_noop example_win10 0x7000 example_process
              example_hooked) as [H _].
  destruct (H H1) as (p2 & Hsetup & _ & _ & _ & _ & _ & Hrec).
  destruct (Hrec H2) as [_ ->]. exact Hsetup.
Defined.

(** Two contexts hooked on one window, then destroyed one after the
    other: the filter object [1] is removed and deleted once. *)
Example detach_twice_example :
  let p := mkProcess {[ 0x100 := 0x7001 ]} (OtherProc 1) false 0 1
             {[ 0x7000 := example_context Outside false;
                0x7001 := example_context Outside false ]}
             {[ 0x100 := HookedProc ]} [1] 2%positive [] [] in
  exists q1 q2,
    destructor 0x7000 p = Some q1
    /\ destructor 0x7001 q1 = Some q2
    /\ instance q1 = 0 /\ nativeEventFilters q1 = [] /\ deleted q1 = [1]
    /\ instance q2 = 0 /\ nativeEventFilters q2 = [] /\ deleted q2 = [1].
Proof.
  intros p. eexists. eexists. split; [reflexivity|]. split; [reflexivity|].
  vm_compute. repeat split; reflexivity.
Qed.

(** ** More on the registration operations *)

Lemma QRect_eqb_eq (a b : QRect) : QRect_eqb a b = true <-> a = b.
Proof.
  unfold QRect_eqb. rewrite !andb_true_iff, !Z.eqb_eq. split.
  - intros [[[H1 H2] H3] H4]. destruct a, b; simpl in *; congruence.
  - intros ->. auto.
Qed.

(** X1.  [setSystemButton] succeeds exactly for a non-null object, a role
    other than [Unknown] and an object that differs from the one
    registered.  A success registers the object for that role alone and
    touches nothing else; a failure leaves the context as it was; and
    the same call made again right after always fails. *)
Theorem setSystemButton_outcome (button : SystemButton) (obj : Z)
    (c : AbstractWindowContext) :
  let ok := fst (setSystemButton button obj c) in
  let c' := snd (setSystemButton button obj c) in
  (ok = true <-> obj <> 0 /\ button <> Unknown /\ m_systemButtons c button <> obj)
  /\ (ok = true ->
      m_systemButtons c' button = obj
      /\ (forall other, other <> button ->
            m_systemButtons c' other = m_systemButtons c other)
      /\ m_titleBar c' = m_titleBar c
      /\ m_hitTestVisibleItems c' = m_hitTestVisibleItems c
      /\ m_hitTestVisibleRects c' = m_hitTestVisibleRects c
      /\ m_windowHandle c' = m_windowHandle c)
  /\ (ok = false -> c' = c)
  /\ setSystemButton button obj c' = (false, c').
Proof.
  unfold setSystemButton.
  destruct (Z.eqb_spec obj 0) as [Hnull|Hnull]; simpl.
  { repeat split; try discriminate; tauto. }
  destruct (SystemButton_eqb_spec button Unknown) as [Hunk|Hunk]; simpl.
  { repeat split; try discriminate; tauto. }
  destruct (Z.eqb_spec (m_systemButtons c button) obj) as [Hsame|Hsame]; simpl.
  { repeat split; try discriminate; try tauto.
    now rewrite Hsame, Z.eqb_refl. }
  assert (Hself : SystemButton_eqb button button = true)
    by (destruct button; reflexivity).
  repeat split; try discriminate; try tauto.
  - unfold set_systemButton. now rewrite Hself.
  - intros other Hother. unfold set_systemButton.
    destruct (SystemButton_eqb_spec other button); [contradiction | reflexivity].
  - unfold set_systemButton. now rewrite Hself, Z.eqb_refl.
Qed.

(** X2.  [setTitleBar] succeeds exactly for a non-null object that is
    not the current title bar; a success changes the title bar alone, a
    failure nothing, and the same call made again right after fails. *)
Theorem setTitleBar_outcome (item : Z) (c : AbstractWindowContext) :
  let ok := fst (setTitleBar item c) in
  let c' := snd (setTitleBar item c) in
  (ok = true <-> item <> 0 /\ m_titleBar c <> item)
  /\ (ok = true ->
      m_titleBar c' = item
      /\ m_systemButtons c' = m_systemButtons c
      /\ m_hitTestVisibleItems c' = m_hitTestVisibleItems c
      /\ m_hitTestVisibleRects c' = m_hitTestVisibleRects c
      /\ m_windowHandle c' = m_windowHandle c)
  /\ (ok = false -> c' = c)
  /\ setTitleBar item c' = (false, c').
Proof.
  unfold setTitleBar.
  destruct (Z.eqb_spec item 0) as [Hnull|Hnull]; simpl.
  { repeat split; try discriminate; tauto. }
  destruct (Z.eqb_spec (m_titleBar c) item) as [Hsame|Hsame]; simpl.
  { repeat split; try discriminate; try tauto.
    now rewrite Hsame, Z.eqb_refl. }
  repeat split; try discriminate; try tauto.
  now rewrite Z.eqb_refl.
Qed.

Lemma with_hitTestVisibleItems_same (c : AbstractWindowContext) :
  with_hitTestVisibleItems (m_hitTestVisibleItems c) c = c.
Proof. now destruct c. Qed.

Lemma with_hitTestVisibleRects_same (c : AbstractWindowContext) :
  with_hitTestVisibleRects (m_hitTestVisibleRects c) c = c.
Proof. now destruct c. Qed.

(** X3.  [setHitTestVisible] for an object rejects the null pointer and
    otherwise always succeeds, also when it hides an object that was
    never registered.  Showing makes the object a member and keeps the
    others, hiding removes it alone; showing twice is showing once; and
    showing then hiding an object that was not registered restores the
    context. *)
Theorem setHitTestVisible_obj_outcome (obj : Z) (c : AbstractWindowContext) :
  let shown := snd (setHitTestVisible_obj obj true c) in
  let hidden := snd (setHitTestVisible_obj obj false c) in
  (forall visible, fst (setHitTestVisible_obj obj visible c) = negb (obj =? 0))
  /\ (obj = 0 -> shown = c /\ hidden = c)
  /\ (obj <> 0 ->
      (forall o, o ∈ m_hitTestVisibleItems shown <-> o = obj \/ o ∈ m_hitTestVisibleItems c)
      /\ (forall o, o ∈ m_hitTestVisibleItems hidden <-> o <> obj /\ o ∈ m_hitTestVisibleItems c)
      /\ snd (setHitTestVisible_obj obj true shown) = shown
      /\ (obj ∉ m_hitTestVisibleItems c ->
          snd (setHitTestVisible_obj obj false shown) = c)).
Proof.
  unfold setHitTestVisible_obj.
  destruct (Z.eqb_spec obj 0) as [Hnull|Hnull]; simpl.
  { split; [intros []; reflexivity|]. split; [auto | contradiction]. }
  split; [intros []; reflexivity|]. split; [contradiction|]. intros _.
  pose proof Hnull as Hnull'. apply Z.eqb_neq in Hnull'.
  rewrite ?Hnull'. simpl.
  split; [intros o; rewrite elem_of_union, elem_of_singleton; tauto|].
  split; [intros o; rewrite elem_of_difference, elem_of_singleton; tauto|].
  split.
  - destruct c as [w items rects t b]. unfold with_hitTestVisibleItems. simpl.
    f_equal. apply set_eq. intros o.
    rewrite !elem_of_union, elem_of_singleton. tauto.
  - intros Hfresh. destruct c as [w items rects t b].
    unfold with_hitTestVisibleItems. simpl in *. f_equal. apply set_eq.
    intros o. rewrite elem_of_difference, elem_of_union, elem_of_singleton.
    split; [tauto|]. intros Ho. split; [tauto|]. intros ->. contradiction.
Qed.

(** X4.  [setHitTestVisible] for a rectangle rejects an invalid one and
    otherwise succeeds.  Showing appends the rectangle even when it is
    already listed, so the list grows by one each time; hiding removes
    every copy and keeps the other rectangles in their order; and after
    any number of shows one hide restores a list that did not hold the
    rectangle. *)
Theorem setHitTestVisible_rect_outcome (rect : QRect) (c : AbstractWindowContext) :
  let shown := snd (setHitTestVisible_rect rect true c) in
  let hidden := snd (setHitTestVisible_rect rect false c) in
  (forall visible,
     fst (setHitTestVisible_rect rect visible c) = QRect_isValid rect)
  /\ (QRect_isValid rect = false -> shown = c /\ hidden = c)
  /\ (QRect_isValid rect = true ->
      In rect (m_hitTestVisibleRects shown)
      /\ length (m_hitTestVisibleRects shown)
         = S (length (m_hitTestVisibleRects c))
      /\ ~ In rect (m_hitTestVisibleRects hidden)
      /\ (forall r, r <> rect ->
            (In r (m_hitTestVisibleRects hidden) <-> In r (m_hitTestVisibleRects c)))
      /\ (~ In rect (m_hitTestVisibleRects c) ->
          hidden = c
          /\ snd (setHitTestVisible_rect rect false shown) = c
          /\ snd (setHitTestVisible_rect rect false
                    (snd (setHitTestVisible_rect rect true shown))) = c)).
Proof.
  unfold setHitTestVisible_rect.
  destruct (QRect_isValid rect) eqn:Hvalid; simpl.
  2: { split; [intros []; reflexivity|]. split; [auto | discriminate]. }
  split; [intros []; reflexivity|]. split; [discriminate|]. intros _.
  rewrite ?Hvalid. simpl.
  assert (Hkeep : forall l, ~ In rect l ->
            List.filter (fun r => negb (QRect_eqb r rect)) l = l).
  { induction l as [|r l IH]; intros Hnot; [reflexivity|]. simpl in *.
    destruct (QRect_eqb r rect) eqn:Heq.
    - apply QRect_eqb_eq in Heq. tauto.
    - simpl. f_equal. apply IH. tauto. }
  assert (Hdrop : forall l,
            List.filter (fun r => negb (QRect_eqb r rect)) (l ++ [rect])
            = List.filter (fun r => negb (QRect_eqb r rect)) l).
  { intros l. rewrite List.filter_app. simpl.
    assert (Hrefl : QRect_eqb rect rect = true) by now apply QRect_eqb_eq.
    rewrite Hrefl. simpl. apply app_nil_r. }
  split; [apply in_or_app; right; left; reflexivity|].
  split; [rewrite length_app; simpl; lia|].
  split.
  { rewrite List.filter_In. intros [_ Hneq].
    assert (Hrefl : QRect_eqb rect rect = true) by now apply QRect_eqb_eq.
    rewrite Hrefl in Hneq. discriminate. }
  split.
  { intros r Hr. rewrite List.filter_In. split; [tauto|]. intros Hin.
    split; [exact Hin|]. destruct (QRect_eqb r rect) eqn:Heq; [|reflexivity].
    apply QRect_eqb_eq in Heq. contradiction. }
  intros Hfresh. destruct c as [w items rects t b].
  unfold with_hitTestVisibleRects. simpl in *.
  rewrite ?Hdrop, (Hkeep rects Hfresh). auto.
Qed.

(** ** More on the helpers *)

Lemma RECT_eqb_eq (a b : RECT) : RECT_eqb a b = true <-> a = b.
Proof.
  unfold RECT_eqb. rewrite !andb_true_iff, !Z.eqb_eq. split.
  - intros [[[H1 H2] H3] H4]. destruct a, b; simpl in *; congruence.
  - intros ->. auto.
Qed.

(** X5.  [getHitWindowPart] by hit-test code: client and caption map to
    their parts, the five button codes to [ChromeButton], the eight
    sizing codes (10 to 17) to [ResizeBorder], [HTBORDER] to
    [FixedBorder], and every other code, [HTERROR], [HTNOWHERE], the
    menu and scroll-bar codes and anything unknown, to [Outside]. *)
Theorem getHitWindowPart_classes (hitTestResult : Z) :
  (getHitWindowPart hitTestResult = ClientArea <-> hitTestResult = HTCLIENT)
  /\ (getHitWindowPart hitTestResult = TitleBar <-> hitTestResult = HTCAPTION)
  /\ (getHitWindowPart hitTestResult = ChromeButton
      <-> In hitTestResult chromeButtonCodes)
  /\ (getHitWindowPart hitTestResult = ResizeBorder
      <-> HTLEFT <= hitTestResult <= HTBOTTOMRIGHT)
  /\ (getHitWindowPart hitTestResult = FixedBorder <-> hitTestResult = HTBORDER)
  /\ (getHitWindowPart hitTestResult = Outside
      <-> hitTestResult <= 0 \/ 4 <= hitTestResult <= 7
          \/ hitTestResult = 19 \/ 22 <= hitTestResult).
Proof.
  unfold getHitWindowPart, chromeButtonCodes. simpl In.
  repeat match goal with
         | |- context [hitTestResult =? ?code] =>
           destruct (Z.eqb_spec hitTestResult code) as [->|?]; simpl
         end;
    repeat split; intros; try discriminate; try lia.
Qed.

(** X6.  [isFullScreen] is false for the null handle; for any other
    handle it compares the window rectangle with the monitor rectangle,
    each all-zero when its query fails.  So a window for which both
    queries fail is reported as full-screen. *)
Theorem isFullScreen_spec (os : Os) (hwnd : Z) :
  let monitor := MonitorFromWindow os hwnd MONITOR_DEFAULTTONEAREST in
  (isFullScreen os hwnd = true
   <-> hwnd <> 0
       /\ default RECT_zero (GetWindowRect os hwnd)
          = default RECT_zero (GetMonitorInfoW_rcMonitor os monitor))
  /\ (hwnd <> 0 ->
      GetWindowRect os hwnd = None ->
      GetMonitorInfoW_rcMonitor os monitor = None ->
      isFullScreen os hwnd = true).
Proof.
  intros monitor. unfold isFullScreen, getMonitorForWindow. fold monitor.
  destruct (Z.eqb_spec hwnd 0) as [Hnull|Hnull]; simpl.
  - split; [|contradiction]. split; [discriminate | tauto].
  - rewrite RECT_eqb_eq. split; [tauto|]. intros _ -> ->. reflexivity.
Qed.

(** X7.  [isValidWindow] accepts a handle exactly when it is a window,
    is neither disabled nor a tool window, has a rectangle with positive
    width and height, and passes the visibility and top-level checks that
    were asked for.  A handle accepted with some checks is accepted with
    fewer. *)
Theorem isValidWindow_spec (os : Os) (windowId : Z) (checkVisible checkTopLevel : bool) :
  (isValidWindow os windowId checkVisible checkTopLevel = true
   <-> IsWindow os windowId = true
       /\ Z.land (GetWindowLongPtrW_STYLE os windowId) WS_DISABLED = 0
       /\ Z.land (GetWindowLongPtrW_EXSTYLE os windowId) WS_EX_TOOLWINDOW = 0
       /\ (exists rect, GetWindowRect os windowId = Some rect
                        /\ left rect < right rect /\ top rect < bottom rect)
       /\ (checkVisible = true -> IsWindowVisible os windowId = true)
       /\ (checkTopLevel = true -> GetAncestor_ROOT os windowId = windowId))
  /\ (isValidWindow os windowId checkVisible checkTopLevel = true ->
      isValidWindow os windowId false false = true).
Proof.
  unfold isValidWindow.
  destruct (IsWindow os windowId); simpl;
    [|split; [split; [discriminate | intros [? _]; discriminate] | discriminate]].
  destruct (Z.eqb_spec (Z.land (GetWindowLongPtrW_STYLE os windowId) 134217728) 0)
    as [Hs|Hs]; simpl;
    [|split; [split; [discriminate | tauto] | discriminate]].
  destruct (Z.eqb_spec (Z.land (GetWindowLongPtrW_EXSTYLE os windowId) 128) 0)
    as [He|He]; simpl;
    [|split; [split; [discriminate | tauto] | discriminate]].
  destruct (GetWindowRect os windowId) as [rect|];
    [|split; [split; [discriminate | intros (_ & _ & _ & (r & Hr & _) & _);
                                     discriminate] | discriminate]].
  destruct (Z.geb_spec (left rect) (right rect)) as [Hw|Hw]; simpl.
  { split; [|discriminate]. split; [discriminate|].
    intros (_ & _ & _ & (r & Hr & Hlt & _) & _). injection Hr as <-. lia. }
  destruct (Z.geb_spec (top rect) (bottom rect)) as [Hh|Hh]; simpl.
  { split; [|discriminate]. split; [discriminate|].
    intros (_ & _ & _ & (r & Hr & _ & Hlt) & _). injection Hr as <-. lia. }
  split; [|reflexivity].
  destruct checkVisible, checkTopLevel, (IsWindowVisible os windowId),
    (Z.eqb_spec (GetAncestor_ROOT os windowId) windowId); simpl;
    (split; [try discriminate; intros _; repeat split; eauto; try discriminate
            | intros (_ & _ & _ & _ & Hv & Ht);
              try reflexivity; try (specialize (Hv eq_refl); discriminate);
              try (specialize (Ht eq_refl); contradiction)]).
Qed.

(** X8.  [getKeyState] sets each [MK_] flag exactly when the matching key
    is down; with swapped mouse buttons the left flag follows the right
    button and the right flag the left one.  No other bit is ever set. *)
Theorem getKeyState_flags (os : Os) :
  let down := fun virtualKey => GetAsyncKeyState os virtualKey <? 0 in
  let swapped := negb (GetSystemMetrics os SM_SWAPBUTTON =? FALSE) in
  let has := fun flag => negb (Z.land (getKeyState os) flag =? 0) in
  has MK_LBUTTON = down (if swapped then VK_RBUTTON else VK_LBUTTON)
  /\ has MK_RBUTTON = down (if swapped then VK_LBUTTON else VK_RBUTTON)
  /\ has MK_SHIFT = down VK_SHIFT
  /\ has MK_CONTROL = down VK_CONTROL
  /\ has MK_MBUTTON = down VK_MBUTTON
  /\ has MK_XBUTTON1 = down VK_XBUTTON1
  /\ has MK_XBUTTON2 = down VK_XBUTTON2
  /\ Z.land (getKeyState os) (Z.lnot 0x7F) = 0.
Proof.
  intros down swapped has. subst down swapped has.
  unfold getKeyState.
  destruct (GetSystemMetrics os 23 =? 0); cbv beta iota zeta delta [negb];
  destruct (GetAsyncKeyState os 1 <? 0), (GetAsyncKeyState os 2 <? 0),
    (GetAsyncKeyState os 16 <? 0), (GetAsyncKeyState os 17 <? 0),
    (GetAsyncKeyState os 4 <? 0), (GetAsyncKeyState os 5 <? 0),
    (GetAsyncKeyState os 6 <? 0); vm_compute; repeat split.
Qed.

(** X9.  The comparison operators on [SIZE] compare areas: [<] is the
    negation of [>=] and [<=] the negation of [>], but [<] is not a
    strict order, for two different sizes of equal area are each less
    than the other. *)
Theorem SIZE_comparisons (lhs rhs : SIZE) :
  SIZE_lt lhs rhs = negb (SIZE_ge lhs rhs)
  /\ SIZE_le lhs rhs = negb (SIZE_gt lhs rhs)
  /\ (SIZE_gt lhs rhs = true -> SIZE_gt rhs lhs = false)
  /\ (lhs <> rhs -> SIZE_area lhs = SIZE_area rhs ->
      SIZE_lt lhs rhs = true /\ SIZE_lt rhs lhs = true).
Proof.
  unfold SIZE_le, SIZE_lt, SIZE_ge, SIZE_ne, SIZE_gt.
  assert (Heq : forall a b, SIZE_eq a b = true <-> a = b).
  { intros a b. unfold SIZE_eq. rewrite andb_true_iff, !Z.eqb_eq.
    split; [intros [? ?]; destruct a, b; simpl in *; congruence | intros ->; auto]. }
  split; [|split; [|split]].
  - destruct (SIZE_eq lhs rhs), (_ >? _); reflexivity.
  - destruct (SIZE_eq lhs rhs) eqn:He.
    + apply Heq in He. subst rhs. rewrite Z.gtb_ltb, Z.ltb_irrefl.
      now rewrite orb_true_r.
    + simpl. now rewrite orb_false_r.
  - rewrite !Z.gtb_ltb, Z.ltb_lt, Z.ltb_ge. lia.
  - intros Hne Harea. rewrite Harea, Z.gtb_ltb, Z.ltb_irrefl. simpl.
    rewrite !andb_true_r, !negb_true_iff. split.
    + destruct (SIZE_eq lhs rhs) eqn:He; [apply Heq in He; contradiction | reflexivity].
    + destruct (SIZE_eq rhs lhs) eqn:He; [apply Heq in He; congruence | reflexivity].
Qed.

Lemma SIZE_comparisons_witness :
  mkSIZE 2 3 <> mkSIZE 3 2
  /\ SIZE_area (mkSIZE 2 3) = SIZE_area (mkSIZE 3 2)
  /\ SIZE_lt (mkSIZE 2 3) (mkSIZE 3 2) = true
  /\ SIZE_lt (mkSIZE 3 2) (mkSIZE 2 3) = true.
Proof.
  assert (H1 : mkSIZE 2 3 <> mkSIZE 3 2) by discriminate.
  assert (H2 : SIZE_area (mkSIZE 2 3) = SIZE_area (mkSIZE 3 2)) by reflexivity.
  split; [exact H1|]. split; [exact H2|].
  destruct (SIZE_comparisons (mkSIZE 2 3) (mkSIZE 3 2)) as (_ & _ & _ & H).
  exact (H H1 H2).
Defined.

(** ** More on the emulation of client-area messages *)

Lemma to_short_LOWORD (z : Z) : - 2 ^ 15 <= z < 2 ^ 15 -> to_short (LOWORD z) = z.
Proof.
  intros H. unfold to_short, LOWORD. change 0xffff with (Z.ones 16).
  rewrite Z.land_ones by lia. rewrite Zplus_mod_idemp_l.
  rewrite Z.mod_small; lia.
Qed.

(** X10.  The position travels intact: the [lParam] that
    [emulateClientAreaMessage] posts decodes, with [GET_X_LPARAM] and
    [GET_Y_LPARAM], to the client position [ScreenToClient] gave for the
    screen position decoded from the incoming [lParam], as long as that
    client position fits in signed 16-bit halves (negative coordinates
    included). *)
Theorem lParamNew_round_trip (os : Os) (myMsg lParam hWnd : Z) :
  let screenPos := mkPOINT (GET_X_LPARAM lParam) (GET_Y_LPARAM lParam) in
  let clientPos := ScreenToClient os hWnd screenPos in
  myMsg <> WM_NCMOUSELEAVE ->
  - 2 ^ 15 <= pt_x clientPos < 2 ^ 15 ->
  - 2 ^ 15 <= pt_y clientPos < 2 ^ 15 ->
  GET_X_LPARAM (lParamNew os myMsg lParam hWnd) = pt_x clientPos
  /\ GET_Y_LPARAM (lParamNew os myMsg lParam hWnd) = pt_y clientPos
  /\ 0 <= lParamNew os myMsg lParam hWnd < 2 ^ 32.
Proof.
  intros screenPos clientPos Hmsg Hx Hy. unfold lParamNew.
  apply Z.eqb_neq in Hmsg. rewrite Hmsg. fold screenPos. fold clientPos.
  unfold GET_X_LPARAM, GET_Y_LPARAM, MAKELPARAM.
  rewrite LOWORD_MAKELONG, HIWORD_MAKELONG.
  split; [apply to_short_LOWORD; exact Hx|].
  split; [apply to_short_LOWORD; exact Hy|].
  unfold MAKELONG. change 0xffff with (Z.ones 16).
  rewrite !Z.land_ones by lia.
  pose proof (Z.mod_pos_bound (pt_x clientPos) (2 ^ 16) ltac:(lia)) as Hbx.
  pose proof (Z.mod_pos_bound (pt_y clientPos) (2 ^ 16) ltac:(lia)) as Hby.
  rewrite Z.shiftl_mul_pow2 by lia.
  set (a := pt_x clientPos mod 2 ^ 16) in *.
  set (b := pt_y clientPos mod 2 ^ 16) in *.
  assert (Hdisj : Z.land a (b * 2 ^ 16) = 0).
  { apply Z.bits_inj'. intros n Hn. rewrite Z.land_spec, Z.bits_0.
    destruct (Z.ltb_spec n 16).
    - rewrite Z.mul_pow2_bits_low by lia. apply andb_false_r.
    - rewrite (Z.bits_above_log2 a n); [reflexivity | lia |].
      destruct (Z.eq_dec a 0) as [->|Ha]; [simpl; lia|].
      apply Z.log2_lt_pow2; [lia|].
      apply Z.lt_le_trans with (2 ^ 16); [lia|].
      apply Z.pow_le_mono_r; lia. }
  rewrite <- Z.add_nocarry_lor by exact Hdisj.
  change (2 ^ 16) with 65536 in *. change (2 ^ 32) with 4294967296. lia.
Qed.

Lemma lParamNew_round_trip_witness :
  WM_NCLBUTTONDOWN <> WM_NCMOUSELEAVE
  /\ GET_X_LPARAM (lParamNew example_win10 WM_NCLBUTTONDOWN
                     (MAKELPARAM (-20) 10) 0x100) = -12
  /\ GET_Y_LPARAM (lParamNew example_win10 WM_NCLBUTTONDOWN
                     (MAKELPARAM (-20) 10) 0x100) = 18.
Proof.
  assert (H1 : WM_NCLBUTTONDOWN <> WM_NCMOUSELEAVE) by lia.
  split; [exact H1|].
  destruct (lParamNew_round_trip example_win10 WM_NCLBUTTONDOWN
              (MAKELPARAM (-20) 10) 0x100 H1) as (Hx & Hy & _).
  - vm_compute. split; [discriminate | reflexivity].
  - vm_compute. split; [discriminate | reflexivity].
  - split; [exact Hx | exact Hy].
Defined.

(** X11.  [emulateClientAreaMessage] posts at most one message and does
    nothing else: the context, the result slot and the rectangle stay as
    they are, every call it makes is a [PostMessageW] to the same
    window, and for a message kind outside its table nothing happens at
    all. *)
Theorem emulateClientAreaMessage_posts_at_most_one (os : Os)
    (hWnd message wParam lParam : Z) (overrideMessage : option Z) (m : Mem) :
  let m' := snd (emulateClientAreaMessage os hWnd message wParam lParam
                   overrideMessage m) in
  let myMsg := default (to_int message) overrideMessage in
  this m' = this m /\ result m' = result m /\ clientRect m' = clientRect m
  /\ (exists posted,
        trace m' = trace m ++ posted
        /\ (length posted <= 1)%nat
        /\ (forall c, In c posted ->
              exists clientMsg w l,
                c = PostMessageW hWnd clientMsg w l
                /\ clientMessageFor myMsg = Some clientMsg))
  /\ (clientMessageFor myMsg = None -> m' = m).
Proof.
  unfold emulateClientAreaMessage.
  destruct (clientMessageFor _) as [clientMsg|] eqn:Hc; simpl.
  - repeat split; try reflexivity; [|discriminate].
    eexists. split; [reflexivity|]. split; [simpl; lia|].
    intros c [<-|[]]. eauto.
  - repeat split; try reflexivity.
    exists []. split; [now rewrite app_nil_r|]. split; [simpl; lia|].
    intros c [].
Qed.

(** ** More on the state machine of [snapLayoutHandler] *)

(** WM_MOUSELEAVE, in full. *)
Lemma snapLayout_clientLeave (os : Os) (hWnd wParam lParam : Z) (m : Mem) :
  snapLayoutHandler os hWnd WM_MOUSELEAVE wParam lParam m
  = let suppressed :=
      negb (isTaggedMessage wParam) && leaveOverSystemButton os (this m) in
    (suppressed,
     mkMem (with_blocked suppressed (this m))
           (if suppressed then FALSE else result m) (clientRect m) (trace m)).
Proof.
  unfold snapLayoutHandler, leaveOverSystemButton. simpl.
  destruct (isTaggedMessage wParam); simpl; [reflexivity|].
  unfold bind, get_this.
  destruct (isInSystemButtons os _); reflexivity.
Qed.

(** WM_MOUSEMOVE, whatever the classification. *)
Lemma snapLayout_mouseMove_any (os : Os) (hWnd wParam lParam : Z) (m : Mem) :
  snapLayoutHandler os hWnd WM_MOUSEMOVE wParam lParam m
  = let rearm := negb (WindowPart_eqb (lastHitTestResult (this m)) ChromeButton)
                 && mouseLeaveBlocked (this m) in
    (false,
     mkMem (if rearm then with_blocked false (this m) else this m)
           (result m) (clientRect m)
           (trace m ++ if rearm then [leaveTrackingRequest hWnd] else [])).
Proof.
  destruct m as [[b wid part blocked cen] res rc tr].
  destruct part, blocked; cbv -[app]; rewrite ?app_nil_r; reflexivity.
Qed.

(** A non-client mouse message while the classification is not
    [ChromeButton]. *)
Lemma snapLayout_nonClient_elsewhere (os : Os) (hWnd message wParam lParam : Z)
    (m : Mem) :
  In message nonClientMouseMessages ->
  lastHitTestResult (this m) <> ChromeButton ->
  snapLayoutHandler os hWnd message wParam lParam m
  = (false,
     if message =? WM_NCMOUSEMOVE
     then mkMem (with_part Outside (this m)) (result m) (clientRect m)
                (trace m ++ [resetQtGrabbedControl]
                         ++ if mouseLeaveBlocked (this m)
                            then [synthesizedLeave hWnd] else [])
     else m).
Proof.
  intros Hin Hpart. destruct m as [[b wid part blocked cen] res rc tr].
  simpl in Hpart, Hin.
  repeat (destruct Hin as [<- | Hin]); [..|contradiction].
  all: destruct part, blocked; try congruence;
    cbv -[app]; rewrite <- ?app_assoc, ?app_nil_r; reflexivity.
Qed.

(** Any other message is none of the handler's business. *)
Lemma snapLayout_other (os : Os) (hWnd message wParam lParam : Z) (m : Mem) :
  message <> WM_MOUSELEAVE -> message <> WM_MOUSEMOVE ->
  ~ In message nonClientMouseMessages -> message <> WM_NCMOUSELEAVE ->
  snapLayoutHandler os hWnd message wParam lParam m = (false, m).
Proof.
  intros H1 H2 H3 H4. unfold snapLayoutHandler.
  apply Z.eqb_neq in H1, H2, H4. rewrite H1, H2, H4.
  destruct (isNonClientMouseMessage message) eqn:Hnc; [|reflexivity].
  apply isNonClientMouseMessage_In in Hnc. contradiction.
Qed.


(** X13.  A non-client mouse message that arrives while the
    classification is not [ChromeButton] is never handled.  A
    mouse-move resets the grabbed control, posts the tagged mouse-leave
    when a suppression is pending and sets the classification to
    [Outside]; every other kind leaves everything as it is.  The
    suppression flag is not touched. *)
Theorem nonClient_elsewhere_outcome (os : Os) (hWnd message wParam lParam : Z)
    (m : Mem) :
  In message nonClientMouseMessages ->
  lastHitTestResult (this m) <> ChromeButton ->
  let handled := fst (snapLayoutHandler os hWnd message wParam lParam m) in
  let m' := snd (snapLayoutHandler os hWnd message wParam lParam m) in
  handled = false
  /\ mouseLeaveBlocked (this m') = mouseLeaveBlocked (this m)
  /\ result m' = result m
  /\ (message <> WM_NCMOUSEMOVE -> m' = m)
  /\ (message = WM_NCMOUSEMOVE ->
      lastHitTestResult (this m') = Outside
      /\ trace m' = trace m ++ [resetQtGrabbedControl]
                            ++ if mouseLeaveBlocked (this m)
                               then [synthesizedLeave hWnd] else []).
Proof.
  intros Hin Hpart.
  rewrite (snapLayout_nonClient_elsewhere os hWnd message wParam lParam m Hin Hpart).
  simpl. destruct (Z.eqb_spec message WM_NCMOUSEMOVE) as [Hmove|Hmove]; simpl.
  - repeat split; intros; try reflexivity; contradiction.
  - repeat split; intros; try reflexivity; contradiction.
Qed.

Lemma nonClient_elsewhere_outcome_witness :
  In WM_NCMOUSEMOVE nonClientMouseMessages
  /\ lastHitTestResult (this (example_mem TitleBar true 0)) <> ChromeButton
  /\ lastHitTestResult
       (this (snd (snapLayoutHandler example_win10 0x100 WM_NCMOUSEMOVE HTCAPTION
                     (MAKELPARAM 500 10) (example_mem TitleBar true 0))))
     = Outside
  /\ trace (snd (snapLayoutHandler example_win10 0x100 WM_NCMOUSEMOVE HTCAPTION
                   (MAKELPARAM 500 10) (example_mem TitleBar true 0)))
     = [resetQtGrabbedControl; synthesizedLeave 0x100].
Proof.
  assert (H1 : In WM_NCMOUSEMOVE nonClientMouseMessages) by (simpl; tauto).
  assert (H2 : lastHitTestResult (this (example_mem TitleBar true 0))
               <> ChromeButton) by discriminate.
  split; [exact H1|]. split; [exact H2|].
  destruct (nonClient_elsewhere_outcome example_win10 0x100 WM_NCMOUSEMOVE
              HTCAPTION (MAKELPARAM 500 10) (example_mem TitleBar true 0) H1 H2)
    as (_ & _ & _ & _ & H).
  exact (H eq_refl).
Defined.

(** X14.  A non-client mouse message over a chrome button is always
    handled, and exactly one client-area message is posted for it: the
    kind the table of [emulateClientAreaMessage] gives, with the rebuilt
    words.  The result is what the default procedure answers for a mouse-move,
    [TRUE] for the three extra-button kinds and [FALSE] for every other
    kind; the default procedure is called for the mouse-move only, after
    the post; and only the mouse-move changes the classification (to
    [Outside]).  The suppression flag is kept. *)
Theorem chromeButton_result_codes (os : Os) (hWnd message wParam lParam : Z)
    (m : Mem) :
  In message nonClientMouseMessages ->
  lastHitTestResult (this m) = ChromeButton ->
  let handled := fst (snapLayoutHandler os hWnd message wParam lParam m) in
  let m' := snd (snapLayoutHandler os hWnd message wParam lParam m) in
  let xButtons := [WM_NCXBUTTONDOWN; WM_NCXBUTTONUP; WM_NCXBUTTONDBLCLK] in
  handled = true
  /\ mouseLeaveBlocked (this m') = mouseLeaveBlocked (this m)
  /\ (message = WM_NCMOUSEMOVE ->
      result m' = DefWindowProcW_ret os hWnd WM_NCMOUSEMOVE wParam lParam
      /\ lastHitTestResult (this m') = Outside
      /\ exists posted,
           isPosted posted = true
           /\ trace m' = trace m ++ [posted;
                                     DefWindowProcW hWnd WM_NCMOUSEMOVE wParam lParam])
  /\ (message <> WM_NCMOUSEMOVE ->
      (result m' = TRUE <-> In message xButtons)
      /\ (result m' = FALSE <-> ~ In message xButtons)
      /\ lastHitTestResult (this m') = ChromeButton
      /\ exists posted,
           isPosted posted = true /\ trace m' = trace m ++ [posted])
  /\ (exists clientMsg,
        clientMessageFor message = Some clientMsg
        /\ postedMessages (trace m')
           = postedMessages (trace m)
             ++ [PostMessageW hWnd clientMsg (wParamNew os message wParam)
                              (lParamNew os message lParam hWnd)]).
Proof.
  intros Hin Hpart.
  destruct (snapLayout_over_chromeButton os hWnd message wParam lParam m Hin Hpart)
    as (clientMsg & Hclient & Heq).
  rewrite Heq. simpl. split; [reflexivity|]. split; [reflexivity|].
  refine ((fun ab c => conj (proj1 ab) (conj (proj2 ab) c)) _ _).
  2: { exists clientMsg. split; [exact Hclient|].
       unfold postedMessages. rewrite !List.filter_app. simpl.
       destruct (message =? WM_NCMOUSEMOVE); simpl; rewrite ?app_nil_r;
         reflexivity. }
  destruct (Z.eqb_spec message WM_NCMOUSEMOVE) as [Hmove|Hmove]; simpl.
  - split; [|contradiction].
    intros _. repeat split. eexists. split; [|reflexivity]. reflexivity.
  - split; [contradiction|]. intros _.
    assert (Hx : isXButtonMessage message = true
                 <-> In message [WM_NCXBUTTONDOWN; WM_NCXBUTTONUP; WM_NCXBUTTONDBLCLK]).
    { unfold isXButtonMessage. rewrite andb_true_iff, Z.geb_le, Z.leb_le.
      simpl. lia. }
    destruct (isXButtonMessage message) eqn:Hxb.
    + split; [tauto|]. split; [|split; [reflexivity|eexists; (split; [|reflexivity]); reflexivity]].
      split; [discriminate|]. intros Hn. exfalso. apply Hn. now apply Hx.
    + split; [|split; [|split; [reflexivity|eexists; (split; [|reflexivity]); reflexivity]]].
      * split; [discriminate|]. intros Hi. apply Hx in Hi. discriminate.
      * split; [|reflexivity]. intros _ Hi. apply Hx in Hi. discriminate.
Qed.

Lemma chromeButton_result_codes_witness :
  In WM_NCXBUTTONUP nonClientMouseMessages
  /\ lastHitTestResult (this (example_mem ChromeButton false 0)) = ChromeButton
  /\ fst (snapLayoutHandler example_win10 0x100 WM_NCXBUTTONUP
            (MAKEWPARAM HTCLOSE 2) (MAKELPARAM 1900 10)
            (example_mem ChromeButton false 0)) = true
  /\ result (snd (snapLayoutHandler example_win10 0x100 WM_NCXBUTTONUP
                    (MAKEWPARAM HTCLOSE 2) (MAKELPARAM 1900 10)
                    (example_mem ChromeButton false 0))) = TRUE.
Proof.
  assert (H1 : In WM_NCXBUTTONUP nonClientMouseMessages) by (simpl; tauto).
  assert (H2 : lastHitTestResult (this (example_mem ChromeButton false 0))
               = ChromeButton) by reflexivity.
  split; [exact H1|]. split; [exact H2|].
  destruct (chromeButton_result_codes example_win10 0x100 WM_NCXBUTTONUP
              (MAKEWPARAM HTCLOSE 2) (MAKELPARAM 1900 10)
              (example_mem ChromeButton false 0) H1 H2)
    as (Hhandled & _ & _ & Hother & _).
  split; [exact Hhandled|].
  assert (Hne : WM_NCXBUTTONUP <> WM_NCMOUSEMOVE) by lia.
  destruct (Hother Hne) as ((_ & Hx) & _). apply Hx. simpl. tauto.
Defined.

Lemma postedMessages_app (t1 t2 : list OsCall) :
  postedMessages (t1 ++ t2) = postedMessages t1 ++ postedMessages t2.
Proof. unfold postedMessages. apply List.filter_app. Qed.

(** X15.  The tagged mouse-leave does its round: a non-client
    mouse-move or mouse-leave that finds a suppression pending outside
    the chrome buttons posts the tagged client-area mouse-leave and keeps
    the flag; when that posted message is delivered it is recognised by
    its tag wherever the pointer is, is not handled, clears the flag and
    posts nothing; and a further non-client mouse-leave then posts
    nothing either. *)
Theorem synthesized_leave_round (os os' os'' : Os)
    (hWnd message wParam lParam wParam'' lParam'' : Z) (m : Mem) :
  message = WM_NCMOUSEMOVE \/ message = WM_NCMOUSELEAVE ->
  lastHitTestResult (this m) <> ChromeButton ->
  mouseLeaveBlocked (this m) = true ->
  let m1 := snd (snapLayoutHandler os hWnd message wParam lParam m) in
  let back := snapLayoutHandler os' hWnd WM_MOUSELEAVE kMessageTag 0 m1 in
  let m3 := snd (snapLayoutHandler os'' hWnd WM_NCMOUSELEAVE wParam'' lParam''
                   (snd back)) in
  postedMessages (trace m1)
  = postedMessages (trace m) ++ [PostMessageW hWnd WM_MOUSELEAVE kMessageTag 0]
  /\ mouseLeaveBlocked (this m1) = true
  /\ fst back = false
  /\ mouseLeaveBlocked (this (snd back)) = false
  /\ trace (snd back) = trace m1
  /\ result (snd back) = result m1
  /\ postedMessages (trace m3) = postedMessages (trace m1).
Proof.
  intros Hkind Hpart Hblocked m1 back m3.
  assert (Hm1 : postedMessages (trace m1)
                = postedMessages (trace m) ++ [synthesizedLeave hWnd]
                /\ mouseLeaveBlocked (this m1) = true
                /\ lastHitTestResult (this m1) <> ChromeButton).
  { subst m1. destruct Hkind as [-> | ->].
    - assert (Hin : In WM_NCMOUSEMOVE nonClientMouseMessages) by (simpl; tauto).
      rewrite (snapLayout_nonClient_elsewhere os hWnd _ wParam lParam m Hin Hpart).
      simpl. rewrite Hblocked, !postedMessages_app. simpl.
      repeat split; auto; discriminate.
    - rewrite (snapLayout_ncLeave_elsewhere os hWnd wParam lParam m Hpart).
      simpl. rewrite Hblocked, !postedMessages_app. simpl.
      destruct (WindowPart_eqb _ _); simpl; rewrite ?app_nil_r; auto. }
  destruct Hm1 as (Hposted & Hflag & Hpart1).
  split; [exact Hposted|]. split; [exact Hflag|].
  subst back m3. rewrite snapLayout_clientLeave. simpl.
  repeat split.
  rewrite snapLayout_ncLeave_elsewhere by exact Hpart1. simpl.
  rewrite !postedMessages_app. simpl.
  destruct (WindowPart_eqb _ _); simpl; rewrite ?app_nil_r; reflexivity.
Qed.

Lemma synthesized_leave_round_witness :
  let m := example_mem TitleBar true 0 in
  let m1 := snd (snapLayoutHandler example_win10 0x100 WM_NCMOUSELEAVE 0 0 m) in
  (WM_NCMOUSELEAVE = WM_NCMOUSEMOVE \/ WM_NCMOUSELEAVE = WM_NCMOUSELEAVE)
  /\ lastHitTestResult (this m) <> ChromeButton
  /\ mouseLeaveBlocked (this m) = true
  /\ postedMessages (trace m1) = [PostMessageW 0x100 WM_MOUSELEAVE kMessageTag 0]
  /\ mouseLeaveBlocked
       (this (snd (snapLayoutHandler example_overButton 0x100 WM_MOUSELEAVE
                     kMessageTag 0 m1))) = false.
Proof.
  intros m m1.
  assert (H1 : WM_NCMOUSELEAVE = WM_NCMOUSEMOVE \/ WM_NCMOUSELEAVE = WM_NCMOUSELEAVE)
    by (right; reflexivity).
  assert (H2 : lastHitTestResult (this m) <> ChromeButton) by discriminate.
  assert (H3 : mouseLeaveBlocked (this m) = true) by reflexivity.
  split; [exact H1|]. split; [exact H2|]. split; [exact H3|].
  destruct (synthesized_leave_round example_win10 example_overButton example_win10
              0x100 WM_NCMOUSELEAVE 0 0 0 0 m H1 H2 H3)
    as (Hposted & _ & _ & Hclear & _).
  split; [exact Hposted | exact Hclear].
Defined.

Lemma clientMessageFor_In (source clientMsg : Z) :
  clientMessageFor source = Some clientMsg ->
  In clientMsg [WM_MOUSEMOVE; WM_LBUTTONDOWN; WM_LBUTTONUP; WM_LBUTTONDBLCLK;
                WM_RBUTTONDOWN; WM_RBUTTONUP; WM_RBUTTONDBLCLK;
                WM_MBUTTONDOWN; WM_MBUTTONUP; WM_MBUTTONDBLCLK;
                WM_XBUTTONDOWN; WM_XBUTTONUP; WM_XBUTTONDBLCLK;
                WM_MOUSEHOVER; WM_MOUSELEAVE].
Proof.
  unfold clientMessageFor.
  repeat match goal with
         | |- context [if ?b then _ else _] => destruct b
         end; intros H; try discriminate; injection H as <-; simpl; tauto.
Qed.

(** X16.  Emulation does not feed itself: whatever client-area message
    [emulateClientAreaMessage] can post, handling that message posts
    nothing, in any state and whatever its words are. *)
Theorem emulated_messages_post_nothing (os : Os)
    (hWnd source clientMsg wParam lParam : Z) (m : Mem) :
  clientMessageFor source = Some clientMsg ->
  postedMessages (trace (snd (snapLayoutHandler os hWnd clientMsg wParam lParam m)))
  = postedMessages (trace m).
Proof.
  intros Hclient. apply clientMessageFor_In in Hclient. simpl in Hclient.
  repeat (destruct Hclient as [<- | Hclient]); [..|contradiction].
  1: { rewrite snapLayout_mouseMove_any. simpl. rewrite postedMessages_app.
       destruct (_ && _); simpl; apply app_nil_r. }
  14: { rewrite snapLayout_clientLeave. reflexivity. }
  all: rewrite snapLayout_other by (simpl; lia); reflexivity.
Qed.

Lemma emulated_messages_post_nothing_witness :
  clientMessageFor WM_NCMOUSEMOVE = Some WM_MOUSEMOVE
  /\ postedMessages
       (trace (snd (snapLayoutHandler example_win10 0x100 WM_MOUSEMOVE 0
                      (MAKELPARAM 5 5) (example_mem Outside true 0)))) = [].
Proof.
  assert (H : clientMessageFor WM_NCMOUSEMOVE = Some WM_MOUSEMOVE) by reflexivity.
  split; [exact H|].
  exact (emulated_messages_post_nothing example_win10 0x100 WM_NCMOUSEMOVE
           WM_MOUSEMOVE 0 (MAKELPARAM 5 5) (example_mem Outside true 0) H).
Defined.

(** ** More on the frame-size negotiation *)

(** What [customWindowHandler] can touch. *)
Lemma customWindowHandler_frame (os : Os) (hWnd message wParam lParam : Z)
    (m : Mem) :
  let handled := fst (customWindowHandler os hWnd message wParam lParam m) in
  let m' := snd (customWindowHandler os hWnd message wParam lParam m) in
  this m' = this m
  /\ handled = (message =? WM_NCCALCSIZE)
  /\ (message <> WM_NCCALCSIZE -> m' = m)
  /\ (message = WM_NCCALCSIZE ->
      trace m' = trace m ++ if isWin10OrGreater os
                            then [DefWindowProcW hWnd WM_NCCALCSIZE wParam lParam]
                            else []).
Proof.
  unfold customWindowHandler.
  destruct (Z.eqb_spec message WM_NCCALCSIZE) as [->|Hother]; simpl.
  2: { repeat split; intros; try reflexivity; contradiction. }
  unfold bind, ret, get_clientRect, set_clientRect, set_result, emit,
    modify_clientRect.
  destruct (isWin10OrGreater os); simpl.
  - destruct (DefWindowProcW_NCCALCSIZE os hWnd wParam (clientRect m))
      as [answer r'] eqn:Hdef. simpl.
    destruct (negb (answer =? -2) && negb (answer =? 0)); simpl.
    + repeat split; intros; try reflexivity; contradiction.
    + match goal with
      | |- context [calcSize_maximized os hWnd ?m0] =>
        destruct (calcSize_maximized_frame os hWnd m0) as (r1 & -> & _)
      end.
      match goal with
      | |- context [calcSize_autoHideTaskbar os hWnd ?m0] =>
        destruct (calcSize_autoHideTaskbar_frame os hWnd m0) as (r2 & -> & _)
      end.
      simpl. repeat split; intros; try reflexivity; contradiction.
  - destruct (calcSize_maximized_frame os hWnd m) as (r1 & -> & _).
    match goal with
    | |- context [calcSize_autoHideTaskbar os hWnd ?m0] =>
      destruct (calcSize_autoHideTaskbar_frame os hWnd m0) as (r2 & -> & _)
    end.
    simpl. rewrite app_nil_r. repeat split; intros; try reflexivity; contradiction.
Qed.

(** X17.  [customWindowHandler] looks at WM_NCCALCSIZE only: any other
    message is not handled and changes nothing.  WM_NCCALCSIZE is always
    handled; it never touches the context and posts nothing, and the one
    call it makes that acts on the outside world (the queries it reads,
    such as [IsZoomed], apart) is the default procedure, made exactly
    once on Windows 10 and later and never before. *)
Theorem customWindowHandler_scope (os : Os) (hWnd message wParam lParam : Z)
    (m : Mem) :
  let handled := fst (customWindowHandler os hWnd message wParam lParam m) in
  let m' := snd (customWindowHandler os hWnd message wParam lParam m) in
  (handled = true <-> message = WM_NCCALCSIZE)
  /\ (handled = false -> m' = m)
  /\ this m' = this m
  /\ postedMessages (trace m') = postedMessages (trace m)
  /\ length (trace m')
     = (if (message =? WM_NCCALCSIZE) && isWin10OrGreater os
        then S (length (trace m)) else length (trace m))
  /\ (handled = true -> isWin10OrGreater os = true ->
      trace m' = trace m ++ [DefWindowProcW hWnd WM_NCCALCSIZE wParam lParam]).
Proof.
  destruct (customWindowHandler_frame os hWnd message wParam lParam m)
    as (Hthis & Hhandled & Hother & Hcalc).
  cbv zeta. rewrite Hhandled.
  destruct (Z.eqb_spec message WM_NCCALCSIZE) as [Hmsg|Hmsg]; simpl.
  - specialize (Hcalc Hmsg). rewrite Hcalc, postedMessages_app, length_app.
    split; [tauto|]. split; [discriminate|]. split; [exact Hthis|].
    destruct (isWin10OrGreater os); simpl;
      repeat split; intros; try apply app_nil_r; try lia; discriminate.
  - rewrite (Hother Hmsg).
    split; [split; [discriminate | contradiction]|].
    repeat split; intros; try lia; discriminate.
Qed.

(** X18.  The title bar goes, the frame stays: on Windows 10 and later,
    when the default procedure answers [HTNOWHERE] or [HTERROR] and no
    auto-hide task bar is in play, the rectangle the handler leaves has
    the left, right and bottom edges the default procedure computed and
    the top edge of the proposed window rectangle, moved inward by the
    resize-border thickness when the window is maximized and not
    full-screen. *)
Theorem calcSize_keeps_default_frame (os : Os) (hWnd wParam lParam : Z) (m : Mem) :
  let answer := fst (DefWindowProcW_NCCALCSIZE os hWnd wParam (clientRect m)) in
  let framed := snd (DefWindowProcW_NCCALCSIZE os hWnd wParam (clientRect m)) in
  let r' := clientRect (snd (customWindowHandler os hWnd WM_NCCALCSIZE wParam
                               lParam m)) in
  isWin10OrGreater os = true ->
  answer = HTNOWHERE \/ answer = HTERROR ->
  Z.land (SHAppBarMessage_GETSTATE os) ABS_AUTOHIDE = 0 ->
  left r' = left framed /\ right r' = right framed /\ bottom r' = bottom framed
  /\ top r' = (if IsMaximized os hWnd && negb (isFullScreen os hWnd)
               then to_LONG (top (clientRect m) + getResizeBorderThickness os hWnd)
               else top (clientRect m)).
Proof.
  intros answer framed r' Hwin Hanswer Hauto. subst r'.
  unfold customWindowHandler. rewrite Z.eqb_refl, Hwin.
  unfold bind, ret, get_clientRect, set_clientRect, set_result, emit,
    modify_clientRect. simpl.
  subst answer framed.
  destruct (DefWindowProcW_NCCALCSIZE os hWnd wParam (clientRect m))
    as [answer framed]. simpl in *.
  assert (Hfall : negb (answer =? -2) && negb (answer =? 0) = false)
    by (destruct Hanswer as [-> | ->]; reflexivity).
  rewrite Hfall. unfold calcSize_maximized.
  unfold isWin10OrGreater in Hwin |- *. rewrite Hwin.
  unfold bind, modify_clientRect, get_clientRect, set_clientRect, when, ret.
  destruct (IsMaximized os hWnd && negb (isFullScreen os hWnd)); simpl;
    match goal with
    | |- context [calcSize_autoHideTaskbar os hWnd ?m0] =>
      destruct (calcSize_autoHideTaskbar_frame os hWnd m0) as (r2 & Heq & Hsame)
    end;
    rewrite Heq; simpl; rewrite Hsame by tauto; repeat split; reflexivity.
Qed.

Lemma calcSize_keeps_default_frame_witness :
  isWin10OrGreater example_win10 = true
  /\ clientRect (snd (customWindowHandler example_win10 0x100 WM_NCCALCSIZE TRUE 0
                        (example_mem Outside false 0)))
     = mkRECT 0 0 1920 1040.
Proof.
  assert (H1 : isWin10OrGreater example_win10 = true) by reflexivity.
  split; [exact H1|].
  destruct (calcSize_keeps_default_frame example_win10 0x100 TRUE 0
              (example_mem Outside false 0) H1)
    as (Hl & Hr & Hb & Ht).
  - left. reflexivity.
  - reflexivity.
  - destruct (clientRect _) as [l t r b]. simpl in *. subst. reflexivity.
Defined.

(** X19.  Before Windows 10, a window that is not maximized, or is
    full-screen, with no auto-hide task bar in play keeps the proposed
    rectangle untouched, so that the client area covers the whole window;
    no call that acts on the outside world is made (the window is only
    queried), and the result is zero for the simple form and
    [WVR_REDRAW] for the rich one. *)
Theorem calcSize_old_system_whole_window (os : Os) (hWnd wParam lParam : Z)
    (m : Mem) :
  isWin10OrGreater os = false ->
  IsMaximized os hWnd = false \/ isFullScreen os hWnd = true ->
  Z.land (SHAppBarMessage_GETSTATE os) ABS_AUTOHIDE = 0 ->
  customWindowHandler os hWnd WM_NCCALCSIZE wParam lParam m
  = (true, mkMem (this m) (if wParam =? FALSE then FALSE else WVR_REDRAW)
                 (clientRect m) (trace m)).
Proof.
  intros Hwin Hnormal Hauto.
  unfold customWindowHandler. rewrite Z.eqb_refl. unfold isWin10OrGreater in *.
  rewrite Hwin. unfold bind, ret, set_result.
  destruct (calcSize_maximized_frame os hWnd m) as (r1 & -> & Hsame1).
  rewrite Hsame1 by (destruct Hnormal as [-> | ->];
                     [reflexivity | apply andb_false_r]).
  match goal with
  | |- context [calcSize_autoHideTaskbar os hWnd ?m0] =>
    destruct (calcSize_autoHideTaskbar_frame os hWnd m0) as (r2 & -> & Hsame2)
  end.
  rewrite Hsame2 by tauto. reflexivity.
Qed.

Lemma calcSize_old_system_whole_window_witness :
  let os := example_os false false 0 0 (-1) no_keys false in
  isWin10OrGreater os = false
  /\ (IsMaximized os 0x300 = false \/ isFullScreen os 0x300 = true)
  /\ customWindowHandler os 0x300 WM_NCCALCSIZE FALSE 0
       (example_mem Outside false 7)
     = (true, example_mem Outside false 0).
Proof.
  intros os.
  assert (H1 : isWin10OrGreater os = false) by reflexivity.
  assert (H2 : IsMaximized os 0x300 = false \/ isFullScreen os 0x300 = true)
    by (left; reflexivity).
  assert (H3 : Z.land (SHAppBarMessage_GETSTATE os) ABS_AUTOHIDE = 0)
    by reflexivity.
  split; [exact H1|]. split; [exact H2|].
  exact (calcSize_old_system_whole_window os 0x300 FALSE 0
           (example_mem Outside false 7) H1 H2 H3).
Defined.

(** X20.  Before Windows 8.1 the task-bar detection flags at most one
    edge, and none when the task bar sits on another monitor than the
    window; when the position query fails the zeroed answer reads as
    [ABE_LEFT], so the left edge is the one flagged. *)
Theorem autoHideEdges_old_system (os : Os) (hWnd : Z) :
  isWin8Point1OrGreater os = false ->
  let taskbar := FindWindowW_Shell_TrayWnd os in
  let sameMonitor :=
    MonitorFromWindow os taskbar MONITOR_DEFAULTTOPRIMARY
    =? MonitorFromWindow os hWnd MONITOR_DEFAULTTONEAREST in
  (forall e1 e2,
     edge_detected e1 (autoHideEdges os hWnd) = true ->
     edge_detected e2 (autoHideEdges os hWnd) = true -> e1 = e2)
  /\ (sameMonitor = false ->
      forall e, edge_detected e (autoHideEdges os hWnd) = false)
  /\ (sameMonitor = true ->
      SHAppBarMessage_GETTASKBARPOS_uEdge os taskbar = None ->
      forall e, edge_detected e (autoHideEdges os hWnd) = true <-> e = EdgeLeft).
Proof.
  intros Hold taskbar sameMonitor. unfold autoHideEdges.
  unfold isWin8Point1OrGreater in Hold |- *. rewrite Hold.
  fold taskbar. fold sameMonitor.
  split; [|split].
  - generalize (if sameMonitor
                then to_int (default 0 (SHAppBarMessage_GETTASKBARPOS_uEdge os taskbar))
                else -1).
    intros edge e1 e2 H1 H2.
    destruct e1, e2; simpl in *; try reflexivity;
      apply Z.eqb_eq in H1, H2; lia.
  - intros ->. intros []; reflexivity.
  - intros -> ->. simpl. intros []; simpl; split; intros H;
      try reflexivity; try discriminate.
Qed.

Lemma autoHideEdges_old_system_witness :
  let os := example_os false false 0 ABS_AUTOHIDE ABE_BOTTOM no_keys false in
  isWin8Point1OrGreater os = false
  /\ edge_detected EdgeBottom (autoHideEdges os 0x100) = true
  /\ forall e, edge_detected e (autoHideEdges os 0x100) = true -> e = EdgeBottom.
Proof.
  intros os.
  assert (H1 : isWin8Point1OrGreater os = false) by reflexivity.
  assert (H2 : edge_detected EdgeBottom (autoHideEdges os 0x100) = true)
    by reflexivity.
  split; [exact H1|]. split; [exact H2|].
  destruct (autoHideEdges_old_system os 0x100 H1) as (Hone & _).
  intros e He. exact (Hone e EdgeBottom He H2).
Defined.

(** ** More on [windowProc] *)

(** What [snapLayoutHandler] can touch, for any message. *)
Lemma snapLayout_frame (os : Os) (hWnd message wParam lParam : Z) (m : Mem) :
  let handled := fst (snapLayoutHandler os hWnd message wParam lParam m) in
  let m' := snd (snapLayoutHandler os hWnd message wParam lParam m) in
  base (this m') = base (this m)
  /\ windowId (this m') = windowId (this m)
  /\ centered (this m') = centered (this m)
  /\ clientRect m' = clientRect m
  /\ (lastHitTestResult (this m') = lastHitTestResult (this m)
      \/ lastHitTestResult (this m') = Outside)
  /\ (handled = false -> result m' = result m)
  /\ (handled = true ->
      (message = WM_MOUSELEAVE /\ result m' = FALSE)
      \/ (In message nonClientMouseMessages
          /\ lastHitTestResult (this m) = ChromeButton))
  /\ exists t,
       trace m' = trace m ++ t
       /\ (lastHitTestResult (this m) <> ChromeButton ->
           forall c, In c t -> isPosted c = true -> c = synthesizedLeave hWnd).
Proof.
  cbv zeta.
  destruct (Z.eq_dec message WM_MOUSELEAVE) as [->|Hleave].
  { rewrite snapLayout_clientLeave. simpl.
    destruct (negb _ && _); simpl; repeat split; auto; try discriminate;
      exists []; (split; [now rewrite app_nil_r | intros _ c []]). }
  destruct (Z.eq_dec message WM_MOUSEMOVE) as [->|Hmove].
  { rewrite snapLayout_mouseMove_any. simpl.
    destruct (negb _ && _); simpl; repeat split; auto; try discriminate;
      eexists; (split; [reflexivity|]); intros _ c Hc Hposted;
      trace_cases Hc. }
  destruct (isNonClientMouseMessage message) eqn:Hnc.
  { apply isNonClientMouseMessage_In in Hnc.
    destruct (WindowPart_eqb_spec (lastHitTestResult (this m)) ChromeButton)
      as [Hpart|Hpart].
    - destruct (snapLayout_over_chromeButton os hWnd message wParam lParam m
                  Hnc Hpart) as (clientMsg & _ & ->). simpl.
      repeat split; auto; try discriminate.
      + destruct (message =? 160); [right | left]; congruence.
      + eexists. split; [reflexivity|]. contradiction.
    - rewrite (snapLayout_nonClient_elsewhere os hWnd message wParam lParam m
                 Hnc Hpart). simpl.
      destruct (message =? 160); simpl; repeat split; auto; try discriminate.
      + eexists. split; [reflexivity|]. intros _ c Hc Hposted.
        destruct (mouseLeaveBlocked (this m)); trace_cases Hc.
      + exists []. split; [now rewrite app_nil_r | intros _ c []]. }
  assert (Hnot : ~ In message nonClientMouseMessages).
  { intros Hin. apply isNonClientMouseMessage_In in Hin. congruence. }
  destruct (Z.eq_dec message WM_NCMOUSELEAVE) as [->|Hncleave].
  { destruct (WindowPart_eqb_spec (lastHitTestResult (this m)) ChromeButton)
      as [Hpart|Hpart].
    - rewrite snapLayout_ncLeave_chromeButton by exact Hpart. simpl.
      repeat split; auto; try discriminate.
      eexists. split; [reflexivity|]. contradiction.
    - rewrite snapLayout_ncLeave_elsewhere by exact Hpart. simpl.
      repeat split; auto; try discriminate.
      eexists. split; [reflexivity|]. intros _ c Hc Hposted.
      destruct (mouseLeaveBlocked (this m)), (WindowPart_eqb _ _);
        trace_cases Hc. }
  rewrite snapLayout_other by assumption. simpl.
  repeat split; auto; try discriminate.
  exists []. split; [now rewrite app_nil_r | intros _ c []].
Qed.

(** [windowProc] as the composition it is. *)
Lemma windowProc_unfold (os : Os) (hWnd message wParam lParam : Z) (m : Mem) :
  windowProc os hWnd message wParam lParam m
  = let m0 := mkMem (this m) FALSE (clientRect m) (trace m) in
    if isTeardownMessage message then (false, m0)
    else if negb (isValidWindow os (windowId (this m)) false true) then (false, m0)
    else
      let snap := snapLayoutHandler os hWnd message wParam lParam m0 in
      if fst snap then (true, snd snap)
      else customWindowHandler os hWnd message wParam lParam (snd snap).
Proof.
  unfold windowProc, bind, set_result, get_this, ret. simpl.
  destruct (isTeardownMessage message); [reflexivity|].
  destruct (negb _); [reflexivity|].
  destruct (snapLayoutHandler _ _ _ _ _ _) as [[] m1]; simpl; [reflexivity|].
  destruct (customWindowHandler _ _ _ _ _ _) as [[] m2]; reflexivity.
Qed.

(** One message through [windowProc]: what stays, and what can go into
    the trace. *)
Lemma windowProc_frame (os : Os) (hWnd message wParam lParam : Z) (m : Mem) :
  let handled := fst (windowProc os hWnd message wParam lParam m) in
  let m' := snd (windowProc os hWnd message wParam lParam m) in
  base (this m') = base (this m)
  /\ windowId (this m') = windowId (this m)
  /\ centered (this m') = centered (this m)
  /\ (message <> WM_NCCALCSIZE -> clientRect m' = clientRect m)
  /\ (lastHitTestResult (this m') = lastHitTestResult (this m)
      \/ lastHitTestResult (this m') = Outside)
  /\ (handled = false -> result m' = FALSE)
  /\ exists t,
       trace m' = trace m ++ t
       /\ (lastHitTestResult (this m) <> ChromeButton ->
           forall c, In c t -> isPosted c = true -> c = synthesizedLeave hWnd).
Proof.
  cbv zeta. rewrite windowProc_unfold. cbv zeta.
  destruct (isTeardownMessage message).
  { simpl. repeat split; auto.
    exists []. split; [now rewrite app_nil_r | intros _ c []]. }
  destruct (negb _).
  { simpl. repeat split; auto.
    exists []. split; [now rewrite app_nil_r | intros _ c []]. }
  set (m0 := mkMem (this m) 0 (clientRect m) (trace m)).
  destruct (snapLayout_frame os hWnd message wParam lParam m0)
    as (Hb & Hw & Hc & Hr & Hp & Hres & _ & (t & Ht & Hposted)).
  destruct (customWindowHandler_frame os hWnd message wParam lParam
              (snd (snapLayoutHandler os hWnd message wParam lParam m0)))
    as (Hthis & Hhandled & Hother & Hcalc).
  destruct (fst (snapLayoutHandler os hWnd message wParam lParam m0)) eqn:Hsnap.
  { simpl. repeat split; auto; try discriminate. exists t. auto. }
  rewrite Hthis. repeat split; auto.
  - intros Hmsg. rewrite (Hother Hmsg). exact Hr.
  - intros Hunhandled. rewrite Hhandled in Hunhandled.
    apply Z.eqb_neq in Hunhandled. rewrite (Hother Hunhandled).
    exact (Hres eq_refl).
  - destruct (Z.eq_dec message WM_NCCALCSIZE) as [Hmsg|Hmsg].
    + rewrite (Hcalc Hmsg), Ht, <- app_assoc. eexists. split; [reflexivity|].
      intros Hpart c Hin Hpost. apply in_app_or in Hin.
      destruct Hin as [Hin|Hin]; [exact (Hposted Hpart c Hin Hpost)|].
      destruct (isWin10OrGreater os); trace_cases Hin.
    + rewrite (Hother Hmsg). exists t. auto.
Qed.

(** X21.  [windowProc] lets a message through, unhandled and with the
    result slot at zero, without a call that acts on the outside world
    (the window is only queried) and without touching the context or the
    rectangle, whenever the cached window id is not a valid
    top-level window (as for a context that was never set up) or the
    message is none of those the two handlers look at. *)
Theorem windowProc_passes_through (os : Os) (hWnd message wParam lParam : Z)
    (m : Mem) :
  isValidWindow os (windowId (this m)) false true = false
  \/ isInspectedMessage message = false ->
  windowProc os hWnd message wParam lParam m
  = (false, mkMem (this m) FALSE (clientRect m) (trace m)).
Proof.
  intros Hwhy. rewrite windowProc_unfold. cbv zeta.
  destruct (isTeardownMessage message); [reflexivity|].
  destruct Hwhy as [Hinvalid | Hother]; [now rewrite Hinvalid|].
  destruct (negb _); [reflexivity|].
  unfold isInspectedMessage in Hother.
  rewrite !orb_false_iff, !Z.eqb_neq in Hother.
  destruct Hother as ((((H1 & H2) & H3) & H4) & H5).
  assert (Hnot : ~ In message nonClientMouseMessages).
  { intros Hin. apply isNonClientMouseMessage_In in Hin. congruence. }
  rewrite snapLayout_other by assumption. simpl.
  destruct (customWindowHandler_frame os hWnd message wParam lParam
              (mkMem (this m) 0 (clientRect m) (trace m)))
    as (_ & Hhandled & Hsame & _).
  apply Z.eqb_neq in H5.
  rewrite (surjective_pairing (customWindowHandler _ _ _ _ _ _)).
  rewrite Hhandled, H5. f_equal. apply Hsame. now apply Z.eqb_neq.
Qed.

Lemma windowProc_passes_through_witness :
  let fresh := mkMem (Win32WindowContext_new example_abstract) 7
                     (mkRECT (-8) (-8) 1928 1048) [] in
  (isValidWindow example_win10 (windowId (this fresh)) false true = false
   \/ isInspectedMessage WM_NCCALCSIZE = false)
  /\ windowProc example_win10 0x100 WM_NCCALCSIZE TRUE 0 fresh
     = (false, mkMem (Win32WindowContext_new example_abstract) 0
                     (mkRECT (-8) (-8) 1928 1048) []).
Proof.
  intros fresh.
  assert (H : isValidWindow example_win10 (windowId (this fresh)) false true = false
              \/ isInspectedMessage WM_NCCALCSIZE = false)
    by (left; reflexivity).
  split; [exact H|].
  exact (windowProc_passes_through example_win10 0x100 WM_NCCALCSIZE TRUE 0 fresh H).
Defined.

(** X22.  Whatever the message, [windowProc] never changes the
    registrations, the cached window id or the [centered] flag; it
    changes the rectangle for WM_NCCALCSIZE only; the classification
    either stays or becomes [Outside]; the trace only grows; a message
    reported as not handled always leaves the result slot at zero; and a
    message reported as handled is a client-area mouse-leave, a
    non-client mouse message or WM_NCCALCSIZE. *)
Theorem windowProc_effects (os : Os) (hWnd message wParam lParam : Z) (m : Mem) :
  let handled := fst (windowProc os hWnd message wParam lParam m) in
  let m' := snd (windowProc os hWnd message wParam lParam m) in
  base (this m') = base (this m)
  /\ windowId (this m') = windowId (this m)
  /\ centered (this m') = centered (this m)
  /\ (message <> WM_NCCALCSIZE -> clientRect m' = clientRect m)
  /\ (lastHitTestResult (this m') = lastHitTestResult (this m)
      \/ lastHitTestResult (this m') = Outside)
  /\ (exists t, trace m' = trace m ++ t)
  /\ (handled = false -> result m' = FALSE)
  /\ (handled = true ->
      message = WM_MOUSELEAVE \/ In message nonClientMouseMessages
      \/ message = WM_NCCALCSIZE).
Proof.
  destruct (windowProc_frame os hWnd message wParam lParam m)
    as (Hb & Hw & Hc & Hr & Hp & Hres & (t & Ht & _)).
  cbv zeta. repeat (split; [assumption|]).
  split; [exists t; exact Ht|]. split; [exact Hres|].
  rewrite windowProc_unfold. cbv zeta.
  destruct (isTeardownMessage message); [discriminate|].
  destruct (negb _); [discriminate|].
  set (m0 := mkMem (this m) 0 (clientRect m) (trace m)).
  destruct (snapLayout_frame os hWnd message wParam lParam m0)
    as (_ & _ & _ & _ & _ & _ & Hwhy & _).
  destruct (fst (snapLayoutHandler os hWnd message wParam lParam m0)).
  - intros _. destruct (Hwhy eq_refl) as [[-> _] | [Hin _]]; tauto.
  - destruct (customWindowHandler_frame os hWnd message wParam lParam
                (snd (snapLayoutHandler os hWnd message wParam lParam m0)))
      as (_ & -> & _). rewrite Z.eqb_eq. tauto.
Qed.

(** One message while the classification is [Outside]. *)
Lemma windowProc_outside_step (os : Os) (hWnd message wParam lParam : Z) (m : Mem) :
  lastHitTestResult (this m) = Outside ->
  let m' := snd (windowProc os hWnd message wParam lParam m) in
  lastHitTestResult (this m') = Outside
  /\ exists t,
       trace m' = trace m ++ t
       /\ forall c, In c t -> isPosted c = true -> c = synthesizedLeave hWnd.
Proof.
  intros Hout.
  destruct (windowProc_frame os hWnd message wParam lParam m)
    as (_ & _ & _ & _ & Hp & _ & (t & Ht & Hposted)).
  cbv zeta. split; [destruct Hp as [-> | ->]; auto|].
  exists t. split; [exact Ht|]. apply Hposted. rewrite Hout. discriminate.
Qed.

(** X23.  In these sources nothing ever raises the classification: once
    [lastHitTestResult] is [Outside], as it is in a new context, it is
    [Outside] after every sequence of messages through [windowProc].
    Along such a sequence the only messages ever posted are tagged
    client-area mouse-leaves, and no non-client mouse message is ever
    reported as handled. *)
Theorem classification_stays_outside (msgs : list Msg) (m : Mem) :
  lastHitTestResult (this m) = Outside ->
  let m' := windowProc_run msgs m in
  lastHitTestResult (this m') = Outside
  /\ (exists t,
        trace m' = trace m ++ t
        /\ forall c, In c t -> isPosted c = true ->
                     exists hWnd, c = synthesizedLeave hWnd)
  /\ forall os hWnd message wParam lParam,
       In message nonClientMouseMessages ->
       fst (windowProc os hWnd message wParam lParam m') = false.
Proof.
  revert m. induction msgs as [|e msgs IH]; intros m Hout; simpl.
  - split; [exact Hout|]. split.
    + exists []. split; [now rewrite app_nil_r | intros c []].
    + intros os hWnd message wParam lParam Hin. rewrite windowProc_unfold.
      cbv zeta. destruct (isTeardownMessage message); [reflexivity|].
      destruct (negb _); [reflexivity|].
      rewrite snapLayout_nonClient_elsewhere
        by (try exact Hin; simpl; rewrite Hout; discriminate).
      simpl.
      match goal with
      | |- fst (customWindowHandler os hWnd message wParam lParam ?m0) = false =>
        destruct (customWindowHandler_frame os hWnd message wParam lParam m0)
          as (_ & -> & _)
      end.
      apply Z.eqb_neq. simpl in Hin. lia.
  - destruct (windowProc_outside_step (msg_os e) (msg_hWnd e) (msg_message e)
                (msg_wParam e) (msg_lParam e) m Hout) as (Hout1 & t1 & Ht1 & Hp1).
    destruct (IH _ Hout1) as (Hout' & (t & Ht & Hp) & Hnc).
    split; [exact Hout'|]. split; [|exact Hnc].
    exists (t1 ++ t). split; [now rewrite Ht, Ht1, app_assoc|].
    intros c Hin Hposted. apply in_app_or in Hin.
    destruct Hin as [Hin|Hin]; [eauto | auto].
Qed.

Lemma classification_stays_outside_witness :
  let m := example_mem Outside true 0 in
  let msgs := [mkMsg example_win10 0x100 WM_NCMOUSEMOVE HTCLOSE (MAKELPARAM 1900 10);
               mkMsg example_win10 0x100 WM_NCLBUTTONDOWN HTCLOSE (MAKELPARAM 1900 10);
               mkMsg example_win10 0x100 WM_NCMOUSELEAVE 0 0] in
  lastHitTestResult (this m) = Outside
  /\ lastHitTestResult (this (windowProc_run msgs m)) = Outside
  /\ postedMessages (trace (windowProc_run msgs m))
     = [synthesizedLeave 0x100; synthesizedLeave 0x100].
Proof.
  intros m msgs.
  assert (H : lastHitTestResult (this m) = Outside) by reflexivity.
  split; [exact H|].
  destruct (classification_stays_outside msgs m H) as (Hout & _).
  split; [exact Hout | reflexivity].
Defined.

(** ** More on the hook registry *)

Lemma setup_unfold (os : Os) (this : Z) (p : Process) (c : Win32WindowContext) :
  heap p !! this = Some c ->
  m_windowHandle (base c) <> 0 ->
  let winId := QWindow_winId os (m_windowHandle (base c)) in
  let installed := if instance p =? 0 then install p else p in
  setup os this p
  = Some (true,
          mkProcess (<[ winId := this ]> (g_wndProcHash p))
                    (if WNDPROC_isNull (g_qtWindowProc p)
                     then GetWindowLongPtrW_WNDPROC winId p
                     else g_qtWindowProc p)
                    (lastMessageHandled p) (lastMessageResult p)
                    (instance installed)
                    (<[ this := with_windowId winId c ]> (heap p))
                    (SetWindowLongPtrW_WNDPROC winId HookedProc (wndProcs p))
                    (nativeEventFilters installed) (allocated installed)
                    (deleted p) (calls p)).
Proof.
  intros Hc Hwin. unfold setup. rewrite Hc.
  apply Z.eqb_neq in Hwin. rewrite Hwin. simpl.
  destruct (instance p =? 0); reflexivity.
Qed.

Lemma setup_inv (os : Os) (this : Z) (p p1 : Process) (b : bool) :
  RegistryInv p -> setup os this p = Some (b, p1) -> RegistryInv p1.
Proof.
  intros (Hiff & Hfilters & Hrange & Hdel & Hnodup & Hnotin) Hsetup.
  destruct (heap p !! this) as [c|] eqn:Hc;
    [|unfold setup in Hsetup; rewrite Hc in Hsetup; discriminate].
  destruct (Z.eq_dec (m_windowHandle (base c)) 0) as [Hwin|Hwin];
    [unfold setup in Hsetup; rewrite Hc, Hwin in Hsetup; discriminate|].
  rewrite (setup_unfold os this p c Hc Hwin) in Hsetup.
  cbv zeta in Hsetup. injection Hsetup as _ <-.
  unfold RegistryInv. simpl.
  destruct (Z.eqb_spec (instance p) 0) as [Hnone|Hsome]; simpl.
  - repeat split.
    + discriminate.
    + intros Hempty. destruct (insert_non_empty _ _ _ Hempty).
    + now rewrite Hfilters.
    + lia.
    + rewrite Pos2Z.inj_succ. lia.
    + eapply Forall_impl; [exact Hdel|]. simpl. intros d Hd.
      rewrite Pos2Z.inj_succ. lia.
    + exact Hnodup.
    + intros Hin. rewrite List.Forall_forall in Hdel. apply Hdel in Hin. lia.
  - repeat split; try assumption; try lia.
    + intros Hempty. destruct (insert_non_empty _ _ _ Hempty).
    + rewrite Hfilters. apply Z.eqb_neq in Hsome. now rewrite Hsome.
Qed.

Lemma destructor_body_inv (windowId : Z) (p : Process) :
  RegistryInv p -> RegistryInv (destructor_body windowId p).
Proof.
  intros (Hiff & Hfilters & Hrange & Hdel & Hnodup & Hnotin).
  unfold destructor_body. destruct (windowId =? 0); [repeat split; tauto|].
  simpl. destruct (bool_decide _) eqn:Hempty.
  - apply bool_decide_eq_true in Hempty. simpl in Hempty.
    unfold RegistryInv, uninstall. simpl. rewrite Hfilters.
    destruct (Z.eqb_spec (instance p) 0) as [Hnone|Hsome]; simpl.
    + repeat split; auto; try lia; [now rewrite Hnone | now rewrite <- Hnone].
    + unfold removeNativeEventFilter. apply Z.eqb_neq in Hsome. rewrite Hsome.
      simpl. rewrite Z.eqb_refl. simpl. apply Z.eqb_neq in Hsome.
      repeat split; auto; try lia.
      * apply Forall_app. split; [exact Hdel|]. constructor; [lia | constructor].
      * apply NoDup_app. split; [exact Hnodup|]. split.
        -- intros d Hd Hin. apply list_elem_of_In in Hd.
           apply list_elem_of_In in Hin. simpl in Hin.
           destruct Hin as [<-|[]]. contradiction.
        -- apply NoDup_singleton.
      * intros Hin. apply in_app_or in Hin. destruct Hin as [Hin|[Hin|[]]].
        -- rewrite List.Forall_forall in Hdel. apply Hdel in Hin. lia.
        -- congruence.
  - apply bool_decide_eq_false in Hempty. simpl in Hempty.
    unfold RegistryInv. simpl. repeat split; try tauto.
    + intros Hnone. apply Hiff in Hnone. rewrite Hnone in Hempty.
      rewrite delete_empty in Hempty. contradiction.
Qed.

(** [QWKHookedWndProc] leaves the registry and the filter alone. *)
Lemma hooked_keeps_registry (os : Os) (hWnd message wParam lParam : Z)
    (rect : RECT) (p : Process) (o : HookOutcome) :
  QWKHookedWndProc os hWnd message wParam lParam rect p = Some o ->
  g_wndProcHash (process_after o) = g_wndProcHash p
  /\ g_qtWindowProc (process_after o) = g_qtWindowProc p
  /\ instance (process_after o) = instance p
  /\ nativeEventFilters (process_after o) = nativeEventFilters p
  /\ allocated (process_after o) = allocated p
  /\ deleted (process_after o) = deleted p
  /\ wndProcs (process_after o) = wndProcs p.
Proof.
  unfold QWKHookedWndProc. destruct (hWnd =? 0).
  { intros H. injection H as <-. repeat split. }
  destruct (default 0 (g_wndProcHash p !! hWnd) =? 0).
  { intros H. injection H as <-. repeat split. }
  destruct (heap p !! _) as [c|]; [|discriminate].
  destruct (windowProc _ _ _ _ _ _) as [handled m].
  intros H. injection H as <-. repeat split.
Qed.

(** X24.  The life cycle of the native event filter.  In the initial
    process, and after any hooking, unhooking or message from there, the
    filter is installed exactly while some window is registered, it is
    the only filter this code has in the application, and no filter
    object has been deleted twice or is deleted while still
    installed. *)
Theorem registry_invariant (os : Os) (p : Process) :
  (forall objects windows, RegistryInv (Process_initial objects windows))
  /\ (RegistryInv p ->
      (forall this b p1, setup os this p = Some (b, p1) -> RegistryInv p1)
      /\ (forall windowId, RegistryInv (destructor_body windowId p))
      /\ (forall this q, destructor this p = Some q -> RegistryInv q)
      /\ (forall hWnd message wParam lParam rect o,
            QWKHookedWndProc os hWnd message wParam lParam rect p = Some o ->
            RegistryInv (process_after o))
      /\ (g_wndProcHash p <> ∅ -> nativeEventFilters p = [instance p]
                                   /\ instance p <> 0)
      /\ (g_wndProcHash p = ∅ -> nativeEventFilters p = [] /\ instance p = 0)).
Proof.
  split.
  - intros objects windows. unfold RegistryInv, Process_initial. simpl.
    repeat split; auto; try lia; try constructor.
  - intros Hinv. split; [|split; [|split; [|split; [|split]]]].
    + intros this b p1. apply setup_inv. exact Hinv.
    + intros w. apply destructor_body_inv. exact Hinv.
    + intros this q. unfold destructor.
      destruct (heap p !! this) as [c|]; [|discriminate].
      intros H. injection H as <-.
      pose proof (destructor_body_inv (windowId c) p Hinv) as Hq.
      unfold RegistryInv, with_heap in *. simpl. exact Hq.
    + intros hWnd message wParam lParam rect o Ho.
      destruct (hooked_keeps_registry _ _ _ _ _ _ _ _ Ho)
        as (H1 & _ & H3 & H4 & H5 & H6 & _).
      unfold RegistryInv. rewrite H1, H3, H4, H5, H6. exact Hinv.
    + destruct Hinv as (Hiff & Hfilters & _). intros Hne.
      assert (Hinst : instance p <> 0) by tauto.
      split; [|exact Hinst]. apply Z.eqb_neq in Hinst.
      now rewrite Hinst in Hfilters.
    + destruct Hinv as (Hiff & Hfilters & _). intros He.
      assert (Hinst : instance p = 0) by tauto.
      split; [|exact Hinst]. now rewrite Hinst in Hfilters.
Qed.

Lemma registry_invariant_witness :
  RegistryInv example_process /\ RegistryInv example_hooked.
Proof.
  destruct (registry_invariant example_win10 example_process) as [Hinit Hstep].
  assert (H0 : RegistryInv example_process) by apply Hinit.
  split; [exact H0|].
  destruct (Hstep H0) as (Hsetup & _).
  exact (Hsetup 0x7000 true example_hooked eq_refl).
Defined.

(** X25.  [setup] on a live context with a window always succeeds.
    Afterwards the registry maps the window's id to this context and
    every other entry is as before, the id is cached in the context, the
    window, if it exists, has the hook as its procedure, a filter is
    installed, and the original procedure is the one recorded before, or,
    when none was recorded, the procedure the window had. *)
Theorem setup_outcome (os : Os) (this : Z) (p : Process) (c : Win32WindowContext) :
  heap p !! this = Some c ->
  m_windowHandle (base c) <> 0 ->
  let winId := QWindow_winId os (m_windowHandle (base c)) in
  exists p1,
    setup os this p = Some (true, p1)
    /\ g_wndProcHash p1 !! winId = Some this
    /\ (forall hWnd, hWnd <> winId -> g_wndProcHash p1 !! hWnd = g_wndProcHash p !! hWnd)
    /\ heap p1 !! this = Some (with_windowId winId c)
    /\ (forall other, other <> this -> heap p1 !! other = heap p !! other)
    /\ (is_Some (wndProcs p !! winId) -> wndProcs p1 !! winId = Some HookedProc)
    /\ (forall hWnd, hWnd <> winId -> wndProcs p1 !! hWnd = wndProcs p !! hWnd)
    /\ instance p1 <> 0
    /\ (instance p <> 0 -> instance p1 = instance p
                           /\ nativeEventFilters p1 = nativeEventFilters p)
    /\ (g_qtWindowProc p <> NullProc -> g_qtWindowProc p1 = g_qtWindowProc p)
    /\ (g_qtWindowProc p = NullProc ->
        g_qtWindowProc p1 = default NullProc (wndProcs p !! winId))
    /\ lastMessageHandled p1 = lastMessageHandled p
    /\ lastMessageResult p1 = lastMessageResult p
    /\ calls p1 = calls p.
Proof.
  intros Hc Hwin winId. eexists. split; [apply (setup_unfold os this p c Hc Hwin)|].
  cbv zeta. fold winId. simpl.
  split; [apply lookup_insert_eq|].
  split; [intros hWnd Hne; apply lookup_insert_ne; congruence|].
  split; [apply lookup_insert_eq|].
  split; [intros other Hne; apply lookup_insert_ne; congruence|].
  split.
  { intros [f Hf]. unfold SetWindowLongPtrW_WNDPROC. rewrite Hf.
    apply lookup_insert_eq. }
  split.
  { intros hWnd Hne. unfold SetWindowLongPtrW_WNDPROC.
    destruct (wndProcs p !! winId); [|reflexivity].
    apply lookup_insert_ne. congruence. }
  split.
  { destruct (Z.eqb_spec (instance p) 0); [discriminate | assumption]. }
  split.
  { intros Hinst. apply Z.eqb_neq in Hinst. rewrite Hinst. auto. }
  split.
  { intros Hrec. destruct (g_qtWindowProc p); [contradiction|reflexivity..]. }
  split.
  { intros ->. reflexivity. }
  auto.
Qed.

Lemma setup_outcome_witness :
  heap example_process !! 0x7000 = Some (Win32WindowContext_new example_abstract)
  /\ m_windowHandle (base (Win32WindowContext_new example_abstract)) <> 0
  /\ exists p1,
       setup example_win10 0x7000 example_process = Some (true, p1)
       /\ g_wndProcHash p1 !! 0x100 = Some 0x7000
       /\ wndProcs p1 !! 0x100 = Some HookedProc
       /\ g_qtWindowProc p1 = OtherProc 1.
Proof.
  assert (H1 : heap example_process !! 0x7000
               = Some (Win32WindowContext_new example_abstract)) by reflexivity.
  assert (H2 : m_windowHandle (base (Win32WindowContext_new example_abstract)) <> 0)
    by (vm_compute; discriminate).
  split; [exact H1|]. split; [exact H2|].
  destruct (setup_outcome example_win10 0x7000 example_process _ H1 H2)
    as (p1 & Hsetup & Hreg & _ & _ & _ & Hhook & _ & _ & _ & _ & Horig & _).
  exists p1. split; [exact Hsetup|]. split; [exact Hreg|].
  split; [apply Hhook; eexists; reflexivity | apply Horig; reflexivity].
Defined.

Lemma destructor_body_fields (windowId : Z) (p : Process) :
  let q := destructor_body windowId p in
  g_wndProcHash q = (if windowId =? 0 then g_wndProcHash p
                     else delete windowId (g_wndProcHash p))
  /\ heap q = heap p /\ wndProcs q = wndProcs p
  /\ g_qtWindowProc q = g_qtWindowProc p
  /\ lastMessageHandled q = lastMessageHandled p
  /\ lastMessageResult q = lastMessageResult p
  /\ calls q = calls p
  /\ instance q = (if negb (windowId =? 0)
                      && bool_decide (delete windowId (g_wndProcHash p) = ∅)
                   then 0 else instance p).
Proof.
  unfold destructor_body. destruct (windowId =? 0); simpl; [repeat split|].
  destruct (bool_decide _); repeat split.
Qed.

Lemma destructor_body_filters (windowId : Z) (p : Process) :
  let q := destructor_body windowId p in
  let emptied := negb (windowId =? 0)
                 && bool_decide (delete windowId (g_wndProcHash p) = ∅) in
  nativeEventFilters q
  = (if emptied
     then removeNativeEventFilter (instance p) (nativeEventFilters p)
     else nativeEventFilters p)
  /\ deleted q
     = (if emptied && negb (instance p =? 0)
        then deleted p ++ [instance p] else deleted p).
Proof.
  unfold destructor_body. destruct (windowId =? 0); simpl; [split; reflexivity|].
  destruct (bool_decide _); simpl; [|split; reflexivity].
  destruct (instance p =? 0); split; reflexivity.
Qed.

(** X26.  Destroying a live context removes the object and, when it has
    a cached window id, the registry entry of that id, whichever context
    the entry named; every other entry stays, also one that maps another
    handle to the same context.  The window keeps the hook as its
    procedure and the recorded original procedure is kept.  The filter is
    uninstalled (taken out of the application's filters and deleted)
    exactly when an entry was looked for and the registry is empty
    afterwards; a context that was never set up leaves registry and
    filter alone. *)
Theorem destructor_outcome (this : Z) (p : Process) (c : Win32WindowContext) :
  heap p !! this = Some c ->
  exists q,
    destructor this p = Some q
    /\ heap q !! this = None
    /\ (forall other, other <> this -> heap q !! other = heap p !! other)
    /\ (windowId c <> 0 -> g_wndProcHash q !! windowId c = None)
    /\ (forall hWnd, hWnd <> windowId c ->
          g_wndProcHash q !! hWnd = g_wndProcHash p !! hWnd)
    /\ wndProcs q = wndProcs p
    /\ g_qtWindowProc q = g_qtWindowProc p
    /\ (windowId c <> 0 -> g_wndProcHash q = ∅ -> instance q = 0)
    /\ (g_wndProcHash q <> ∅ -> instance q = instance p)
    /\ (windowId c = 0 -> q = with_heap (delete this (heap p)) p)
    /\ nativeEventFilters q
       = (if negb (windowId c =? 0) && bool_decide (g_wndProcHash q = ∅)
          then removeNativeEventFilter (instance p) (nativeEventFilters p)
          else nativeEventFilters p)
    /\ deleted q
       = (if negb (windowId c =? 0) && bool_decide (g_wndProcHash q = ∅)
             && negb (instance p =? 0)
          then deleted p ++ [instance p] else deleted p).
Proof.
  intros Hc. unfold destructor. rewrite Hc. eexists. split; [reflexivity|].
  destruct (destructor_body_fields (windowId c) p)
    as (Hhash & Hheap & Hprocs & Horig & _ & _ & _ & Hinst).
  destruct (destructor_body_filters (windowId c) p) as (Hfilters & Hdeleted).
  unfold with_heap. simpl. rewrite Hheap, Hhash, Hprocs, Horig, Hinst.
  rewrite Hfilters, Hdeleted.
  split; [apply lookup_delete_eq|].
  split; [intros other Hne; apply lookup_delete_ne; congruence|].
  destruct (Z.eqb_spec (windowId c) 0) as [Hnull|Hset]; simpl.
  - split; [contradiction|]. split; [reflexivity|].
    split; [reflexivity|]. split; [reflexivity|].
    split; [contradiction|]. split; [reflexivity|].
    split; [|split; reflexivity].
    intros _. unfold destructor_body. apply Z.eqb_eq in Hnull.
    now rewrite Hnull.
  - split; [intros _; apply lookup_delete_eq|].
    split; [intros hWnd Hne; apply lookup_delete_ne; congruence|].
    split; [reflexivity|]. split; [reflexivity|].
    split; [intros _ ->; now rewrite bool_decide_eq_true_2|].
    split; [intros Hne; now rewrite bool_decide_eq_false_2|].
    split; [contradiction|]. split; reflexivity.
Qed.

Lemma destructor_outcome_witness :
  heap example_hooked !! 0x7000
  = Some (with_windowId 0x100 (Win32WindowContext_new example_abstract))
  /\ exists q,
       destructor 0x7000 example_hooked = Some q
       /\ g_wndProcHash q !! 0x100 = None
       /\ wndProcs q !! 0x100 = Some HookedProc
       /\ instance q = 0.
Proof.
  assert (H : heap example_hooked !! 0x7000
              = Some (with_windowId 0x100 (Win32WindowContext_new example_abstract)))
    by reflexivity.
  split; [exact H|].
  destruct (destructor_outcome 0x7000 example_hooked _ H)
    as (q & Hq & _ & _ & Hgone & _ & Hprocs & _ & Hinst & _).
  exists q. split; [exact Hq|].
  assert (Hid : windowId (with_windowId 0x100 (Win32WindowContext_new example_abstract))
                <> 0) by (vm_compute; discriminate).
  split; [exact (Hgone Hid)|]. split; [now rewrite Hprocs|].
  apply (Hinst Hid). unfold destructor in Hq. rewrite H in Hq.
  injection Hq as <-. reflexivity.
Defined.

Lemma hooked_unfold (os : Os) (hWnd message wParam lParam : Z) (rect : RECT)
    (p : Process) (ctx : Z) (c : Win32WindowContext) :
  hWnd <> 0 ->
  g_wndProcHash p !! hWnd = Some ctx ->
  ctx <> 0 ->
  heap p !! ctx = Some c ->
  let run := windowProc os hWnd message wParam lParam
               (mkMem c (lastMessageResult p) rect (calls p)) in
  QWKHookedWndProc os hWnd message wParam lParam rect p
  = Some (mkOutcome
            (CallWindowProcW_ret os (g_qtWindowProc p) hWnd message wParam lParam)
            (clientRect (snd run))
            (mkProcess (g_wndProcHash p) (g_qtWindowProc p) (fst run)
                       (result (snd run)) (instance p)
                       (<[ ctx := this (snd run) ]> (heap p)) (wndProcs p)
                       (nativeEventFilters p) (allocated p) (deleted p)
                       (trace (snd run)
                        ++ [CallWindowProcW (g_qtWindowProc p) hWnd message
                                            wParam lParam]))).
Proof.
  intros Hh Hreg Hctx Hc run. unfold QWKHookedWndProc.
  apply Z.eqb_neq in Hh, Hctx. rewrite Hh, Hreg. simpl. rewrite Hctx, Hc.
  fold run. destruct run as [handled m]. reflexivity.
Qed.

(** X27.  Hooking and dispatch fit together: after [setup] on a window
    the hooked procedure finds the context under the window's handle,
    runs its [windowProc] on the context as [setup] left it, records the
    verdict, and passes the message on to the original procedure, which
    is the procedure the window had before when this is the first hook
    of the process. *)
Theorem hooked_after_setup (os os' : Os) (self : Z) (p : Process)
    (c : Win32WindowContext) (message wParam lParam : Z) (rect : RECT) :
  heap p !! self = Some c ->
  m_windowHandle (base c) <> 0 ->
  self <> 0 ->
  let winId := QWindow_winId os (m_windowHandle (base c)) in
  winId <> 0 ->
  exists p1 o,
    setup os self p = Some (true, p1)
    /\ QWKHookedWndProc os' winId message wParam lParam rect p1 = Some o
    /\ let run := windowProc os' winId message wParam lParam
                    (mkMem (with_windowId winId c) (lastMessageResult p) rect
                           (calls p)) in
       lastMessageHandled (process_after o) = fst run
       /\ lastMessageResult (process_after o) = result (snd run)
       /\ heap (process_after o) !! self = Some (this (snd run))
       /\ calls (process_after o)
          = trace (snd run)
            ++ [CallWindowProcW (g_qtWindowProc p1) winId message wParam lParam]
       /\ (g_qtWindowProc p = NullProc ->
           g_qtWindowProc p1 = default NullProc (wndProcs p !! winId)).
Proof.
  intros Hc Hwin Hthis winId Hid.
  eexists. eexists. split; [apply (setup_unfold os self p c Hc Hwin)|].
  cbv zeta. fold winId.
  split.
  { apply (hooked_unfold os' winId message wParam lParam rect _ self
             (with_windowId winId c) Hid); simpl;
      [apply lookup_insert_eq | exact Hthis | apply lookup_insert_eq]. }
  simpl. split; [reflexivity|]. split; [reflexivity|].
  split; [apply lookup_insert_eq|]. split; [reflexivity|].
  intros ->. reflexivity.
Qed.

Lemma hooked_after_setup_witness :
  heap example_process !! 0x7000 = Some (Win32WindowContext_new example_abstract)
  /\ exists p1 o,
       setup example_win10 0x7000 example_process = Some (true, p1)
       /\ QWKHookedWndProc example_win10 0x100 WM_NCCALCSIZE FALSE 0
            (mkRECT (-8) (-8) 1928 1048) p1 = Some o
       /\ lastMessageHandled (process_after o) = true
       /\ calls (process_after o)
          = [DefWindowProcW 0x100 WM_NCCALCSIZE FALSE 0;
             CallWindowProcW (OtherProc 1) 0x100 WM_NCCALCSIZE FALSE 0].
Proof.
  assert (H1 : heap example_process !! 0x7000
               = Some (Win32WindowContext_new example_abstract)) by reflexivity.
  split; [exact H1|].
  destruct (hooked_after_setup example_win10 example_win10 0x7000 example_process
              _ WM_NCCALCSIZE FALSE 0 (mkRECT (-8) (-8) 1928 1048) H1)
    as (p1 & o & Hsetup & Hhook & Hhandled & _ & _ & Hcalls & Horig).
  - vm_compute. discriminate.
  - lia.
  - vm_compute. discriminate.
  - exists p1, o. split; [exact Hsetup|]. split; [exact Hhook|].
    split; [exact Hhandled|]. rewrite Hcalls, (Horig eq_refl). reflexivity.
Defined.

(** X28.  After the context of a window has been destroyed, a message
    for that window still arrives at the hooked procedure, which the
    destructor left in place, finds no context and goes to the default
    procedure of the system, not to the original procedure recorded at
    hooking time. *)
Theorem hooked_after_destructor (os : Os) (this : Z) (p : Process)
    (c : Win32WindowContext) (message wParam lParam : Z) (rect : RECT) :
  heap p !! this = Some c ->
  windowId c <> 0 ->
  exists q,
    destructor this p = Some q
    /\ wndProcs q !! windowId c = wndProcs p !! windowId c
    /\ QWKHookedWndProc os (windowId c) message wParam lParam rect q
       = Some (mkOutcome (DefWindowProcW_ret os (windowId c) message wParam lParam)
                         rect
                         (log (DefWindowProcW (windowId c) message wParam lParam) q)).
Proof.
  intros Hc Hid. unfold destructor. rewrite Hc. eexists. split; [reflexivity|].
  destruct (destructor_body_fields (windowId c) p)
    as (Hhash & _ & Hprocs & _).
  split; [unfold with_heap; simpl; now rewrite Hprocs|].
  pose proof Hid as Hid'. apply Z.eqb_neq in Hid'.
  set (q := with_heap _ _).
  assert (Hlook : g_wndProcHash q !! windowId c = None).
  { subst q. unfold with_heap. simpl. rewrite Hhash, Hid'.
    apply lookup_delete_eq. }
  unfold QWKHookedWndProc. rewrite Hid', Hlook. reflexivity.
Qed.

Lemma hooked_after_destructor_witness :
  heap example_hooked !! 0x7000
  = Some (with_windowId 0x100 (Win32WindowContext_new example_abstract))
  /\ exists q,
       destructor 0x7000 example_hooked = Some q
       /\ wndProcs q !! 0x100 = Some HookedProc
       /\ calls (process_after
                   (default (mkOutcome 0 RECT_zero q)
                      (QWKHookedWndProc example_win10 0x100 WM_MOUSEMOVE 0 0
                         RECT_zero q)))
          = [DefWindowProcW 0x100 WM_MOUSEMOVE 0 0].
Proof.
  assert (H : heap example_hooked !! 0x7000
              = Some (with_windowId 0x100 (Win32WindowContext_new example_abstract)))
    by reflexivity.
  split; [exact H|].
  destruct (hooked_after_destructor example_win10 0x7000 example_hooked _
              WM_MOUSEMOVE 0 0 RECT_zero H) as (q & Hq & Hprocs & Hhook).
  - vm_compute. discriminate.
  - exists q. split; [exact Hq|]. split; [exact Hprocs|].
    simpl in Hhook. rewrite Hhook. simpl.
    unfold destructor in Hq. rewrite H in Hq. injection Hq as <-. reflexivity.
Defined.

(** X29.  The native event filter never filters when Qt hands it a null
    result pointer.  Otherwise it reports the verdict recorded by the
    last message that reached a context: a message for a handle without
    a context, which goes to the default procedure, leaves the recorded
    verdict in place, so the filter goes on reporting the earlier
    one. *)
Theorem nativeEventFilter_keeps_last_verdict (os : Os)
    (hWnd message wParam lParam : Z) (rect : RECT) (p : Process) :
  nativeEventFilter true p = (false, None)
  /\ nativeEventFilter false p
     = (lastMessageHandled p,
        if lastMessageHandled p then Some (lastMessageResult p) else None)
  /\ (default 0 (g_wndProcHash p !! hWnd) = 0 ->
      exists o,
        QWKHookedWndProc os hWnd message wParam lParam rect p = Some o
        /\ forall result_isNull,
             nativeEventFilter result_isNull (process_after o)
             = nativeEventFilter result_isNull p).
Proof.
  split; [reflexivity|]. split.
  - unfold nativeEventFilter. destruct (lastMessageHandled p); reflexivity.
  - intros Hnone. unfold QWKHookedWndProc. rewrite Hnone. simpl.
    destruct (hWnd =? 0); eexists; (split; [reflexivity|]); reflexivity.
Qed.

Lemma nativeEventFilter_keeps_last_verdict_witness :
  let p := mkProcess {[ 0x100 := 0x7000 ]} (OtherProc 1) true WVR_REDRAW 1
             {[ 0x7000 := example_context Outside false ]}
             {[ 0x100 := HookedProc; 0x300 := HookedProc ]} [1] 2%positive [] [] in
  default 0 (g_wndProcHash p !! 0x300) = 0
  /\ exists o,
       QWKHookedWndProc example_win10 0x300 WM_NCCALCSIZE TRUE 0 RECT_zero p = Some o
       /\ nativeEventFilter false (process_after o) = (true, Some WVR_REDRAW).
Proof.
  intros p.
  assert (H : default 0 (g_wndProcHash p !! 0x300) = 0) by reflexivity.
  split; [exact H|].
  destruct (nativeEventFilter_keeps_last_verdict example_win10 0x300 WM_NCCALCSIZE
              TRUE 0 RECT_zero p) as (_ & _ & Hstale).
  destruct (Hstale H) as (o & Ho & Hsame).
  exists o. split; [exact Ho|]. rewrite Hsame. reflexivity.
Defined.
